(** * Agreement manager: the server revisions, embedded and checked

    The repository holds several revisions of one Express/PostgreSQL server.
    Each revision is embedded in a module of its own:

    - [Base64Rev]  : src/unnamed/part_000, first server  (base64 passwords,
                     debug endpoints, restore without a transaction);
    - [PlainRev]   : src/unnamed/part_000, second server (plain passwords,
                     restore between BEGIN and COMMIT/ROLLBACK);
    - [BcryptRev]  : src/unnamed/part_001, first server  (bcrypt, JWT);
    - [Argon2Rev]  : src/unnamed/part_002                 (argon2, JWT);
    - [Client]     : src/server.js, the browser script (the numbers of the
                     agreement form).

    A handler is a function from the store (the database tables) and the
    request to the new store and the response.  Numbers are IEEE 754
    doubles (primitive floats), route parameters are the texts of the URL.
    What is not code of the repository (the password hashes, the JWT
    library, the datatype checks of the storage engine, [parseFloat] on a
    string) is a [Variable] of the section that needs it. *)

From Stdlib Require Import List String Ascii ZArith NArith Bool Lia Floats.
Import ListNotations.
Local Open Scope string_scope.
Local Open Scope Z_scope.

(* ================================================================== *)
(** ** JavaScript values of a JSON request body *)

(** A field of [req.body] whose handler treats it as a number.  [JObject]
    is an object or an array: [str] is the text [ToString] gives for it,
    [sent] the text node-postgres sends when it is a query parameter. *)
Inductive JsValue : Type :=
| JUndefined
| JNull
| JBool (b : bool)
| JNumber (f : float)
| JString (s : string)
| JObject (str sent : string).

(** A field the handlers treat as text: [None] is an absent (or null)
    field, which node-postgres sends as NULL. *)
Definition JsText := option string.

Definition str_truthy (s : string) : bool :=
  match s with EmptyString => false | _ => true end.

(** [!!v] for a text field. *)
Definition text_truthy (v : JsText) : bool :=
  match v with Some s => str_truthy s | None => false end.

(** [v || null] for a text field, as a query parameter. *)
Definition text_or_null (v : JsText) : option string :=
  if text_truthy v then v else None.

(** [v || d] for a text field and a string literal [d]. *)
Definition text_or (v : JsText) (d : string) : option string :=
  if text_truthy v then v else Some d.

(** A template literal prints an absent field as "undefined". *)
Definition template (v : JsText) : string :=
  match v with Some s => s | None => "undefined" end.

(** A template literal prints a NULL column (JavaScript null) as "null". *)
Definition template_null (v : option string) : string :=
  match v with Some s => s | None => "null" end.

(* ------------------------------------------------------------------ *)
(** *** Route parameters

    [req.params.id] is the text of the URL segment.  JavaScript reads it
    with [parseInt(id, 10)]; the storage engine reads it as an integer when
    it is the parameter of [WHERE id = $n]. *)

Definition is_digit (c : ascii) : bool :=
  let n := N_of_ascii c in ((48 <=? n) && (n <=? 57))%N.

Definition digit_value (c : ascii) : Z := Z.of_N (N_of_ascii c) - 48.

(** Space, tab, line feed, vertical tab, form feed, carriage return. *)
Definition is_space (c : ascii) : bool :=
  let n := N_of_ascii c in ((n =? 32) || ((9 <=? n) && (n <=? 13)))%N.

Fixpoint skip_spaces (s : string) : string :=
  match s with
  | String c r => if is_space c then skip_spaces r else s
  | EmptyString => EmptyString
  end.

(** The value of the digits [s] starts with, after [acc], and the rest. *)
Fixpoint read_digits (acc : Z) (s : string) : Z * string :=
  match s with
  | String c r =>
      if is_digit c then read_digits (acc * 10 + digit_value c) r else (acc, s)
  | EmptyString => (acc, EmptyString)
  end.

Definition read_sign (s : string) : bool * string :=
  match s with
  | String c r =>
      if Ascii.eqb c "-"%char then (true, r)
      else if Ascii.eqb c "+"%char then (false, r)
      else (false, s)
  | EmptyString => (false, s)
  end.

Definition starts_with_digit (s : string) : bool :=
  match s with String c _ => is_digit c | EmptyString => false end.

(** JavaScript's white space beyond ASCII, in the UTF-8 bytes of the text:
    U+00A0; U+1680, U+2000 to U+200A, U+2028, U+2029, U+202F, U+205F,
    U+3000 and U+FEFF. *)
Definition js_space_2 (a b : ascii) : bool :=
  ((N_of_ascii a =? 194) && (N_of_ascii b =? 160))%N.

Definition js_space_3 (a b c : ascii) : bool :=
  let x := N_of_ascii a in
  let y := N_of_ascii b in
  let z := N_of_ascii c in
  (((x =? 225) && (y =? 154) && (z =? 128))
   || ((x =? 226) && (y =? 128)
       && (((128 <=? z) && (z <=? 138)) || (z =? 168) || (z =? 169) || (z =? 175)))
   || ((x =? 226) && (y =? 129) && (z =? 159))
   || ((x =? 227) && (y =? 128) && (z =? 128))
   || ((x =? 239) && (y =? 187) && (z =? 191)))%N.

(** The white space [parseInt] skips: every white space and line
    terminator of the language. *)
Fixpoint skip_js_spaces (s : string) : string :=
  match s with
  | EmptyString => EmptyString
  | String a r =>
      if is_space a then skip_js_spaces r
      else
        match r with
        | String b r1 =>
            if js_space_2 a b then skip_js_spaces r1
            else
              match r1 with
              | String c r2 => if js_space_3 a b c then skip_js_spaces r2 else s
              | EmptyString => s
              end
        | EmptyString => s
        end
  end.

(** [parseInt(s, 10)]: leading white space, a sign, then digits up to the
    first other character; [None] is NaN.  (The value is exact, as it is
    for the ids of a table.) *)
Definition parseInt10 (s : string) : option Z :=
  let '(neg, r) := read_sign (skip_js_spaces s) in
  if starts_with_digit r then
    let '(v, _) := read_digits 0 r in Some (if neg then - v else v)
  else None.

Definition is_hex_digit (c : ascii) : bool :=
  let n := N_of_ascii c in
  (((48 <=? n) && (n <=? 57)) || ((65 <=? n) && (n <=? 70))
   || ((97 <=? n) && (n <=? 102)))%N.

Definition hex_value (c : ascii) : Z :=
  let n := Z.of_N (N_of_ascii c) in
  if n <=? 57 then n - 48 else if n <=? 70 then n - 55 else n - 87.

Definition is_octal_digit (c : ascii) : bool :=
  let n := N_of_ascii c in ((48 <=? n) && (n <=? 55))%N.

Definition is_binary_digit (c : ascii) : bool :=
  let n := N_of_ascii c in ((48 <=? n) && (n <=? 49))%N.

(** The digits of an integer literal of the engine in one base: digits
    and single underscores, each underscore before a digit.  The value
    after [acc], the rest of the text and whether anything was read;
    [None] is a misplaced underscore. *)
Fixpoint read_literal (is_d : ascii -> bool) (val : ascii -> Z) (base : Z)
    (moved : bool) (acc : Z) (s : string) : option (Z * string * bool) :=
  match s with
  | String c r =>
      if is_d c then read_literal is_d val base true (acc * base + val c) r
      else if Ascii.eqb c "_"%char then
        match r with
        | String d _ =>
            if is_d d then read_literal is_d val base true acc r else None
        | EmptyString => None
        end
      else Some (acc, s, moved)
  | EmptyString => Some (acc, EmptyString, moved)
  end.

(** The literal after the sign: [0x], [0o] and [0b] announce a base; a
    decimal literal starts with a digit. *)
Definition read_integer (r : string) : option (Z * string * bool) :=
  match r with
  | String z (String x r') =>
      if Ascii.eqb z "0"%char && (Ascii.eqb x "x"%char || Ascii.eqb x "X"%char)
      then read_literal is_hex_digit hex_value 16 false 0 r'
      else if Ascii.eqb z "0"%char && (Ascii.eqb x "o"%char || Ascii.eqb x "O"%char)
      then read_literal is_octal_digit digit_value 8 false 0 r'
      else if Ascii.eqb z "0"%char && (Ascii.eqb x "b"%char || Ascii.eqb x "B"%char)
      then read_literal is_binary_digit digit_value 2 false 0 r'
      else if is_digit z then read_literal is_digit digit_value 10 false 0 r
      else None
  | _ => if starts_with_digit r then read_literal is_digit digit_value 10 false 0 r
         else None
  end.

(** The engine's input of a 32-bit integer, as PostgreSQL 16 and later
    read it: white space, a sign, a literal (decimal, or hexadecimal, octal
    or binary behind its prefix, with underscores between digits), white
    space, and nothing else; [None] is the error "invalid input syntax for
    type integer" or "out of range".  (Earlier engines read the decimal
    literals without underscores only and refuse the others.) *)
Definition int4_in (s : string) : option Z :=
  let '(neg, r) := read_sign (skip_spaces s) in
  match read_integer r with
  | Some (v, rest, true) =>
      let v := if neg then - v else v in
      match skip_spaces rest with
      | EmptyString =>
          if (-2147483648 <=? v) && (v <=? 2147483647) then Some v else None
      | String _ _ => None
      end
  | _ => None
  end.

(** *** Columns with a length

    [VARCHAR(n)] counts characters: the bytes of the UTF-8 text that do not
    continue a character. *)
Definition is_continuation (c : ascii) : bool := (N_of_ascii c / 64 =? 2)%N.

Fixpoint char_length (t : string) : nat :=
  match t with
  | EmptyString => O
  | String c r => if is_continuation c then char_length r else S (char_length r)
  end.

(** What a [VARCHAR(n)] column stores for the text [t]: the text, or the
    text cut to [n] characters when all that is cut is spaces; [None] is the
    error "value too long for type character varying(n)". *)
Definition varchar (n : nat) (t : string) : option string :=
  let len := char_length t in
  if (len <=? n)%nat then Some t
  else
    let k := (len - n)%nat in
    let r := rev (list_ascii_of_string t) in
    if forallb (fun c => Ascii.eqb c " "%char) (firstn k r)
    then Some (string_of_list_ascii (rev (skipn k r)))
    else None.

(** The same for a nullable parameter: NULL is stored as NULL. *)
Definition varchar_col (n : nat) (v : option string) : option (option string) :=
  match v with
  | None => Some None
  | Some t => option_map Some (varchar n t)
  end.

(** [!!f] for a number: NaN, +0 and -0 are falsy. *)
Definition num_truthy (f : float) : bool :=
  negb (PrimFloat.is_nan f || PrimFloat.is_zero f).

(** [f || 0]. *)
Definition orZero (f : float) : float :=
  if num_truthy f then f else 0%float.

Definition js_truthy (v : JsValue) : bool :=
  match v with
  | JUndefined | JNull => false
  | JBool b => b
  | JNumber f => num_truthy f
  | JString s => str_truthy s
  | JObject _ _ => true
  end.

Section ParseFloat.
(** The engine's [parseFloat] on a string: the number denoted by the
    longest numeric prefix, NaN when there is none. *)
Variable parseFloatString : string -> float.

(** [parseFloat(v)] is [parseFloat(ToString(v))].  A number prints and
    parses back to itself, except that -0 prints as "0". *)
Definition parseFloat (v : JsValue) : float :=
  match v with
  | JUndefined | JNull | JBool _ => PrimFloat.nan
  | JNumber f => if PrimFloat.is_zero f then 0%float else f
  | JString s => parseFloatString s
  | JObject str _ => parseFloatString str
  end.

(** [parseFloat(v) || 0], the idiom of every monetary field. *)
Definition money (v : JsValue) : float := orZero (parseFloat v).
End ParseFloat.

(* ================================================================== *)
(** ** Base64, for [simpleHash] *)

Definition b64_alphabet : string :=
  "ABCDEFGHIJKLMNOPQRSTUVWXYZabcdefghijklmnopqrstuvwxyz0123456789+/".

Definition b64_digit (n : N) : ascii :=
  match String.get (N.to_nat n) b64_alphabet with
  | Some c => c
  | None => "="%char
  end.

(** [Buffer.toString('base64')] over the bytes of the buffer. *)
Fixpoint base64 (bs : list N) : string :=
  match bs with
  | [] => ""
  | [a] =>
      String (b64_digit (a / 4))
        (String (b64_digit ((a mod 4) * 16)) "==")
  | [a; b] =>
      String (b64_digit (a / 4))
        (String (b64_digit ((a mod 4) * 16 + b / 16))
           (String (b64_digit ((b mod 16) * 4)) "="))
  | a :: b :: c :: rest =>
      String (b64_digit (a / 4))
        (String (b64_digit ((a mod 4) * 16 + b / 16))
           (String (b64_digit ((b mod 16) * 4 + c / 64))
              (String (b64_digit (c mod 64)) (base64 rest))))
  end%N.

(** [Buffer.from(s)]: a string of the model is the UTF-8 text, byte by byte. *)
Definition bytes_of (s : string) : list N :=
  map N_of_ascii (list_ascii_of_string s).

(* ================================================================== *)
(** ** The store: tables of the database *)

(** A value as node-postgres sends it for a numeric column. *)
Inductive SqlValue : Type :=
| SqlNull
| SqlText (s : string)
| SqlNum (f : float).

(** [prepareValue] of node-postgres for a value passed as it came. *)
Definition prepareValue (v : JsValue) : SqlValue :=
  match v with
  | JUndefined | JNull => SqlNull
  | JBool b => SqlText (if b then "true" else "false")
  | JNumber f => SqlNum f
  | JString s => SqlText s
  | JObject _ sent => SqlText sent
  end.

(** The columns of [users] a handler writes. *)
Record UserCols : Type := {
  username : option string;
  password : option string;
  role : option string;
  user_created_at : option string;
  last_login : option string
}.

Record UserRow : Type := { user_id : Z; user_cols : UserCols }.

(** The columns of [agreements] a handler writes ([id] and [created_at]
    are given by the engine).  The two [payment_received_date] columns exist
    in [Base64Rev] only; the seven profit columns are absent from
    [Argon2Rev]. *)
Record AgreementCols : Type := {
  owner_name : option string;
  location : option string;
  token_number : option string;
  agreement_date : option string;
  owner_contact : option string;
  tenant_contact : option string;
  email : option string;
  expiry_date : option string;
  reminder_date : option string;
  cc_email : option string;
  agent_name : option string;
  total_payment : SqlValue;
  payment_owner : SqlValue;
  payment_tenant : SqlValue;
  payment_received_date1 : option string;
  payment_received_date2 : option string;
  payment_due : SqlValue;
  agreement_status : option string;
  biometric_date : option string;
  actual_cost : SqlValue;
  agent_commission : SqlValue;
  other_expenses : SqlValue;
  gross_profit : SqlValue;
  net_profit : SqlValue;
  profit_margin : SqlValue
}.

Record AgreementRow : Type := { agreement_id : Z; agreement_cols : AgreementCols }.

Record LogRow : Type := {
  log_username : option string;
  log_action : string;
  log_details : string;
  log_ip : option string
}.

(** The row [id = 1] of [system_settings]. *)
Record SettingsRow : Type := {
  default_cc_email : SqlValue;
  company_name : SqlValue;
  reminder_days_before : SqlValue;
  date_format : SqlValue;
  currency_symbol : SqlValue;
  session_timeout : SqlValue;
  max_records_per_page : SqlValue
}.

Record Store : Type := {
  users : list UserRow;
  agreements : list AgreementRow;
  activity_logs : list LogRow;
  system_settings : option SettingsRow;
  users_id_seq : Z;
  agreements_id_seq : Z
}.

Definition set_users (s : Store) (us : list UserRow) : Store :=
  {| users := us; agreements := agreements s; activity_logs := activity_logs s;
     system_settings := system_settings s;
     users_id_seq := users_id_seq s; agreements_id_seq := agreements_id_seq s |}.

Definition set_agreements (s : Store) (ags : list AgreementRow) : Store :=
  {| users := users s; agreements := ags; activity_logs := activity_logs s;
     system_settings := system_settings s;
     users_id_seq := users_id_seq s; agreements_id_seq := agreements_id_seq s |}.

Definition set_activity_logs (s : Store) (ls : list LogRow) : Store :=
  {| users := users s; agreements := agreements s; activity_logs := ls;
     system_settings := system_settings s;
     users_id_seq := users_id_seq s; agreements_id_seq := agreements_id_seq s |}.

Definition set_system_settings (s : Store) (r : option SettingsRow) : Store :=
  {| users := users s; agreements := agreements s; activity_logs := activity_logs s;
     system_settings := r;
     users_id_seq := users_id_seq s; agreements_id_seq := agreements_id_seq s |}.

Definition bump_users_seq (s : Store) : Store :=
  {| users := users s; agreements := agreements s; activity_logs := activity_logs s;
     system_settings := system_settings s;
     users_id_seq := users_id_seq s + 1; agreements_id_seq := agreements_id_seq s |}.

Definition bump_agreements_seq (s : Store) : Store :=
  {| users := users s; agreements := agreements s; activity_logs := activity_logs s;
     system_settings := system_settings s;
     users_id_seq := users_id_seq s; agreements_id_seq := agreements_id_seq s + 1 |}.

(** Equality of two nullable texts as SQL's [=] in a WHERE clause or a
    UNIQUE index sees it: NULL equals nothing. *)
Definition sql_text_eq (a b : option string) : bool :=
  match a, b with
  | Some x, Some y => String.eqb x y
  | _, _ => false
  end.

(** What an engine error carries in [error.code]. *)
Inductive PgError : Type :=
| UniqueViolation      (* '23505' *)
| NotNullViolation     (* '23502' *)
| DataException.       (* a datatype check failed: '22xxx' *)

Definition is_23505 (e : PgError) : bool :=
  match e with UniqueViolation => true | _ => false end.

(** A statement whose parameters the engine checks against the column
    types before it runs. *)
Inductive Statement : Type :=
| InsertUser (c : UserCols)
| InsertAgreement (c : AgreementCols)
| UpdateAgreement (id : Z) (c : AgreementCols)
| UpdateSettings (r : SettingsRow).

(** [INSERT INTO activity_logs (username, action, details, ip_address)]. *)
Definition insert_log (s : Store) (u : option string) (action details : string)
    (ip : option string) : Store :=
  set_activity_logs s
    (activity_logs s ++
       [{| log_username := u; log_action := action; log_details := details;
           log_ip := ip |}]).

(** [SELECT * FROM users WHERE username = $1], first row. *)
Definition select_user_by_username (s : Store) (u : option string) : option UserRow :=
  find (fun r => sql_text_eq (username (user_cols r)) u) (users s).

(** [UPDATE users SET password = $1 WHERE username = $2]. *)
Definition update_password_by_username (s : Store) (p : option string)
    (u : option string) : Store :=
  set_users s
    (map (fun r =>
            if sql_text_eq (username (user_cols r)) u
            then {| user_id := user_id r;
                    user_cols := {| username := username (user_cols r);
                                    password := p;
                                    role := role (user_cols r);
                                    user_created_at := user_created_at (user_cols r);
                                    last_login := last_login (user_cols r) |} |}
            else r)
       (users s)).

(* ================================================================== *)
(** ** Responses *)

Inductive Body : Type :=
| BodyError (error : string)
| BodyMessage (message : string)
| BodyLogin (message : string) (user_name user_role : option string) (token : string)
| BodyJwtLogin (message : string) (id : Z) (user_name user_role : option string)
    (token : string)
| BodyAgreement (row : option AgreementRow)
| BodyRestored (message : string) (restored : nat)
| BodyUsers (rows : list (Z * option string * option string * option string))
| BodyNone.

Record Response : Type := { status : Z; body : Body }.

Definition respond (code : Z) (b : Body) : Response := {| status := code; body := b |}.

(* ================================================================== *)
(** ** The storage engine: INSERT, UPDATE and DELETE with their constraints *)

Section Engine.
(** The engine's datatype checks (DATE, NUMERIC, VARCHAR(n), TIMESTAMP
    input) on the parameters of a statement. *)
Variable engine_accepts : Statement -> bool.

Definition token_taken (ags : list AgreementRow) (t : option string) : bool :=
  existsb (fun r => sql_text_eq (token_number (agreement_cols r)) t) ags.

Definition agreement_id_taken (ags : list AgreementRow) (id : Z) : bool :=
  existsb (fun r => agreement_id r =? id) ags.

(** [INSERT INTO agreements (...) VALUES (...) RETURNING *].  The
    parameters are checked first; then the sequence gives the id (and
    keeps it also when the row is refused); then NOT NULL ([not_null],
    by the revision's table), the primary key and UNIQUE(token_number). *)
Definition insert_agreement (not_null : AgreementCols -> bool) (s : Store)
    (c : AgreementCols) : Store * (PgError + AgreementRow) :=
  if negb (engine_accepts (InsertAgreement c)) then (s, inl DataException)
  else
    let s1 := bump_agreements_seq s in
    if negb (not_null c) then (s1, inl NotNullViolation)
    else if agreement_id_taken (agreements s) (agreements_id_seq s)
            || token_taken (agreements s) (token_number c)
    then (s1, inl UniqueViolation)
    else
      let row := {| agreement_id := agreements_id_seq s; agreement_cols := c |} in
      (set_agreements s1 (agreements s ++ [row]), inr row).

Definition token_taken_by_other (ags : list AgreementRow) (id : Z)
    (t : option string) : bool :=
  existsb (fun r => negb (agreement_id r =? id)
                    && sql_text_eq (token_number (agreement_cols r)) t) ags.

(** [UPDATE agreements SET ... WHERE id = $n RETURNING *]: [merge old
    params] is the row after the SET list ([params] where the list names
    the column, [old] elsewhere). *)
Definition update_agreement (not_null : AgreementCols -> bool)
    (merge : AgreementCols -> AgreementCols -> AgreementCols)
    (s : Store) (id : Z) (params : AgreementCols)
  : Store * (PgError + option AgreementRow) :=
  if negb (engine_accepts (UpdateAgreement id params)) then (s, inl DataException)
  else
    match find (fun r => agreement_id r =? id) (agreements s) with
    | None => (s, inr None)
    | Some old =>
        let c := merge (agreement_cols old) params in
        if negb (not_null c) then (s, inl NotNullViolation)
        else if token_taken_by_other (agreements s) id (token_number c)
        then (s, inl UniqueViolation)
        else
          let row := {| agreement_id := id; agreement_cols := c |} in
          (set_agreements s
             (map (fun r => if agreement_id r =? id then row else r) (agreements s)),
           inr (Some row))
    end.

Definition username_taken (us : list UserRow) (u : option string) : bool :=
  existsb (fun r => sql_text_eq (username (user_cols r)) u) us.

Definition user_id_taken (us : list UserRow) (id : Z) : bool :=
  existsb (fun r => user_id r =? id) us.

(** [INSERT INTO users (...) VALUES (...)]. *)
Definition insert_user (not_null : UserCols -> bool) (s : Store) (c : UserCols)
  : Store * (PgError + UserRow) :=
  if negb (engine_accepts (InsertUser c)) then (s, inl DataException)
  else
    let s1 := bump_users_seq s in
    if negb (not_null c) then (s1, inl NotNullViolation)
    else if user_id_taken (users s) (users_id_seq s)
            || username_taken (users s) (username c)
    then (s1, inl UniqueViolation)
    else
      let row := {| user_id := users_id_seq s; user_cols := c |} in
      (set_users s1 (users s ++ [row]), inr row).

(** [UPDATE system_settings SET ... WHERE id = 1]. *)
Definition update_settings (s : Store) (r : SettingsRow) : Store * option PgError :=
  if negb (engine_accepts (UpdateSettings r)) then (s, Some DataException)
  else
    match system_settings s with
    | None => (s, None)
    | Some _ => (set_system_settings s (Some r), None)
    end.

(** A loop of awaited INSERTs: it stops at the first one that throws. *)
Fixpoint insert_agreements (not_null : AgreementCols -> bool) (s : Store)
    (l : list AgreementCols) : Store * option PgError :=
  match l with
  | [] => (s, None)
  | c :: l' =>
      match insert_agreement not_null s c with
      | (s1, inl e) => (s1, Some e)
      | (s1, inr _) => insert_agreements not_null s1 l'
      end
  end.

Fixpoint insert_users (not_null : UserCols -> bool) (s : Store)
    (l : list UserCols) : Store * option PgError :=
  match l with
  | [] => (s, None)
  | c :: l' =>
      match insert_user not_null s c with
      | (s1, inl e) => (s1, Some e)
      | (s1, inr _) => insert_users not_null s1 l'
      end
  end.
End Engine.

(** [DELETE FROM users WHERE id = $1 RETURNING *]: the store and the rows
    that went. *)
Definition delete_user_by_id (s : Store) (id : Z) : Store * list UserRow :=
  (set_users s (filter (fun r => negb (user_id r =? id)) (users s)),
   filter (fun r => user_id r =? id) (users s)).

(** After ROLLBACK the tables are those of [before]; a sequence keeps the
    values it gave in between. *)
Definition rollback (before now : Store) : Store :=
  {| users := users before; agreements := agreements before;
     activity_logs := activity_logs before;
     system_settings := system_settings before;
     users_id_seq := users_id_seq now; agreements_id_seq := agreements_id_seq now |}.

(** The tables of two stores hold the same rows. *)
Definition same_tables (a b : Store) : Prop :=
  users a = users b /\ agreements a = agreements b
  /\ activity_logs a = activity_logs b /\ system_settings a = system_settings b.

(** The body of a create or update request. *)
Record AgreementData : Type := {
  ownerName : JsText;
  location_ : JsText;
  tokenNumber : JsText;
  agreementDate : JsText;
  ownerContact : JsText;
  tenantContact : JsText;
  email_ : JsText;
  expiryDate : JsText;
  reminderDate : JsText;
  ccEmail : JsText;
  agentName : JsText;
  totalPayment : JsValue;
  paymentOwner : JsValue;
  paymentTenant : JsValue;
  paymentReceivedDate1 : JsText;
  paymentReceivedDate2 : JsText;
  paymentDue : JsValue;
  agreementStatus : JsText;
  biometricDate : JsText;
  actualCost : JsValue;
  agentCommission : JsValue;
  otherExpenses : JsValue;
  grossProfit : JsValue;
  netProfit : JsValue;
  profitMargin : JsValue
}.

(* ================================================================== *)
(** ** Answers and statements of the routes beside the claims *)

(** The bodies the routes below answer with that [Body] has no case for.
    [AnswerUser] is the row an INSERT INTO users returns ([status] where the
    RETURNING list has it; [created_at], the engine's clock, is left out). *)
Inductive AnswerBody : Type :=
| AnswerError (error : string)
| AnswerUser (id : Z) (user_name user_role status : option string)
| AnswerUnique (unique : bool).

Record Answer : Type := { answer_status : Z; answer_body : AnswerBody }.

Definition answer (code : Z) (b : AnswerBody) : Answer :=
  {| answer_status := code; answer_body := b |}.

(** [SELECT ... FROM users WHERE id = $1], first row. *)
Definition select_user_by_id (s : Store) (id : Z) : option UserRow :=
  find (fun r => user_id r =? id) (users s).

(** [UPDATE users SET password = $1 WHERE id = $2]. *)
Definition update_password_by_id (s : Store) (p : option string) (id : Z) : Store :=
  set_users s
    (map (fun r =>
            if user_id r =? id
            then {| user_id := user_id r;
                    user_cols := {| username := username (user_cols r);
                                    password := p;
                                    role := role (user_cols r);
                                    user_created_at := user_created_at (user_cols r);
                                    last_login := last_login (user_cols r) |} |}
            else r)
       (users s)).

(** [DELETE FROM agreements WHERE id = $1]. *)
Definition delete_agreement_by_id (s : Store) (id : Z) : Store :=
  set_agreements s (filter (fun r => negb (agreement_id r =? id)) (agreements s)).

(** [SELECT * FROM agreements WHERE id = $1], first row. *)
Definition select_agreement_by_id (s : Store) (id : Z) : option AgreementRow :=
  find (fun r => agreement_id r =? id) (agreements s).

(** The body [{ username, password, role }] of [POST /api/users]. *)
Record NewUser : Type := {
  nu_username : JsText;
  nu_password : JsText;
  nu_role : JsText
}.

(** The body [{ username, currentPassword, newPassword }] of a password
    change ([username] is not read where the token names the user). *)
Record PasswordChange : Type := {
  pc_username : JsText;
  pc_currentPassword : JsText;
  pc_newPassword : JsText
}.

(** No column of [users] is NOT NULL in [Base64Rev]. *)
Definition no_user_not_null (c : UserCols) : bool := true.

(** [users]: username, password and role are NOT NULL ([PlainRev],
    [BcryptRev], [Argon2Rev]). *)
Definition users_not_null (c : UserCols) : bool :=
  match username c, password c, role c with
  | Some _, Some _, Some _ => true
  | _, _, _ => false
  end.

(* ================================================================== *)
(** ** [Base64Rev]: src/unnamed/part_000, first server *)

Module Base64Rev.
Section Handlers.
Variable engine_accepts : Statement -> bool.
(** The value a [DECIMAL(p,s)] column stores for a parameter the engine
    takes (rounded to [s] decimals), and the date a [DATE] column stores
    for a text the engine takes. *)
Variable decimal : nat -> nat -> SqlValue -> SqlValue.
Variable date_in : string -> string.

(** A nullable parameter of a DECIMAL or DATE column: NULL is stored as
    NULL. *)
Definition decimal_col (p sc : nat) (v : SqlValue) : SqlValue :=
  match v with
  | SqlNull => SqlNull
  | _ => decimal p sc v
  end.

Definition date_col (v : option string) : option string := option_map date_in v.

(** The row the table [agreements] of this revision stores for the
    parameters [c], column by column as CREATE TABLE types them; [None]
    when a text is too long for its column. *)
Definition stored_agreement (c : AgreementCols) : option AgreementCols :=
  match varchar_col 255 (owner_name c), varchar_col 255 (location c),
        varchar_col 100 (token_number c) with
  | Some owner, Some loc, Some token =>
      match varchar_col 20 (owner_contact c), varchar_col 20 (tenant_contact c),
            varchar_col 255 (email c) with
      | Some ocontact, Some tcontact, Some mail =>
          match varchar_col 255 (cc_email c), varchar_col 255 (agent_name c),
                varchar_col 100 (agreement_status c) with
          | Some cc, Some agent, Some st =>
              Some {| owner_name := owner; location := loc; token_number := token;
                      agreement_date := date_col (agreement_date c);
                      owner_contact := ocontact; tenant_contact := tcontact;
                      email := mail; expiry_date := date_col (expiry_date c);
                      reminder_date := date_col (reminder_date c);
                      cc_email := cc; agent_name := agent;
                      total_payment := decimal_col 15 2 (total_payment c);
                      payment_owner := decimal_col 15 2 (payment_owner c);
                      payment_tenant := decimal_col 15 2 (payment_tenant c);
                      payment_received_date1 := date_col (payment_received_date1 c);
                      payment_received_date2 := date_col (payment_received_date2 c);
                      payment_due := decimal_col 15 2 (payment_due c);
                      agreement_status := st;
                      biometric_date := date_col (biometric_date c);
                      actual_cost := decimal_col 15 2 (actual_cost c);
                      agent_commission := decimal_col 15 2 (agent_commission c);
                      other_expenses := decimal_col 15 2 (other_expenses c);
                      gross_profit := decimal_col 15 2 (gross_profit c);
                      net_profit := decimal_col 15 2 (net_profit c);
                      profit_margin := decimal_col 5 2 (profit_margin c) |}
          | _, _, _ => None
          end
      | _, _, _ => None
      end
  | _, _, _ => None
  end.

(** The same for the table [users]: username VARCHAR(50), password
    VARCHAR(255), role VARCHAR(20). *)
Definition stored_user (c : UserCols) : option UserCols :=
  match varchar_col 50 (username c), varchar_col 255 (password c),
        varchar_col 20 (role c) with
  | Some name, Some pw, Some r =>
      Some {| username := name; password := pw; role := r;
              user_created_at := user_created_at c; last_login := last_login c |}
  | _, _, _ => None
  end.

(** [simpleHash]: base64 of the password. *)
Definition simpleHash (password : string) : string :=
  base64 (bytes_of password).

(** The object literal [defaultPasswords] of the login route. *)
Definition defaultPasswords : list (string * string) :=
  [ ("admin", "admin123"); ("user", "user123");
    ("agent", "agent123"); ("manager", "manager123") ].

(** [defaultPasswords[username] === password]: a key outside the literal
    gives undefined or a member of Object.prototype, never a string. *)
Definition default_password_matches (u p : string) : bool :=
  match find (fun kv => String.eqb (fst kv) u) defaultPasswords with
  | Some kv => String.eqb (snd kv) p
  | None => false
  end.

Record LoginRequest : Type := { req_username : JsText; req_password : JsText }.

(** [POST /api/auth/login]. *)
Definition post_auth_login (s : Store) (req : LoginRequest) : Store * Response :=
  match req_username req, req_password req with
  | Some u, Some p =>
      if negb (str_truthy u) || negb (str_truthy p) then
        (s, respond 400 (BodyError "Username and password are required"))
      else
        match select_user_by_username s (Some u) with
        | None => (s, respond 401 (BodyError "Invalid username or password"))
        | Some user =>
            let base64Password := simpleHash p in
            if sql_text_eq (Some base64Password) (password (user_cols user)) then
              (insert_log s (Some u) "Login" "User logged in successfully" None,
               respond 200
                 (BodyLogin "Login successful" (username (user_cols user))
                    (role (user_cols user)) "agreement-manager-token"))
            else if default_password_matches u p then
              let newHashedPassword := simpleHash p in
              let s1 := update_password_by_username s (Some newHashedPassword) (Some u) in
              (insert_log s1 (Some u) "Login" "User logged in and password migrated" None,
               respond 200
                 (BodyLogin "Login successful (password migrated)"
                    (username (user_cols user)) (role (user_cols user))
                    "agreement-manager-token"))
            else (s, respond 401 (BodyError "Invalid username or password"))
        end
  | _, _ => (s, respond 400 (BodyError "Username and password are required"))
  end.


(** [agreements]: owner_name, location and token_number are NOT NULL. *)
Definition not_null (c : AgreementCols) : bool :=
  match owner_name c, location c, token_number c with
  | Some _, Some _, Some _ => true
  | _, _, _ => false
  end.

(** [v || 0] for a monetary field passed without [parseFloat]. *)
Definition or_zero_param (v : JsValue) : SqlValue :=
  if js_truthy v then prepareValue v else SqlNum 0%float.

(** The nineteen parameters of the INSERT of [POST /api/agreements]; the
    six columns it does not name take their DEFAULT 0. *)
Definition create_params (d : AgreementData) : AgreementCols :=
  {| owner_name := ownerName d; location := location_ d;
     token_number := tokenNumber d; agreement_date := agreementDate d;
     owner_contact := ownerContact d; tenant_contact := tenantContact d;
     email := email_ d; expiry_date := expiryDate d;
     reminder_date := reminderDate d;
     cc_email := text_or (ccEmail d) "support@ramnathshetty.com";
     agent_name := agentName d;
     total_payment := or_zero_param (totalPayment d);
     payment_owner := or_zero_param (paymentOwner d);
     payment_tenant := or_zero_param (paymentTenant d);
     payment_received_date1 := paymentReceivedDate1 d;
     payment_received_date2 := paymentReceivedDate2 d;
     payment_due := or_zero_param (paymentDue d);
     agreement_status := text_or (agreementStatus d) "Drafted";
     biometric_date := biometricDate d;
     actual_cost := SqlNum 0%float; agent_commission := SqlNum 0%float;
     other_expenses := SqlNum 0%float; gross_profit := SqlNum 0%float;
     net_profit := SqlNum 0%float; profit_margin := SqlNum 0%float |}.

(** The INSERT of this revision: the engine checks the parameters as they
    were sent and stores them as the columns take them. *)
Definition insert_typed (s : Store) (c : AgreementCols)
  : Store * (PgError + AgreementRow) :=
  match stored_agreement c with
  | None => (s, inl DataException)
  | Some row =>
      insert_agreement (fun _ => engine_accepts (InsertAgreement c)) not_null s row
  end.

(** [POST /api/agreements]. *)
Definition post_agreements (s : Store) (d : AgreementData) : Store * Response :=
  if negb (text_truthy (ownerName d)) || negb (text_truthy (location_ d))
     || negb (text_truthy (tokenNumber d))
  then (s, respond 400
             (BodyError "Owner name, location, and token number are required"))
  else
    match insert_typed s (create_params d) with
    | (s1, inr row) =>
        (insert_log s1 (Some "system") "Agreement Created"
           ("Agreement added for " ++ template (ownerName d) ++ " (Token: "
              ++ template (tokenNumber d) ++ ")") None,
         respond 201 (BodyAgreement (Some row)))
    | (s1, inl e) =>
        if is_23505 e then (s1, respond 409 (BodyError "Token number already exists"))
        else (s1, respond 500 (BodyError "Internal server error"))
    end.

(** The nineteen parameters of the UPDATE of [PUT /api/agreements/:id],
    passed as they came. *)
Definition update_params (d : AgreementData) : AgreementCols :=
  {| owner_name := ownerName d; location := location_ d;
     token_number := tokenNumber d; agreement_date := agreementDate d;
     owner_contact := ownerContact d; tenant_contact := tenantContact d;
     email := email_ d; expiry_date := expiryDate d;
     reminder_date := reminderDate d; cc_email := ccEmail d;
     agent_name := agentName d;
     total_payment := prepareValue (totalPayment d);
     payment_owner := prepareValue (paymentOwner d);
     payment_tenant := prepareValue (paymentTenant d);
     payment_received_date1 := paymentReceivedDate1 d;
     payment_received_date2 := paymentReceivedDate2 d;
     payment_due := prepareValue (paymentDue d);
     agreement_status := agreementStatus d;
     biometric_date := biometricDate d;
     actual_cost := SqlNull; agent_commission := SqlNull;
     other_expenses := SqlNull; gross_profit := SqlNull;
     net_profit := SqlNull; profit_margin := SqlNull |}.

(** The SET list of that UPDATE names nineteen columns: the cost and
    profit columns keep what the row had. *)
Definition update_merge (old p : AgreementCols) : AgreementCols :=
  {| owner_name := owner_name p; location := location p;
     token_number := token_number p; agreement_date := agreement_date p;
     owner_contact := owner_contact p; tenant_contact := tenant_contact p;
     email := email p; expiry_date := expiry_date p;
     reminder_date := reminder_date p; cc_email := cc_email p;
     agent_name := agent_name p;
     total_payment := total_payment p; payment_owner := payment_owner p;
     payment_tenant := payment_tenant p;
     payment_received_date1 := payment_received_date1 p;
     payment_received_date2 := payment_received_date2 p;
     payment_due := payment_due p;
     agreement_status := agreement_status p;
     biometric_date := biometric_date p;
     actual_cost := actual_cost old; agent_commission := agent_commission old;
     other_expenses := other_expenses old; gross_profit := gross_profit old;
     net_profit := net_profit old; profit_margin := profit_margin old |}.

(** The UPDATE of this revision, typed like the INSERT. *)
Definition update_typed (s : Store) (n : Z) (c : AgreementCols)
  : Store * (PgError + option AgreementRow) :=
  match stored_agreement c with
  | None => (s, inl DataException)
  | Some row =>
      update_agreement (fun _ => engine_accepts (UpdateAgreement n c)) not_null
        update_merge s n row
  end.

(** [PUT /api/agreements/:id]. *)
Definition put_agreements_id (s : Store) (id : string) (d : AgreementData)
  : Store * Response :=
  match int4_in id with
  | None => (s, respond 500 (BodyError "Internal server error"))
  | Some n =>
      match update_typed s n (update_params d) with
      | (s1, inr None) => (s1, respond 404 (BodyError "Agreement not found"))
      | (s1, inr (Some row)) =>
          (insert_log s1 (Some "system") "Agreement Updated"
             ("Agreement updated for " ++ template (ownerName d) ++ " (ID: "
                ++ id ++ ")") None,
           respond 200 (BodyAgreement (Some row)))
      | (s1, inl _) => (s1, respond 500 (BodyError "Internal server error"))
      end
  end.

(** [DELETE /api/users/:id]: the guard [id === '1'] compares texts. *)
Definition delete_users_id (s : Store) (id : string) : Store * Response :=
  if String.eqb id "1" then
    (s, respond 403 (BodyError "Cannot delete the primary admin account."))
  else
    match int4_in id with
    | None => (s, respond 500 (BodyError "Internal server error"))
    | Some n =>
        match delete_user_by_id s n with
        | (s1, []) => (s1, respond 404 (BodyError "User not found"))
        | (s1, r :: _) =>
            (s1, respond 200
                   (BodyMessage ("User '" ++ template_null (username (user_cols r))
                                   ++ "' deleted successfully.")))
        end
    end.

(** The loop of awaited INSERTs of the restore: it stops at the first one
    that throws. *)
Fixpoint restore_agreements (s : Store) (l : list AgreementCols)
  : Store * option PgError :=
  match l with
  | [] => (s, None)
  | c :: l' =>
      match insert_typed s c with
      | (s1, inl e) => (s1, Some e)
      | (s1, inr _) => restore_agreements s1 l'
      end
  end.

(** [POST /api/backup/restore]: the body's [agreements], [None] when the
    body has none (the loop then throws).  No transaction is opened. *)
Definition post_backup_restore (s : Store) (snapshot : option (list AgreementCols))
  : Store * Response :=
  let s0 := set_agreements s [] in
  match snapshot with
  | None => (s0, respond 500 (BodyError "Internal server error"))
  | Some ags =>
      match restore_agreements s0 ags with
      | (s1, None) =>
          (s1, respond 200 (BodyRestored "Backup restored successfully" (List.length ags)))
      | (s1, Some _) => (s1, respond 500 (BodyError "Internal server error"))
      end
  end.

(** [ORDER BY id]. *)
Fixpoint insert_by_id (r : UserRow) (l : list UserRow) : list UserRow :=
  match l with
  | [] => [r]
  | x :: l' => if user_id r <? user_id x then r :: l else x :: insert_by_id r l'
  end.

Definition order_by_id (l : list UserRow) : list UserRow :=
  fold_right insert_by_id [] l.

(** A row of [SELECT id, username, role, password FROM users]. *)
Definition debug_row (r : UserRow) : Z * option string * option string * option string :=
  (user_id r, username (user_cols r), role (user_cols r), password (user_cols r)).

(** [GET /api/debug/users]: the request is not read at all. *)
Definition get_debug_users (s : Store) : Store * Response :=
  (s, respond 200 (BodyUsers (map debug_row (order_by_id (users s))))).

(** [PUT /api/users/change-password].  The column is [password
    VARCHAR(255)]: the UPDATE of a longer value throws. *)
Definition put_users_change_password (s : Store) (b : PasswordChange)
  : Store * Response :=
  match pc_username b, pc_currentPassword b, pc_newPassword b with
  | Some u, Some cur, Some new =>
      if negb (str_truthy u) || negb (str_truthy cur) || negb (str_truthy new) then
        (s, respond 400 (BodyError "All password fields are required"))
      else
        match select_user_by_username s (Some u) with
        | None => (s, respond 404 (BodyError "User not found"))
        | Some user =>
            let currentHashedPassword := simpleHash cur in
            if negb (sql_text_eq (Some currentHashedPassword)
                       (password (user_cols user)))
            then (s, respond 401 (BodyError "Current password is incorrect"))
            else
              let newHashedPassword := simpleHash new in
              if (255 <? String.length newHashedPassword)%nat then
                (s, respond 500 (BodyError "Internal server error"))
              else
                let s1 := update_password_by_username s (Some newHashedPassword)
                            (Some u) in
                (insert_log s1 (Some u) "Password Change"
                   "User changed password successfully" None,
                 respond 200 (BodyMessage "Password changed successfully"))
        end
  | _, _, _ => (s, respond 400 (BodyError "All password fields are required"))
  end.

(** The INSERT into [users] of this revision, typed like that into
    [agreements]. *)
Definition insert_typed_user (s : Store) (c : UserCols)
  : Store * (PgError + UserRow) :=
  match stored_user c with
  | None => (s, inl DataException)
  | Some row =>
      insert_user (fun _ => engine_accepts (InsertUser c)) no_user_not_null s row
  end.

(** [POST /api/users]: [simpleHash] throws on a password that is no text,
    and that error has no code. *)
Definition post_users (s : Store) (b : NewUser) : Store * Answer :=
  match nu_password b with
  | None => (s, answer 500 (AnswerError "Internal server error"))
  | Some p =>
      let hashedPassword := simpleHash p in
      match insert_typed_user s
              {| username := nu_username b; password := Some hashedPassword;
                 role := nu_role b; user_created_at := None;
                 last_login := None |} with
      | (s1, inr row) =>
          (s1, answer 201
                 (AnswerUser (user_id row) (username (user_cols row))
                    (role (user_cols row)) (Some "Active")))
      | (s1, inl e) =>
          if is_23505 e then (s1, answer 409 (AnswerError "Username already exists"))
          else (s1, answer 500 (AnswerError "Internal server error"))
      end
  end.

(** [GET /api/agreements/check-token?token=...]. *)
Definition get_check_token (s : Store) (token : JsText) : Store * Answer :=
  (s, answer 200 (AnswerUnique (negb (token_taken (agreements s) token)))).

(** The four variables of the environment that [initializeDatabase] reads
    ([None] for a variable that is not set). *)
Record Env : Type := {
  DEFAULT_ADMIN_PASSWORD : JsText;
  DEFAULT_USER_PASSWORD : JsText;
  DEFAULT_AGENT_PASSWORD : JsText;
  DEFAULT_MANAGER_PASSWORD : JsText
}.

Definition defaultUsers (env : Env) : list (string * JsText * string) :=
  [("admin", DEFAULT_ADMIN_PASSWORD env, "admin");
   ("user", DEFAULT_USER_PASSWORD env, "user");
   ("agent", DEFAULT_AGENT_PASSWORD env, "agent");
   ("manager", DEFAULT_MANAGER_PASSWORD env, "manager")].

(** The loop over [defaultUsers]: a user whose password is set is
    inserted with the encoded password; an INSERT that throws ends
    [initializeDatabase], which catches the error itself. *)
Fixpoint seed_users (s : Store) (l : list (string * JsText * string)) : Store :=
  match l with
  | [] => s
  | (u, p, r) :: l' =>
      match p with
      | Some pw =>
          if str_truthy pw then
            match insert_typed_user s
                    {| username := Some u; password := Some (simpleHash pw);
                       role := Some r; user_created_at := None;
                       last_login := None |} with
            | (s1, inr _) => seed_users s1 l'
            | (s1, inl _) => s1
            end
          else seed_users s l'
      | None => seed_users s l'
      end
  end.

(** [POST /api/debug/reset-db]: the four tables are dropped and created
    again, so every table is empty and every sequence starts at 1; the
    users table, being empty, is seeded from the environment.  The
    key/value settings that [initializeDatabase] also inserts are rows of a
    table of this revision that the store does not hold. *)
Definition post_debug_reset_db (env : Env) (s : Store) : Store * Response :=
  let dropped :=
    {| users := []; agreements := []; activity_logs := []; system_settings := None;
       users_id_seq := 1; agreements_id_seq := 1 |} in
  (seed_users dropped (defaultUsers env),
   respond 200 (BodyMessage "Database reset successfully")).

End Handlers.
End Base64Rev.

(* ================================================================== *)
(** ** The financial fields, as every revision that has them computes them *)

Section Financials.
Variable parseFloatString : string -> float.

(** [const grossProfit = totalPayment - actualCost]. *)
Definition grossProfit_of (d : AgreementData) : float :=
  (money parseFloatString (totalPayment d) - money parseFloatString (actualCost d))%float.

(** [const netProfit = grossProfit - agentCommission - otherExpenses]. *)
Definition netProfit_of (d : AgreementData) : float :=
  (grossProfit_of d - money parseFloatString (agentCommission d)
   - money parseFloatString (otherExpenses d))%float.

(** [const profitMargin = totalPayment > 0 ? (netProfit / totalPayment) * 100 : 0]. *)
Definition profitMargin_of (d : AgreementData) : float :=
  if (0 <? money parseFloatString (totalPayment d))%float
  then (netProfit_of d / money parseFloatString (totalPayment d) * 100)%float
  else 0%float.

(** The array [params] of the INSERT and of the UPDATE (without the id)
    in [PlainRev] and [BcryptRev]: the same twenty-three entries in all
    four handlers. *)
Definition params (d : AgreementData) : AgreementCols :=
  {| owner_name := ownerName d; location := location_ d;
     token_number := tokenNumber d;
     agreement_date := text_or_null (agreementDate d);
     owner_contact := ownerContact d; tenant_contact := tenantContact d;
     email := email_ d; expiry_date := text_or_null (expiryDate d);
     reminder_date := text_or_null (reminderDate d);
     cc_email := ccEmail d; agent_name := agentName d;
     total_payment := SqlNum (money parseFloatString (totalPayment d));
     payment_owner := SqlNum (money parseFloatString (paymentOwner d));
     payment_tenant := SqlNum (money parseFloatString (paymentTenant d));
     payment_received_date1 := None; payment_received_date2 := None;
     payment_due := SqlNum (money parseFloatString (paymentDue d));
     agreement_status := agreementStatus d;
     biometric_date := text_or_null (biometricDate d);
     actual_cost := SqlNum (money parseFloatString (actualCost d));
     agent_commission := SqlNum (money parseFloatString (agentCommission d));
     other_expenses := SqlNum (money parseFloatString (otherExpenses d));
     gross_profit := SqlNum (grossProfit_of d);
     net_profit := SqlNum (netProfit_of d);
     profit_margin := SqlNum (profitMargin_of d) |}.
End Financials.

(** No column of [agreements] is NOT NULL in [PlainRev] and [BcryptRev]. *)
Definition no_not_null (c : AgreementCols) : bool := true.

(** Every column of the SET list replaces the old one. *)
Definition replace_all (old p : AgreementCols) : AgreementCols := p.

(* ================================================================== *)
(** ** [PlainRev]: src/unnamed/part_000, second server *)

Module PlainRev.
Section Handlers.
Variable parseFloatString : string -> float.
Variable engine_accepts : Statement -> bool.
(** [new Date()], as the text the driver sends. *)
Variable now : string.

(** [POST /api/agreements]. *)
Definition post_agreements (s : Store) (d : AgreementData) : Store * Response :=
  match insert_agreement engine_accepts no_not_null s (params parseFloatString d) with
  | (s1, inr row) => (s1, respond 200 (BodyAgreement (Some row)))
  | (s1, inl _) => (s1, respond 500 (BodyError "Failed to save agreement"))
  end.

(** [PUT /api/agreements/:id]. *)
Definition put_agreements_id (s : Store) (id : string) (d : AgreementData)
  : Store * Response :=
  match int4_in id with
  | None => (s, respond 500 (BodyError "Failed to update agreement"))
  | Some n =>
      match update_agreement engine_accepts no_not_null replace_all s n
              (params parseFloatString d) with
      | (s1, inr (Some row)) => (s1, respond 200 (BodyAgreement (Some row)))
      | (s1, inr None) => (s1, respond 404 (BodyError "Agreement not found"))
      | (s1, inl _) => (s1, respond 500 (BodyError "Failed to update agreement"))
      end
  end.

(** A user of the backup, as the body gives it. *)
Record SnapshotUser : Type := {
  su_username : JsText;
  su_password : JsText;
  su_role : JsText;
  su_created_at : JsText
}.

(** The body of [POST /api/backup/restore]; [None] is a field the body
    does not have. *)
Record Snapshot : Type := {
  snap_agreements : option (list AgreementCols);
  snap_users : option (list SnapshotUser);
  snap_settings : option SettingsRow
}.

(** The INSERT of the restore names twenty-three columns. *)
Definition restore_cols (ag : AgreementCols) : AgreementCols :=
  {| owner_name := owner_name ag; location := location ag;
     token_number := token_number ag; agreement_date := agreement_date ag;
     owner_contact := owner_contact ag; tenant_contact := tenant_contact ag;
     email := email ag; expiry_date := expiry_date ag;
     reminder_date := reminder_date ag; cc_email := cc_email ag;
     agent_name := agent_name ag;
     total_payment := total_payment ag; payment_owner := payment_owner ag;
     payment_tenant := payment_tenant ag;
     payment_received_date1 := None; payment_received_date2 := None;
     payment_due := payment_due ag;
     agreement_status := agreement_status ag;
     biometric_date := biometric_date ag;
     actual_cost := actual_cost ag; agent_commission := agent_commission ag;
     other_expenses := other_expenses ag; gross_profit := gross_profit ag;
     net_profit := net_profit ag; profit_margin := profit_margin ag |}.

(** [(u.password && u.password !== '***HIDDEN***') ? u.password : 'password']. *)
Definition pwd (u : SnapshotUser) : string :=
  match su_password u with
  | Some p =>
      if str_truthy p && negb (String.eqb p "***HIDDEN***") then p else "password"
  | None => "password"
  end.

Definition restore_user (u : SnapshotUser) : UserCols :=
  {| username := su_username u; password := Some (pwd u); role := su_role u;
     user_created_at := text_or (su_created_at u) now; last_login := None |}.

(** [users]: username, password and role are NOT NULL. *)
Definition user_not_null (c : UserCols) : bool :=
  match username c, password c, role c with
  | Some _, Some _, Some _ => true
  | _, _, _ => false
  end.

Definition or_nil {A : Type} (l : option (list A)) : list A :=
  match l with Some l => l | None => [] end.

(** The statements between BEGIN and COMMIT; [Some e] when one throws. *)
Definition restore_statements (s : Store) (b : Snapshot) : Store * option PgError :=
  let s1 := set_activity_logs s [] in
  let s2 := set_agreements s1 [] in
  let s3 := set_users s2 [] in
  match insert_agreements engine_accepts no_not_null s3
          (map restore_cols (or_nil (snap_agreements b))) with
  | (s4, Some e) => (s4, Some e)
  | (s4, None) =>
      match insert_users engine_accepts user_not_null s4
              (map restore_user (or_nil (snap_users b))) with
      | (s5, Some e) => (s5, Some e)
      | (s5, None) =>
          match snap_settings b with
          | None => (s5, None)
          | Some r => update_settings engine_accepts s5 r
          end
      end
  end.

(** [POST /api/backup/restore]. *)
Definition post_backup_restore (s : Store) (b : Snapshot) : Store * Response :=
  match restore_statements s b with
  | (s', None) => (s', respond 200 (BodyMessage "Backup restored successfully"))
  | (s', Some _) =>
      (rollback s s', respond 500 (BodyError "Failed to restore backup"))
  end.

(** [POST /api/auth/login]: username and password are compared by the
    query itself. *)
Definition post_auth_login (s : Store) (u p : JsText) : Store * Response :=
  if negb (text_truthy u) || negb (text_truthy p) then
    (s, respond 400 (BodyError "Username and password required"))
  else if existsb (fun r => sql_text_eq (username (user_cols r)) u
                            && sql_text_eq (password (user_cols r)) p) (users s)
  then (s, respond 200 (BodyMessage "Login successful"))
  else (s, respond 401 (BodyError "Invalid credentials")).

(** [UPDATE users SET password = $1 WHERE username = $2] is
    [update_password_by_username]; [PUT /api/users/change-password]. *)
Definition put_users_change_password (s : Store) (b : PasswordChange)
  : Store * Response :=
  if negb (text_truthy (pc_username b)) || negb (text_truthy (pc_currentPassword b))
     || negb (text_truthy (pc_newPassword b))
  then (s, respond 400 (BodyError "Missing parameters"))
  else if negb (existsb (fun r => sql_text_eq (username (user_cols r)) (pc_username b)
                                  && sql_text_eq (password (user_cols r))
                                       (pc_currentPassword b)) (users s))
  then (s, respond 400 (BodyError "Current password is incorrect"))
  else (update_password_by_username s (pc_newPassword b) (pc_username b),
        respond 200 (BodyMessage "Password changed")).

(** [POST /api/users]: the password is stored as it came. *)
Definition post_users (s : Store) (b : NewUser) : Store * Answer :=
  if negb (text_truthy (nu_username b)) || negb (text_truthy (nu_password b)) then
    (s, answer 400 (AnswerError "Username and password required"))
  else
    match insert_user engine_accepts users_not_null s
            {| username := nu_username b; password := nu_password b;
               role := text_or (nu_role b) "user"; user_created_at := None;
               last_login := None |} with
    | (s1, inr row) =>
        (s1, answer 200
               (AnswerUser (user_id row) (username (user_cols row))
                  (role (user_cols row)) None))
    | (s1, inl _) => (s1, answer 400 (AnswerError "Failed to add user"))
    end.

(** [DELETE /api/users/:id]. *)
Definition delete_users_id (s : Store) (id : string) : Store * Response :=
  match int4_in id with
  | None => (s, respond 500 (BodyError "Failed to delete user"))
  | Some n => (fst (delete_user_by_id s n), respond 200 (BodyMessage "User deleted"))
  end.

(** [DELETE /api/agreements/:id]. *)
Definition delete_agreements_id (s : Store) (id : string) : Store * Response :=
  match int4_in id with
  | None => (s, respond 500 (BodyError "Failed to delete agreement"))
  | Some n => (delete_agreement_by_id s n, respond 200 (BodyMessage "Agreement deleted"))
  end.

(** [GET /api/agreements/:id]. *)
Definition get_agreements_id (s : Store) (id : string) : Store * Response :=
  match int4_in id with
  | None => (s, respond 500 (BodyError "Error fetching agreement"))
  | Some n =>
      match select_agreement_by_id s n with
      | Some row => (s, respond 200 (BodyAgreement (Some row)))
      | None => (s, respond 404 (BodyError "Agreement not found"))
      end
  end.

(** The handler of [GET /api/agreements/check-token?token=...&id=...]: a
    query that throws is answered as unique. *)
Definition get_check_token (s : Store) (token id : JsText) : Store * Answer :=
  if negb (text_truthy token) then (s, answer 400 (AnswerError "Token required"))
  else
    match id with
    | Some i =>
        if str_truthy i then
          match int4_in i with
          | None => (s, answer 200 (AnswerUnique true))
          | Some n =>
              (s, answer 200
                    (AnswerUnique (negb (token_taken_by_other (agreements s) n token))))
          end
        else (s, answer 200 (AnswerUnique (negb (token_taken (agreements s) token))))
    | None => (s, answer 200 (AnswerUnique (negb (token_taken (agreements s) token))))
    end.

(** A segment of a route path: a literal or a named parameter. *)
Inductive Segment : Type :=
| Lit (s : string)
| Param.

(** The GET routes of the API, in the order [app.get] registers them. *)
Inductive GetRoute : Type :=
| GetTest
| GetAgreements
| GetAgreementsId
| GetCheckToken
| GetReportsProfit
| GetReportsAgent
| GetReportsExpiring
| GetReportsPending
| GetUsers
| GetAgents
| GetActivityLogs
| GetSettings.

Definition get_routes : list (list Segment * GetRoute) :=
  [ ([Lit "api"; Lit "test"], GetTest);
    ([Lit "api"; Lit "agreements"], GetAgreements);
    ([Lit "api"; Lit "agreements"; Param], GetAgreementsId);
    ([Lit "api"; Lit "agreements"; Lit "check-token"], GetCheckToken);
    ([Lit "api"; Lit "reports"; Lit "profit"], GetReportsProfit);
    ([Lit "api"; Lit "reports"; Lit "agent"; Param], GetReportsAgent);
    ([Lit "api"; Lit "reports"; Lit "expiring"], GetReportsExpiring);
    ([Lit "api"; Lit "reports"; Lit "pending"], GetReportsPending);
    ([Lit "api"; Lit "users"], GetUsers);
    ([Lit "api"; Lit "agents"], GetAgents);
    ([Lit "api"; Lit "activity-logs"], GetActivityLogs);
    ([Lit "api"; Lit "settings"], GetSettings) ].

(** A path, segment by segment, against a route path: a parameter takes
    one non-empty segment.  (Literals are compared as they are written.) *)
Fixpoint path_matches (pattern : list Segment) (path : list string) : bool :=
  match pattern, path with
  | [], [] => true
  | Lit l :: pattern', x :: path' => String.eqb l x && path_matches pattern' path'
  | Param :: pattern', x :: path' => str_truthy x && path_matches pattern' path'
  | _, _ => false
  end.

(** The router: the first registered route whose path matches takes the
    request (none of these handlers calls [next]). *)
Definition dispatch_get (path : list string) : option GetRoute :=
  option_map snd (find (fun r => path_matches (fst r) path) get_routes).

End Handlers.
End PlainRev.

(* ================================================================== *)
(** ** Middleware of the token revisions *)

(** [s.split(' ')]. *)
Fixpoint split_space (s : string) : list string :=
  match s with
  | EmptyString => [""]
  | String c rest =>
      if Ascii.eqb c " "%char then "" :: split_space rest
      else
        match split_space rest with
        | w :: ws => String c w :: ws
        | [] => [String c ""]
        end
  end.

(** [authHeader && authHeader.split(' ')[1]], kept when it is truthy. *)
Definition bearer_token (authHeader : option string) : option string :=
  match authHeader with
  | None => None
  | Some h =>
      if str_truthy h then
        match nth_error (split_space h) 1 with
        | Some t => if str_truthy t then Some t else None
        | None => None
        end
      else None
  end.

(** The payload [{ id, username, role }] of a session token. *)
Record TokenUser : Type := {
  tu_id : Z;
  tu_username : option string;
  tu_role : option string
}.

(** What a middleware does: call [next()] or answer. *)
Inductive Outcome (A : Type) : Type :=
| Next (a : A)
| Reply (r : Response).
Arguments Next {A} a.
Arguments Reply {A} r.

(** What the routes read of a request besides its body. *)
Record Request : Type := { authorization : option string; ip : option string }.

(* ================================================================== *)
(** ** [BcryptRev]: src/unnamed/part_001, first server *)

Module BcryptRev.
Section Handlers.
Variable parseFloatString : string -> float.
Variable engine_accepts : Statement -> bool.
(** [bcrypt.compare(password, hash)]. *)
Variable bcrypt_compare : string -> string -> bool.
(** [jwt.sign(payload, JWT_SECRET, { expiresIn: '24h' })]. *)
Variable jwt_sign : TokenUser -> string.
(** [jwt.verify(token, JWT_SECRET, ...)] at the time of the request:
    [None] is the error of an invalid or expired token. *)
Variable jwt_verify : string -> option TokenUser.

(** [authenticateToken]. *)
Definition authenticateToken (req : Request) : Outcome TokenUser :=
  match bearer_token (authorization req) with
  | None => Reply (respond 401 (BodyError "Access token required"))
  | Some token =>
      match jwt_verify token with
      | None => Reply (respond 403 (BodyError "Invalid or expired token"))
      | Some user => Next user
      end
  end.

(** [checkAdmin]: [req.user && req.user.role === 'admin']. *)
Definition checkAdmin (user : option TokenUser) : Outcome unit :=
  match user with
  | Some u =>
      if sql_text_eq (tu_role u) (Some "admin") then Next tt
      else Reply (respond 403 (BodyError "Forbidden: Admin access required"))
  | None => Reply (respond 403 (BodyError "Forbidden: Admin access required"))
  end.

(** A route behind [authenticateToken]. *)
Definition protected (s : Store) (req : Request)
    (handler : TokenUser -> Store * Response) : Store * Response :=
  match authenticateToken req with
  | Reply r => (s, r)
  | Next user => handler user
  end.

(** A route behind [authenticateToken, checkAdmin]. *)
Definition admin_only (s : Store) (req : Request)
    (handler : TokenUser -> Store * Response) : Store * Response :=
  protected s req (fun user =>
    match checkAdmin (Some user) with
    | Reply r => (s, r)
    | Next _ => handler user
    end).

Record LoginRequest : Type := { req_username : JsText; req_password : JsText }.

(** [POST /api/auth/login]. *)
Definition post_auth_login (s : Store) (req : Request) (b : LoginRequest)
  : Store * Response :=
  if negb (text_truthy (req_username b)) || negb (text_truthy (req_password b)) then
    (s, respond 400 (BodyError "Username and password required"))
  else
    match select_user_by_username s (req_username b) with
    | None => (s, respond 401 (BodyError "Invalid credentials"))
    | Some user =>
        match password (user_cols user) with
        | None => (s, respond 500 (BodyError "Server error during authentication"))
        | Some hash =>
            if negb (bcrypt_compare (template (req_password b)) hash) then
              (s, respond 401 (BodyError "Invalid credentials"))
            else
              let token :=
                jwt_sign {| tu_id := user_id user;
                            tu_username := username (user_cols user);
                            tu_role := role (user_cols user) |} in
              (insert_log s (req_username b) "LOGIN" "User logged in successfully"
                 (ip req),
               respond 200
                 (BodyJwtLogin "Login successful" (user_id user)
                    (username (user_cols user)) (role (user_cols user)) token))
        end
    end.

(** [POST /api/agreements], first query: [SELECT COUNT( * ) ... WHERE
    token_number = $1] and the test [count > 0]. *)
Definition token_check (s : Store) (d : AgreementData) : bool :=
  token_taken (agreements s) (tokenNumber d).

(** [POST /api/agreements], from the INSERT on. *)
Definition insert_and_log (s : Store) (req : Request) (user : TokenUser)
    (d : AgreementData) : Store * Response :=
  match insert_agreement engine_accepts no_not_null s (params parseFloatString d) with
  | (s1, inr row) =>
      (insert_log s1 (tu_username user) "CREATE_AGREEMENT"
         ("Created agreement with token: " ++ template (tokenNumber d)) (ip req),
       respond 200 (BodyAgreement (Some row)))
  | (s1, inl _) => (s1, respond 500 (BodyError "Failed to save agreement"))
  end.

(** [POST /api/agreements], the handler behind [authenticateToken]. *)
Definition post_agreements (s : Store) (req : Request) (user : TokenUser)
    (d : AgreementData) : Store * Response :=
  if token_check s d then
    (s, respond 400 (BodyError "Token number already exists"))
  else insert_and_log s req user d.

(** Two requests to [POST /api/agreements] in flight at once.  Each handler
    gives the event loop back at its [await]s; in this schedule both token
    checks are answered before either INSERT runs. *)
Definition post_agreements_interleaved (s : Store)
    (req1 : Request) (user1 : TokenUser) (d1 : AgreementData)
    (req2 : Request) (user2 : TokenUser) (d2 : AgreementData)
  : Store * Response * Response :=
  let found1 := token_check s d1 in
  let found2 := token_check s d2 in
  let '(s1, r1) :=
    if found1 then (s, respond 400 (BodyError "Token number already exists"))
    else insert_and_log s req1 user1 d1 in
  let '(s2, r2) :=
    if found2 then (s1, respond 400 (BodyError "Token number already exists"))
    else insert_and_log s1 req2 user2 d2 in
  (s2, r1, r2).

(** [PUT /api/agreements/:id], the handler behind [authenticateToken]. *)
Definition put_agreements_id (s : Store) (req : Request) (user : TokenUser)
    (id : string) (d : AgreementData) : Store * Response :=
  match int4_in id with
  | None => (s, respond 500 (BodyError "Failed to update agreement"))
  | Some n =>
      if token_taken_by_other (agreements s) n (tokenNumber d) then
        (s, respond 400
              (BodyError "Another agreement with this token number already exists."))
      else
        match update_agreement engine_accepts no_not_null replace_all s n
                (params parseFloatString d) with
        | (s1, inr row) =>
            (insert_log s1 (tu_username user) "UPDATE_AGREEMENT"
               ("Updated agreement with token: " ++ template (tokenNumber d))
               (ip req),
             respond 200 (BodyAgreement row))
        | (s1, inl _) => (s1, respond 500 (BodyError "Failed to update agreement"))
        end
  end.

(** [parseInt(id, 10) === req.user.id]. *)
Definition is_own_id (id : string) (user : TokenUser) : bool :=
  match parseInt10 id with
  | Some n => n =? tu_id user
  | None => false
  end.

(** [DELETE /api/users/:id], the handler behind [authenticateToken,
    checkAdmin]. *)
Definition delete_users_id (s : Store) (user : TokenUser) (id : string)
  : Store * Response :=
  if is_own_id id user then
    (s, respond 400 (BodyError "Admin cannot delete their own account."))
  else
    match int4_in id with
    | None => (s, respond 500 (BodyError "Failed to delete user"))
    | Some n => (fst (delete_user_by_id s n), respond 204 BodyNone)
    end.

(** The route [DELETE /api/users/:id] as mounted: [authenticateToken] of
    [app.use('/api/users', ...)], then [authenticateToken, checkAdmin]. *)
Definition route_delete_users_id (s : Store) (req : Request) (id : string)
  : Store * Response :=
  protected s req (fun _ =>
    admin_only s req (fun user => delete_users_id s user id)).

(** [bcrypt.hash(password, 10)] with the salt it draws. *)
Variable bcrypt_hash : string -> string -> string.

(** [POST /api/users], the handler behind [authenticateToken, checkAdmin];
    [salt] is the salt drawn for this request. *)
Definition post_users (s : Store) (salt : string) (b : NewUser) : Store * Answer :=
  match nu_username b, nu_password b, nu_role b with
  | Some u, Some p, Some r =>
      if negb (str_truthy u) || negb (str_truthy p) || negb (str_truthy r) then
        (s, answer 400 (AnswerError "Username, password, and role are required"))
      else
        let hashedPassword := bcrypt_hash p salt in
        match insert_user engine_accepts users_not_null s
                {| username := Some u; password := Some hashedPassword;
                   role := Some r; user_created_at := None;
                   last_login := None |} with
        | (s1, inr row) =>
            (s1, answer 201
                   (AnswerUser (user_id row) (username (user_cols row))
                      (role (user_cols row)) None))
        | (s1, inl e) =>
            if is_23505 e then (s1, answer 409 (AnswerError "Username already exists"))
            else (s1, answer 500 (AnswerError "Failed to add user"))
        end
  | _, _, _ => (s, answer 400 (AnswerError "Username, password, and role are required"))
  end.

(** [PUT /api/auth/change-password], the handler behind
    [authenticateToken]; [salt] is the salt drawn for the new hash. *)
Definition put_auth_change_password (s : Store) (user : TokenUser) (salt : string)
    (b : PasswordChange) : Store * Response :=
  match pc_currentPassword b, pc_newPassword b with
  | Some cur, Some new =>
      if negb (str_truthy cur) || negb (str_truthy new) then
        (s, respond 400 (BodyError "Current and new passwords are required."))
      else
        match select_user_by_id s (tu_id user) with
        | None => (s, respond 404 (BodyError "User not found."))
        | Some row =>
            match password (user_cols row) with
            | None => (s, respond 500 (BodyError "Failed to change password"))
            | Some hash =>
                if negb (bcrypt_compare cur hash) then
                  (s, respond 401 (BodyError "Invalid current password."))
                else
                  let newHashedPassword := bcrypt_hash new salt in
                  (update_password_by_id s (Some newHashedPassword) (tu_id user),
                   respond 200 (BodyMessage "Password updated successfully."))
            end
        end
  | _, _ => (s, respond 400 (BodyError "Current and new passwords are required."))
  end.

(** *** The routes, in the order the server registers them *)

Inductive Method : Type := GET | HEAD | POST | PUT | DELETE.

(** [app.get] also answers HEAD. *)
Definition method_matches (route request : Method) : bool :=
  match route, request with
  | GET, GET | GET, HEAD | HEAD, HEAD | POST, POST | PUT, PUT | DELETE, DELETE => true
  | _, _ => false
  end.

Inductive Middleware : Type := AuthenticateToken | CheckAdmin.

(** The handlers of the routes. *)
Inductive Endpoint : Type :=
| ApiTest
| AuthLogin
| ListAgreements
| Reports
| ListUsers
| CreateUser
| DeleteUser
| ChangePassword
| ReportsProfit
| CreateAgreement
| GetAgreement
| UpdateAgreement
| ApiHealth
| PutSettings
| Health.

(** [app.use(path, middleware)] and [app.METHOD(path, ...middleware,
    handler)]. *)
Inductive Layer : Type :=
| Use (prefix : list string) (mw : Middleware)
| Route (m : Method) (pattern : list PlainRev.Segment) (chain : list Middleware)
    (e : Endpoint).

(** The layers from [app.get('/api/test')] to [app.get('/health')], as
    registered.  Before them come [express.json], [cors] and
    [express.static], which answer some requests themselves (a body that is
    no JSON, an OPTIONS preflight, a file of the server's directory); after
    them the error handler and the two catch-all layers, which take a
    request that none of these layers has answered.  The requests served
    here are those of the five methods that reach the first layer. *)
Definition layers : list Layer :=
  [ Route GET [PlainRev.Lit "api"; PlainRev.Lit "test"] [] ApiTest;
    Route POST [PlainRev.Lit "api"; PlainRev.Lit "auth"; PlainRev.Lit "login"] []
      AuthLogin;
    Use ["api"; "agreements"] AuthenticateToken;
    Use ["api"; "users"] AuthenticateToken;
    Use ["api"; "activity-logs"] AuthenticateToken;
    Use ["api"; "settings"] AuthenticateToken;
    Use ["api"; "backup"] AuthenticateToken;
    Route GET [PlainRev.Lit "api"; PlainRev.Lit "agreements"] [] ListAgreements;
    Route GET [PlainRev.Lit "api"; PlainRev.Lit "reports"] [] Reports;
    Route GET [PlainRev.Lit "api"; PlainRev.Lit "users"]
      [AuthenticateToken; CheckAdmin] ListUsers;
    Route POST [PlainRev.Lit "api"; PlainRev.Lit "users"]
      [AuthenticateToken; CheckAdmin] CreateUser;
    Route DELETE [PlainRev.Lit "api"; PlainRev.Lit "users"; PlainRev.Param]
      [AuthenticateToken; CheckAdmin] DeleteUser;
    Route PUT
      [PlainRev.Lit "api"; PlainRev.Lit "auth"; PlainRev.Lit "change-password"]
      [AuthenticateToken] ChangePassword;
    Route GET [PlainRev.Lit "api"; PlainRev.Lit "reports"; PlainRev.Lit "profit"] []
      ReportsProfit;
    Route POST [PlainRev.Lit "api"; PlainRev.Lit "agreements"] [] CreateAgreement;
    Route GET [PlainRev.Lit "api"; PlainRev.Lit "agreements"; PlainRev.Param] []
      GetAgreement;
    Route PUT [PlainRev.Lit "api"; PlainRev.Lit "agreements"; PlainRev.Param] []
      UpdateAgreement;
    Route GET [PlainRev.Lit "api"; PlainRev.Lit "health"] [] ApiHealth;
    Route PUT [PlainRev.Lit "api"; PlainRev.Lit "settings"]
      [AuthenticateToken; CheckAdmin] PutSettings;
    Route GET [PlainRev.Lit "health"] [] Health ].

(** The path of [app.use] is a prefix of whole segments. *)
Fixpoint prefix_matches (prefix path : list string) : bool :=
  match prefix, path with
  | [], _ => true
  | l :: prefix', x :: path' => String.eqb l x && prefix_matches prefix' path'
  | _ :: _, [] => false
  end.

(** One middleware on [req.user]: it answers, or calls [next]. *)
Definition run_middleware (mw : Middleware) (req : Request) (user : option TokenUser)
  : Outcome (option TokenUser) :=
  match mw with
  | AuthenticateToken =>
      match authenticateToken req with
      | Reply r => Reply r
      | Next u => Next (Some u)
      end
  | CheckAdmin =>
      match checkAdmin user with
      | Reply r => Reply r
      | Next _ => Next user
      end
  end.

Fixpoint run_chain (chain : list Middleware) (req : Request) (user : option TokenUser)
  : Outcome (option TokenUser) :=
  match chain with
  | [] => Next user
  | mw :: chain' =>
      match run_middleware mw req user with
      | Reply r => Reply r
      | Next user' => run_chain chain' req user'
      end
  end.

(** What the handler of a route does with the request, the path, [req.user]
    and the store. *)
Variable handlers :
  Endpoint -> Request -> list string -> option TokenUser -> Store -> Store * Response.

(** The router: the layers are tried in order; a middleware that answers
    ends the request with the store as it is, a route that matches runs its
    chain and then its handler (no handler calls [next]).  [None]: no layer
    of the list has answered. *)
Fixpoint serve (ls : list Layer) (s : Store) (req : Request) (m : Method)
    (path : list string) (user : option TokenUser) : option (Store * Response) :=
  match ls with
  | [] => None
  | Use prefix mw :: rest =>
      if prefix_matches prefix path then
        match run_middleware mw req user with
        | Reply r => Some (s, r)
        | Next user' => serve rest s req m path user'
        end
      else serve rest s req m path user
  | Route m' pattern chain e :: rest =>
      if method_matches m' m && PlainRev.path_matches pattern path then
        match run_chain chain req user with
        | Reply r => Some (s, r)
        | Next user' => Some (handlers e req path user' s)
        end
      else serve rest s req m path user
  end.

(** The operations behind the session token, with their handlers; [true]
    marks those behind [checkAdmin] as well. *)
Definition protected_operations
  : list (Method * list PlainRev.Segment * Endpoint * bool) :=
  [ (GET, [PlainRev.Lit "api"; PlainRev.Lit "agreements"], ListAgreements, false);
    (POST, [PlainRev.Lit "api"; PlainRev.Lit "agreements"], CreateAgreement, false);
    (GET, [PlainRev.Lit "api"; PlainRev.Lit "agreements"; PlainRev.Param],
     GetAgreement, false);
    (PUT, [PlainRev.Lit "api"; PlainRev.Lit "agreements"; PlainRev.Param],
     UpdateAgreement, false);
    (PUT, [PlainRev.Lit "api"; PlainRev.Lit "auth"; PlainRev.Lit "change-password"],
     ChangePassword, false);
    (GET, [PlainRev.Lit "api"; PlainRev.Lit "users"], ListUsers, true);
    (POST, [PlainRev.Lit "api"; PlainRev.Lit "users"], CreateUser, true);
    (DELETE, [PlainRev.Lit "api"; PlainRev.Lit "users"; PlainRev.Param],
     DeleteUser, true);
    (PUT, [PlainRev.Lit "api"; PlainRev.Lit "settings"], PutSettings, true) ].

(** The five paths of [app.use(..., authenticateToken)]. *)
Definition protected_prefixes : list (list string) :=
  [ ["api"; "agreements"]; ["api"; "users"]; ["api"; "activity-logs"];
    ["api"; "settings"]; ["api"; "backup"] ].

End Handlers.
End BcryptRev.

(* ================================================================== *)
(** ** [Argon2Rev]: src/unnamed/part_002 *)

Module Argon2Rev.
Section Handlers.
(** [argon2.verify(digest, password)]: [None] when it throws (a digest
    that is no argon2 hash, a password that is no string). *)
Variable argon2_verify : string -> JsText -> option bool.
Variable jwt_sign : TokenUser -> string.
(** [new Date()], as the text the driver sends. *)
Variable now : string.

Record LoginRequest : Type := { req_username : JsText; req_password : JsText }.

(** [UPDATE users SET last_login = $1 WHERE id = $2]. *)
Definition update_last_login (s : Store) (t : string) (id : Z) : Store :=
  set_users s
    (map (fun r =>
            if user_id r =? id
            then {| user_id := user_id r;
                    user_cols := {| username := username (user_cols r);
                                    password := password (user_cols r);
                                    role := role (user_cols r);
                                    user_created_at := user_created_at (user_cols r);
                                    last_login := Some t |} |}
            else r)
       (users s)).

(** [POST /api/auth/login].  The answer to a successful login also carries
    fullName and status, of two columns the model does not have. *)
Definition post_auth_login (s : Store) (b : LoginRequest) : Store * Response :=
  match select_user_by_username s (req_username b) with
  | None => (s, respond 401 (BodyError "Invalid credentials"))
  | Some user =>
      match password (user_cols user) with
      | None => (s, respond 500 (BodyError "Server error during authentication"))
      | Some digest =>
          match argon2_verify digest (req_password b) with
          | None => (s, respond 500 (BodyError "Server error during authentication"))
          | Some false => (s, respond 401 (BodyError "Invalid credentials"))
          | Some true =>
              let token :=
                jwt_sign {| tu_id := user_id user;
                            tu_username := username (user_cols user);
                            tu_role := role (user_cols user) |} in
              (update_last_login s now (user_id user),
               respond 200
                 (BodyJwtLogin "Login successful" (user_id user)
                    (username (user_cols user)) (role (user_cols user)) token))
          end
      end
  end.

(** [argon2.hash(password)] with the salt it draws: [None] when it throws
    (a password that is no string). *)
Variable argon2_hash : JsText -> string -> option string.

(** [PUT /api/auth/change-password], the handler behind
    [authenticateToken]; [salt] is the salt drawn for the new hash.  The
    body is not checked: an empty password is hashed like any other. *)
Definition put_auth_change_password (s : Store) (user : TokenUser) (salt : string)
    (b : PasswordChange) : Store * Response :=
  match select_user_by_id s (tu_id user) with
  | None => (s, respond 404 (BodyError "User not found."))
  | Some row =>
      match password (user_cols row) with
      | None => (s, respond 500 (BodyError "Failed to change password"))
      | Some digest =>
          match argon2_verify digest (pc_currentPassword b) with
          | None => (s, respond 500 (BodyError "Failed to change password"))
          | Some false => (s, respond 401 (BodyError "Invalid current password."))
          | Some true =>
              match argon2_hash (pc_newPassword b) salt with
              | None => (s, respond 500 (BodyError "Failed to change password"))
              | Some newHashedPassword =>
                  (update_password_by_id s (Some newHashedPassword) (tu_id user),
                   respond 200 (BodyMessage "Password updated successfully."))
              end
          end
      end
  end.

(** *** Export and import of a backup

    The agreements table of this revision has its own columns; for the
    backup routes a row is kept as the engine has it: the id, the
    twenty-three columns the INSERT of the import names, in that order, and
    created_at. *)
Record StoredAgreement : Type := {
  sa_id : Z;
  sa_values : list SqlValue;
  sa_created_at : string
}.

Record Tables : Type := {
  t_users : list UserRow;
  t_agreements : list StoredAgreement;
  t_agreements_id_seq : Z
}.

(** A user of the backup, as the import reads it. *)
Record ImportUser : Type := {
  iu_username : JsText;
  iu_full_name : JsText;
  iu_role : JsText;
  iu_status : JsText
}.

(** The answer of the import: an error, or the two counts. *)
Inductive ImportBody : Type :=
| ImportError (error : string)
| Imported (message : string) (agreements users : nat).

Record ImportAnswer : Type := { ia_status : Z; ia_body : ImportBody }.

(** The engine's datatype checks on the twenty-three parameters of the
    INSERT, and the test of ON CONFLICT (token_number): whether a stored row
    has the token number of the parameters. *)
Variable values_accepted : list SqlValue -> bool.
Variable token_conflict : list StoredAgreement -> list SqlValue -> bool.

(** The id as the driver gives it, a number. *)
Definition id_number (id : Z) : SqlValue :=
  SqlNum (PrimFloat.of_uint63 (Uint63.of_Z id)).

(** [Object.values(row)] of a row of [SELECT * FROM agreements]: a value
    for each of the twenty-five columns of the table. *)
Definition exported_values (r : StoredAgreement) : list SqlValue :=
  id_number (sa_id r) :: (sa_values r ++ [SqlText (sa_created_at r)])%list.

(** [GET /api/backup/export], the agreements of its answer. *)
Definition get_backup_export_agreements (t : Tables) : list (list SqlValue) :=
  map exported_values (t_agreements t).

(** [DELETE FROM users WHERE role != 'admin']: a NULL role is not unequal
    to anything. *)
Definition role_is_not_admin (r : UserRow) : bool :=
  match role (user_cols r) with
  | Some x => negb (String.eqb x "admin")
  | None => false
  end.

(** One INSERT of the loop over the agreements.  [item] is
    [Object.values(agreement)], [None] when that call throws (a null
    entry).  The statement has twenty-three parameters: another number of
    values is refused by the engine. *)
Definition import_agreement (t : Tables) (item : option (list SqlValue))
  : option Tables :=
  match item with
  | None => None
  | Some vs =>
      if negb (List.length vs =? 23)%nat then None
      else if negb (values_accepted vs) then None
      else
        let id := t_agreements_id_seq t in
        if token_conflict (t_agreements t) vs then
          Some {| t_users := t_users t; t_agreements := t_agreements t;
                  t_agreements_id_seq := id + 1 |}
        else if existsb (fun r => sa_id r =? id) (t_agreements t) then None
        else
          Some {| t_users := t_users t;
                  t_agreements :=
                    (t_agreements t
                       ++ [{| sa_id := id; sa_values := vs; sa_created_at := now |}])%list;
                  t_agreements_id_seq := id + 1 |}
  end.

(** The loop: the tables when it stops, and whether it threw. *)
Fixpoint import_agreements (t : Tables) (items : list (option (list SqlValue)))
  : Tables * bool :=
  match items with
  | [] => (t, false)
  | item :: rest =>
      match import_agreement t item with
      | None => (t, true)
      | Some t1 => import_agreements t1 rest
      end
  end.

(** The loop over the users: an entry named 'admin' is skipped; for any
    other the INSERT names username, full_name, role and status and no
    password, which the table refuses (password is NOT NULL); a null entry
    throws at [user.username].  [true] when the loop threw. *)
Fixpoint import_users (us : list (option ImportUser)) : bool :=
  match us with
  | [] => false
  | Some u :: rest =>
      match iu_username u with
      | Some name => if String.eqb name "admin" then import_users rest else true
      | None => true
      end
  | None :: rest => true
  end.

(** [POST /api/backup/import], the handler behind [authenticateToken,
    checkAdmin].  [agreements] and [users] are the two fields of the body
    as the loops see them, [None] for a field that cannot be iterated.  No
    transaction is opened. *)
Definition post_backup_import (t : Tables)
    (agreements : option (list (option (list SqlValue))))
    (users : option (list (option ImportUser))) : Tables * ImportAnswer :=
  let failed := {| ia_status := 500; ia_body := ImportError "Failed to import backup" |} in
  let t1 := {| t_users := filter (fun r => negb (role_is_not_admin r)) (t_users t);
               t_agreements := [];
               t_agreements_id_seq := t_agreements_id_seq t |} in
  match agreements with
  | None => (t1, failed)
  | Some ags =>
      match import_agreements t1 ags with
      | (t2, true) => (t2, failed)
      | (t2, false) =>
          match users with
          | None => (t2, failed)
          | Some us =>
              if import_users us then (t2, failed)
              else (t2, {| ia_status := 200;
                           ia_body := Imported "Backup imported successfully"
                                        (List.length ags) (List.length us) |})
          end
      end
  end.

End Handlers.
End Argon2Rev.

(* ================================================================== *)
(** ** The browser script: src/server.js *)

Module Client.
Section Script.
Variable parseFloatString : string -> float.

(** The fields of the agreement form, each the [value] of its element. *)
Record Form : Type := {
  form_ownerName : string;
  form_location : string;
  form_tokenNumber : string;
  form_agreementDate : string;
  form_ownerContact : string;
  form_tenantContact : string;
  form_email : string;
  form_expiryDate : string;
  form_reminderDate : string;
  form_ccEmail : string;
  form_agentName : string;
  form_totalPayment : string;
  form_paymentOwner : string;
  form_paymentTenant : string;
  form_paymentDue : string;
  form_agreementStatus : string;
  form_biometricDate : string;
  form_actualCost : string;
  form_agentCommission : string;
  form_otherExpenses : string
}.

(** [parseFloat(document.getElementById(id).value) || 0]. *)
Definition field_number (text : string) : float := orZero (parseFloatString text).

(** [calculateProfit]: the three numbers it shows, before [toFixed(2)]. *)
Definition calculateProfit (f : Form) : float * float * float :=
  let totalPayment := field_number (form_totalPayment f) in
  let actualCost := field_number (form_actualCost f) in
  let agentCommission := field_number (form_agentCommission f) in
  let otherExpenses := field_number (form_otherExpenses f) in
  let grossProfit := (totalPayment - actualCost)%float in
  let netProfit := (grossProfit - agentCommission - otherExpenses)%float in
  let profitMargin :=
    if (0 <? totalPayment)%float then (netProfit / totalPayment * 100)%float
    else 0%float in
  (grossProfit, netProfit, profitMargin).

(** [calculateDue]: the number it shows, before [toFixed(2)]. *)
Definition calculateDue (f : Form) : float :=
  (field_number (form_totalPayment f) - field_number (form_paymentOwner f)
   - field_number (form_paymentTenant f))%float.

(** [collectAgreementData]: the object it returns. *)
Definition collectAgreementData (f : Form) : AgreementData :=
  {| ownerName := Some (form_ownerName f); location_ := Some (form_location f);
     tokenNumber := Some (form_tokenNumber f);
     agreementDate := Some (form_agreementDate f);
     ownerContact := Some (form_ownerContact f);
     tenantContact := Some (form_tenantContact f);
     email_ := Some (form_email f); expiryDate := Some (form_expiryDate f);
     reminderDate := Some (form_reminderDate f); ccEmail := Some (form_ccEmail f);
     agentName := Some (form_agentName f);
     totalPayment := JNumber (field_number (form_totalPayment f));
     paymentOwner := JNumber (field_number (form_paymentOwner f));
     paymentTenant := JNumber (field_number (form_paymentTenant f));
     paymentReceivedDate1 := None; paymentReceivedDate2 := None;
     paymentDue := JNumber (field_number (form_paymentDue f));
     agreementStatus := Some (form_agreementStatus f);
     biometricDate := Some (form_biometricDate f);
     actualCost := JNumber (field_number (form_actualCost f));
     agentCommission := JNumber (field_number (form_agentCommission f));
     otherExpenses := JNumber (field_number (form_otherExpenses f));
     grossProfit := JUndefined; netProfit := JUndefined;
     profitMargin := JUndefined |}.

End Script.

(** A value through [JSON.stringify] and the server's [express.json()]: a
    number that is NaN or infinite arrives as null, -0 as 0; texts, null and
    absent fields arrive as they are. *)
Definition through_json (v : JsValue) : JsValue :=
  match v with
  | JNumber f =>
      if PrimFloat.is_nan f || PrimFloat.is_infinity f then JNull
      else if PrimFloat.is_zero f then JNumber 0%float
      else JNumber f
  | _ => v
  end.

(** The body of [saveAgreement] as the server reads it. *)
Definition sent_body (d : AgreementData) : AgreementData :=
  {| ownerName := ownerName d; location_ := location_ d;
     tokenNumber := tokenNumber d; agreementDate := agreementDate d;
     ownerContact := ownerContact d; tenantContact := tenantContact d;
     email_ := email_ d; expiryDate := expiryDate d;
     reminderDate := reminderDate d; ccEmail := ccEmail d;
     agentName := agentName d;
     totalPayment := through_json (totalPayment d);
     paymentOwner := through_json (paymentOwner d);
     paymentTenant := through_json (paymentTenant d);
     paymentReceivedDate1 := paymentReceivedDate1 d;
     paymentReceivedDate2 := paymentReceivedDate2 d;
     paymentDue := through_json (paymentDue d);
     agreementStatus := agreementStatus d; biometricDate := biometricDate d;
     actualCost := through_json (actualCost d);
     agentCommission := through_json (agentCommission d);
     otherExpenses := through_json (otherExpenses d);
     grossProfit := through_json (grossProfit d);
     netProfit := through_json (netProfit d);
     profitMargin := through_json (profitMargin d) |}.

End Client.

(* ================================================================== *)
(** ** Sample data used by the closed lemmas *)

Definition user_row (id : Z) (u p r : string) : UserRow :=
  {| user_id := id;
     user_cols := {| username := Some u; password := Some p; role := Some r;
                     user_created_at := None; last_login := None |} |}.

Definition store_of (us : list UserRow) (ags : list AgreementRow) : Store :=
  {| users := us; agreements := ags; activity_logs := [];
     system_settings := None;
     users_id_seq := 1 + Z.of_nat (List.length us);
     agreements_id_seq := 1 + Z.of_nat (List.length ags) |}.

(** A user outside the default accounts whose credential is still the
    plain text "secret". *)
Definition bob_store : Store := store_of [user_row 1 "bob" "secret" "user"] [].

(** The admin as [PlainRev] seeds it: the plain text "admin123". *)
Definition plain_admin_store : Store :=
  store_of [user_row 1 "admin" "admin123" "admin"] [].

Definition login_request (u p : string) : Base64Rev.LoginRequest :=
  {| Base64Rev.req_username := Some u; Base64Rev.req_password := Some p |}.

Definition sample_cols (owner loc token : string) : AgreementCols :=
  {| owner_name := Some owner; location := Some loc; token_number := Some token;
     agreement_date := None; owner_contact := None; tenant_contact := None;
     email := None; expiry_date := None; reminder_date := None; cc_email := None;
     agent_name := None; total_payment := SqlNull; payment_owner := SqlNull;
     payment_tenant := SqlNull; payment_received_date1 := None;
     payment_received_date2 := None; payment_due := SqlNull;
     agreement_status := None; biometric_date := None; actual_cost := SqlNull;
     agent_commission := SqlNull; other_expenses := SqlNull;
     gross_profit := SqlNull; net_profit := SqlNull; profit_margin := SqlNull |}.

Definition accept_all (st : Statement) : bool := true.

(** One stored agreement, and a backup whose two agreements share a token. *)
Definition one_agreement_store : Store :=
  store_of [] [ {| agreement_id := 1; agreement_cols := sample_cols "Old" "L0" "T-OLD" |} ].

Definition duplicate_snapshot : list AgreementCols :=
  [ sample_cols "A" "L1" "T-100"; sample_cols "B" "L2" "T-100" ].

(** The derivation in the specification's words, over the numbers of the
    code (IEEE 754 doubles). *)
Definition derive (total cost commission expenses : float) : float * float * float :=
  let gross := (total - cost)%float in
  let net := (gross - commission - expenses)%float in
  let margin := if (0 <? total)%float then (net / total * 100)%float else 0%float in
  (gross, net, margin).

(** The body of the specification's scenario. *)
Definition scenario : AgreementData :=
  {| ownerName := Some "A"; location_ := Some "L1"; tokenNumber := Some "T-100";
     agreementDate := None; ownerContact := None; tenantContact := None;
     email_ := None; expiryDate := None; reminderDate := None; ccEmail := None;
     agentName := None;
     totalPayment := JNumber 1000; paymentOwner := JUndefined;
     paymentTenant := JUndefined;
     paymentReceivedDate1 := None; paymentReceivedDate2 := None;
     paymentDue := JUndefined; agreementStatus := None; biometricDate := None;
     actualCost := JNumber 400; agentCommission := JNumber 50;
     otherExpenses := JNumber 10;
     grossProfit := JUndefined; netProfit := JUndefined;
     profitMargin := JUndefined |}.

Definition empty_store : Store := store_of [] [].

(** The three stored profit columns of a row are the derivation of the
    four submitted inputs, each read as [parseFloat(v) || 0]. *)
Definition stores_derivation_of (parseFloatString : string -> float)
    (d : AgreementData) (row : AgreementRow) : Prop :=
  let num := money parseFloatString in
  match derive (num (totalPayment d)) (num (actualCost d))
          (num (agentCommission d)) (num (otherExpenses d)) with
  | (gross, net, margin) =>
      gross_profit (agreement_cols row) = SqlNum gross
      /\ net_profit (agreement_cols row) = SqlNum net
      /\ profit_margin (agreement_cols row) = SqlNum margin
  end.

Definition no_string_numbers (t : string) : float := PrimFloat.nan.

Definition scenario_row : AgreementRow :=
  {| agreement_id := 1; agreement_cols := params no_string_numbers scenario |}.

Definition anonymous : Request := {| authorization := None; ip := None |}.

Definition admin_token : TokenUser :=
  {| tu_id := 1; tu_username := Some "admin"; tu_role := Some "admin" |}.

(** A body whose paymentDue (5) is not totalPayment - paymentOwner -
    paymentTenant (1000 - 200 - 300). *)
Definition due_5_of_500 : AgreementData :=
  {| ownerName := Some "A"; location_ := Some "L1"; tokenNumber := Some "T-100";
     agreementDate := None; ownerContact := None; tenantContact := None;
     email_ := None; expiryDate := None; reminderDate := None; ccEmail := None;
     agentName := None;
     totalPayment := JNumber 1000; paymentOwner := JNumber 200;
     paymentTenant := JNumber 300;
     paymentReceivedDate1 := None; paymentReceivedDate2 := None;
     paymentDue := JNumber 5; agreementStatus := None; biometricDate := None;
     actualCost := JNumber 400; agentCommission := JNumber 50;
     otherExpenses := JNumber 10;
     grossProfit := JUndefined; netProfit := JUndefined;
     profitMargin := JUndefined |}.

(** The body [d] with other client-side values for the three profit fields. *)
Definition with_submitted_profit (d : AgreementData) (g n m : JsValue) : AgreementData :=
  {| ownerName := ownerName d; location_ := location_ d;
     tokenNumber := tokenNumber d; agreementDate := agreementDate d;
     ownerContact := ownerContact d; tenantContact := tenantContact d;
     email_ := email_ d; expiryDate := expiryDate d;
     reminderDate := reminderDate d; ccEmail := ccEmail d;
     agentName := agentName d;
     totalPayment := totalPayment d; paymentOwner := paymentOwner d;
     paymentTenant := paymentTenant d;
     paymentReceivedDate1 := paymentReceivedDate1 d;
     paymentReceivedDate2 := paymentReceivedDate2 d;
     paymentDue := paymentDue d; agreementStatus := agreementStatus d;
     biometricDate := biometricDate d;
     actualCost := actualCost d; agentCommission := agentCommission d;
     otherExpenses := otherExpenses d;
     grossProfit := g; netProfit := n; profitMargin := m |}.

Definition due_5_row : AgreementRow :=
  {| agreement_id := 1; agreement_cols := params no_string_numbers due_5_of_500 |}.

Definition unauthorized : Response := respond 401 (BodyError "Invalid credentials").

(** A stand-in for a password hash, for the closed lemmas: the digest of
    [p] is [p] behind a prefix. *)
Definition toy_digest (p : string) : string := ("digest:" ++ p)%string.

Definition toy_compare (p digest : string) : bool := String.eqb (toy_digest p) digest.

Definition toy_verify (digest : string) (p : JsText) : option bool :=
  match p with
  | Some p => Some (toy_compare p digest)
  | None => None
  end.

Definition toy_sign (u : TokenUser) : string := "token".

Definition hashed_admin_store : Store :=
  store_of [user_row 1 "admin" (toy_digest "admin123") "admin"] [].

Definition t100_store : Store :=
  store_of [] [ {| agreement_id := 1; agreement_cols := sample_cols "Old" "L0" "T-100" |} ].

(** Every token is invalid or expired. *)
Definition no_valid_token (t : string) : option TokenUser := None.

Definition user_token : TokenUser :=
  {| tu_id := 2; tu_username := Some "user1"; tu_role := Some "user" |}.

Definition ram_token : TokenUser :=
  {| tu_id := 3; tu_username := Some "Ram"; tu_role := Some "admin" |}.

(** A stand-in for [jwt.verify]: three tokens are valid. *)
Definition toy_verify_token (t : string) : option TokenUser :=
  if String.eqb t "admin-token" then Some admin_token
  else if String.eqb t "user-token" then Some user_token
  else if String.eqb t "ram-token" then Some ram_token
  else None.

Definition bearer (t : string) : Request :=
  {| authorization := Some ("Bearer " ++ t)%string; ip := None |}.

(** Handlers that are seen to run: each answers 200 with the name in
    [req.user], "nobody" when there is none. *)
Definition echo_handlers (e : BcryptRev.Endpoint) (req : Request) (path : list string)
    (user : option TokenUser) (s : Store) : Store * Response :=
  (s, respond 200
        (BodyMessage match user with
                     | Some u => template (tu_username u)
                     | None => "nobody"
                     end)).

(** A handler that is seen to run: it answers 200 with the caller's name. *)
Definition echo_handler (s : Store) (u : TokenUser) : Store * Response :=
  (s, respond 200 (BodyMessage (template (tu_username u)))).

(** The primary admin (id 1), a user and a second admin. *)
Definition three_users_store : Store :=
  store_of [ user_row 1 "admin" (toy_digest "admin123") "admin";
             user_row 2 "user1" (toy_digest "user123") "user";
             user_row 3 "Ram" (toy_digest "ram123") "admin" ] [].

(** A backup that lists no users, and one whose only user has the
    credential marked as hidden. *)
Definition backup_without_users : PlainRev.Snapshot :=
  {| PlainRev.snap_agreements := Some []; PlainRev.snap_users := None;
     PlainRev.snap_settings := None |}.

Definition backup_with_hidden_credential : PlainRev.Snapshot :=
  {| PlainRev.snap_agreements := Some [];
     PlainRev.snap_users :=
       Some [ {| PlainRev.su_username := Some "carol";
                 PlainRev.su_password := Some "***HIDDEN***";
                 PlainRev.su_role := Some "user";
                 PlainRev.su_created_at := None |} ];
     PlainRev.snap_settings := None |}.

Definition backup_with_credential : PlainRev.Snapshot :=
  {| PlainRev.snap_agreements := Some [];
     PlainRev.snap_users :=
       Some [ {| PlainRev.su_username := Some "carol";
                 PlainRev.su_password := Some "s3cret";
                 PlainRev.su_role := Some "user";
                 PlainRev.su_created_at := None |} ];
     PlainRev.snap_settings := None |}.

(** The user of a backup comes with its credential:
    [u.password && u.password !== '***HIDDEN***']. *)
Definition credential_given (u : PlainRev.SnapshotUser) : bool :=
  match PlainRev.su_password u with
  | Some p => str_truthy p && negb (String.eqb p "***HIDDEN***")
  | None => false
  end.

(** The row [r] with the credential [p] if its id is [id]. *)
Definition with_password (id : Z) (p : option string) (r : UserRow) : UserRow :=
  if user_id r =? id
  then {| user_id := user_id r;
          user_cols := {| username := username (user_cols r);
                          password := p;
                          role := role (user_cols r);
                          user_created_at := user_created_at (user_cols r);
                          last_login := last_login (user_cols r) |} |}
  else r.

(* ------------------------------------------------------------------ *)
(** *** Invariants of the tables *)

(** No two agreements share an id, no two share a token number (NULL
    tokens apart, as in a UNIQUE index). *)
Fixpoint agreement_keys_ok (ags : list AgreementRow) : Prop :=
  match ags with
  | [] => True
  | r :: l =>
      agreement_id_taken l (agreement_id r) = false
      /\ token_taken l (token_number (agreement_cols r)) = false
      /\ agreement_keys_ok l
  end.

(** No two users share an id, no two share a username. *)
Fixpoint user_keys_ok (us : list UserRow) : Prop :=
  match us with
  | [] => True
  | r :: l =>
      user_id_taken l (user_id r) = false
      /\ username_taken l (username (user_cols r)) = false
      /\ user_keys_ok l
  end.

(** The log of [s'] is the log of [s] with entries added at its end. *)
Definition log_grows (s s' : Store) : Prop :=
  exists added, activity_logs s' = (activity_logs s ++ added)%list.

(* ------------------------------------------------------------------ *)
(** *** Notions for base64 *)

(** The sixty-four values a base64 digit stands for. *)
Definition sextets : list N := map N.of_nat (seq 0 64).

(** The place of the first [c] in [s] (the length of [s] if there is none). *)
Fixpoint index_of (c : ascii) (s : string) : N :=
  match s with
  | EmptyString => 0
  | String x r => if Ascii.eqb x c then 0 else N.succ (index_of c r)
  end%N.

(** Every item is a byte. *)
Definition all_bytes (bs : list N) : Prop := Forall (fun b => (b < 256)%N) bs.

(** A user whose credential is the base64 form of "secret", and the
    admin after a change of password to "s3cret!". *)
Definition hashed_bob_store : Store :=
  store_of [user_row 1 "bob" (Base64Rev.simpleHash "secret") "user"] [].

Definition changed_admin_store : Store :=
  store_of [user_row 1 "admin" (Base64Rev.simpleHash "s3cret!") "admin"] [].

(** The text has a space in it. *)
Fixpoint has_space (s : string) : bool :=
  match s with
  | EmptyString => false
  | String c rest => Ascii.eqb c " "%char || has_space rest
  end.

(** A stand-in for [jwt.sign] and [jwt.verify] for the closed lemmas: the
    token of a user is the user's name behind a prefix. *)
Definition toy_sign_name (u : TokenUser) : string :=
  ("jwt." ++ template (tu_username u))%string.

Definition toy_verify_name (t : string) : option TokenUser :=
  if String.eqb t "jwt.admin" then Some admin_token
  else if String.eqb t "jwt.user1" then Some user_token
  else None.

Definition toy_hash (p salt : string) : string := toy_digest p.

(** No two agreements of a backup share a token number. *)
Fixpoint tokens_distinct (cs : list AgreementCols) : Prop :=
  match cs with
  | [] => True
  | c :: l =>
      existsb (fun c' => sql_text_eq (token_number c') (token_number c)) l = false
      /\ tokens_distinct l
  end.

(** The rows a sequence at [k] gives to the columns [cs], in order. *)
Fixpoint numbered_from (k : Z) (cs : list AgreementCols) : list AgreementRow :=
  match cs with
  | [] => []
  | c :: l => {| agreement_id := k; agreement_cols := c |} :: numbered_from (k + 1) l
  end.

(** What a request that ends in the store [s'] with the status [code] may
    do to the activity log of [s]: add entries at its end, and none when
    the status is an error. *)
Definition log_discipline (s s' : Store) (code : Z) : Prop :=
  log_grows s s' /\ (400 <= code -> activity_logs s' = activity_logs s).

(** A stand-in for [parseFloat] on the texts of the closed lemmas. *)
Definition toy_parse (t : string) : float :=
  if String.eqb t "1000" then 1000%float
  else if String.eqb t "400" then 400%float
  else if String.eqb t "50" then 50%float
  else if String.eqb t "10" then 10%float
  else PrimFloat.nan.

(** The form of the scenario: 1000 paid, cost 400, commission 50, other
    expenses 10, the other fields empty. *)
Definition scenario_form : Client.Form :=
  {| Client.form_ownerName := "A"; Client.form_location := "L1";
     Client.form_tokenNumber := "T-100"; Client.form_agreementDate := "";
     Client.form_ownerContact := ""; Client.form_tenantContact := "";
     Client.form_email := ""; Client.form_expiryDate := "";
     Client.form_reminderDate := ""; Client.form_ccEmail := "";
     Client.form_agentName := ""; Client.form_totalPayment := "1000";
     Client.form_paymentOwner := ""; Client.form_paymentTenant := "";
     Client.form_paymentDue := ""; Client.form_agreementStatus := "";
     Client.form_biometricDate := ""; Client.form_actualCost := "400";
     Client.form_agentCommission := "50"; Client.form_otherExpenses := "10" |}.

(** The users of a table of [Argon2Rev] after [DELETE ... WHERE role !=
    'admin']. *)
Definition admins_of (us : list UserRow) : list UserRow :=
  filter (fun r => negb (Argon2Rev.role_is_not_admin r)) us.

(** No stored token number conflicts, for the closed lemmas. *)
Definition no_conflict (rows : list Argon2Rev.StoredAgreement) (vs : list SqlValue)
  : bool := false.

Definition accept_values (vs : list SqlValue) : bool := true.

(** One stored agreement of [Argon2Rev] (owner, location and token number
    given, the other twenty columns NULL) beside the three users. *)
Definition one_row_tables : Argon2Rev.Tables :=
  {| Argon2Rev.t_users := users three_users_store;
     Argon2Rev.t_agreements :=
       [ {| Argon2Rev.sa_id := 1;
            Argon2Rev.sa_values :=
              (SqlText "A" :: SqlText "L1" :: SqlText "T-100" :: repeat SqlNull 20)%list;
            Argon2Rev.sa_created_at := "2024-01-01" |} ];
     Argon2Rev.t_agreements_id_seq := 2 |}.

(** A stand-in for [argon2.hash]. *)
Definition toy_argon2_hash (p : JsText) (salt : string) : option string :=
  match p with Some p => Some (toy_digest p) | None => None end.

(** Stand-ins for the engine's DECIMAL and DATE input for the closed
    lemmas, whose numbers have at most two decimals and whose dates are
    written as the engine prints them: the value is stored as it is. *)
Definition exact_decimal (p sc : nat) (v : SqlValue) : SqlValue := v.

Definition exact_date (t : string) : string := t.

(** The text is decimal digits and nothing else (and not empty). *)
Fixpoint all_digits (s : string) : bool :=
  match s with
  | EmptyString => true
  | String c r => is_digit c && all_digits r
  end.

Definition only_digits (s : string) : bool :=
  match s with
  | EmptyString => false
  | String _ _ => all_digits s
  end.

(* ================================================================== *)
(** ** Facts about the store operations *)

Lemma sql_text_eq_refl (x : string) : sql_text_eq (Some x) (Some x) = true.
Proof. simpl. apply String.eqb_refl. Qed.

Lemma find_map_preserved {A : Type} (f : A -> bool) (g : A -> A) (l : list A) :
  (forall x, f (g x) = f x) ->
  find f (map g l) = option_map g (find f l).
Proof.
  intros Hfg. induction l as [|x l IH]; simpl; [reflexivity|].
  rewrite Hfg. destruct (f x); [reflexivity | exact IH].
Qed.

Lemma users_insert_log s u a d i : users (insert_log s u a d i) = users s.
Proof. reflexivity. Qed.

Lemma agreements_insert_log s u a d i :
  agreements (insert_log s u a d i) = agreements s.
Proof. reflexivity. Qed.

(* ================================================================== *)
(** ** The helpers on known values *)

Example base64_one_byte : base64 (bytes_of "a") = "YQ==".
Proof. reflexivity. Qed.

Example base64_two_bytes : base64 (bytes_of "ab") = "YWI=".
Proof. reflexivity. Qed.

Example base64_three_bytes : base64 (bytes_of "abc") = "YWJj".
Proof. reflexivity. Qed.

Example base64_high_bytes : base64 [251; 255]%N = "+/8=" /\ base64 [255]%N = "/w==".
Proof. split; reflexivity. Qed.

Example base64_all_sextets : base64 [0; 16; 131; 16; 81; 135]%N = "ABCDEFGH".
Proof. reflexivity. Qed.

Example simpleHash_admin123 : Base64Rev.simpleHash "admin123" = "YWRtaW4xMjM=".
Proof. reflexivity. Qed.

Example split_space_words : split_space "a b c" = ["a"; "b"; "c"].
Proof. reflexivity. Qed.

Example split_space_double : split_space "Bearer  x" = ["Bearer"; ""; "x"].
Proof. reflexivity. Qed.

(** The scheme word is not looked at; a header of one word, or with two
    spaces after the scheme, carries no token. *)
Example bearer_token_cases :
  bearer_token None = None
  /\ bearer_token (Some "") = None
  /\ bearer_token (Some "Bearer") = None
  /\ bearer_token (Some "Bearer  x") = None
  /\ bearer_token (Some "Bearer abc.def") = Some "abc.def"
  /\ bearer_token (Some "Basic abc") = Some "abc".
Proof. repeat split. Qed.

Example orZero_cases :
  orZero PrimFloat.nan = 0%float /\ orZero (-0)%float = 0%float
  /\ orZero 12.5%float = 12.5%float /\ orZero (-3)%float = (-3)%float.
Proof. repeat split. Qed.

Example parseInt10_cases :
  parseInt10 "42" = Some 42 /\ parseInt10 " 042abc" = Some 42
  /\ parseInt10 "-7.9" = Some (-7) /\ parseInt10 "0x10" = Some 0
  /\ parseInt10 "abc" = None /\ parseInt10 "" = None.
Proof. repeat split. Qed.

(** The spellings on which [parseInt] and the engine part ways. *)
Example prefixed_and_spaced_ids :
  int4_in "0x3" = Some 3 /\ parseInt10 "0x3" = Some 0
  /\ int4_in "0X1f" = Some 31 /\ int4_in "0o17" = Some 15 /\ int4_in "0b11" = Some 3
  /\ int4_in "1_000" = Some 1000 /\ parseInt10 "1_000" = Some 1
  /\ int4_in "0x" = None /\ int4_in "_1" = None /\ int4_in "1__0" = None
  /\ int4_in "1_" = None /\ int4_in "-0x10" = Some (-16)
  /\ parseInt10 (String (ascii_of_N 194) (String (ascii_of_N 160) "3")) = Some 3
  /\ int4_in (String (ascii_of_N 194) (String (ascii_of_N 160) "3")) = None.
Proof. repeat split. Qed.

Example int4_in_cases :
  int4_in "42" = Some 42 /\ int4_in " 042 " = Some 42 /\ int4_in "-7" = Some (-7)
  /\ int4_in "42abc" = None /\ int4_in "7.9" = None /\ int4_in "" = None
  /\ int4_in "2147483648" = None.
Proof. repeat split. Qed.

(* ================================================================== *)
(** ** C1: migration of a credential at login ([Base64Rev]) *)

Lemma default_password_listed (u p : string) :
  Base64Rev.default_password_matches u p = true ->
  In (u, p) Base64Rev.defaultPasswords.
Proof.
  unfold Base64Rev.default_password_matches.
  destruct (find _ Base64Rev.defaultPasswords) as [[k d]|] eqn:E; [|discriminate].
  apply find_some in E. destruct E as [Hin Hk]. cbn [fst snd] in *.
  intros Hd. apply String.eqb_eq in Hk, Hd. subst. exact Hin.
Qed.

Lemma default_password_truthy (u p : string) :
  Base64Rev.default_password_matches u p = true ->
  str_truthy u = true /\ str_truthy p = true.
Proof.
  intros H. apply default_password_listed in H.
  unfold Base64Rev.defaultPasswords in H.
  repeat (destruct H as [H|H]; [inversion H; split; reflexivity|]).
  destruct H.
Qed.

Lemma select_after_password_update (s : Store) (u : string) (h : string) (user : UserRow) :
  select_user_by_username s (Some u) = Some user ->
  exists user1,
    select_user_by_username (update_password_by_username s (Some h) (Some u)) (Some u)
      = Some user1
    /\ password (user_cols user1) = Some h
    /\ username (user_cols user1) = username (user_cols user)
    /\ role (user_cols user1) = role (user_cols user).
Proof.
  unfold select_user_by_username, update_password_by_username. cbn [users set_users].
  intros Hsel. rewrite find_map_preserved.
  - rewrite Hsel. cbn [option_map].
    apply find_some in Hsel. destruct Hsel as [_ Hu]. rewrite Hu.
    eexists; split; [reflexivity|]. cbn. auto.
  - intros x. destruct (sql_text_eq (username (user_cols x)) (Some u)) eqn:E;
      cbn; rewrite E; reflexivity.
Qed.

Lemma listed_default_password (u p : string) :
  In (u, p) Base64Rev.defaultPasswords ->
  Base64Rev.default_password_matches u p = true.
Proof.
  unfold Base64Rev.defaultPasswords. intros H.
  repeat (destruct H as [H|H]; [inversion H; reflexivity|]).
  destruct H.
Qed.

(** C1, as the code has it.  A user whose stored credential is the legacy
    plain text of the submitted password and does not verify as its base64
    form.  If username and password are one of the four default pairs, the
    login of [Base64Rev] succeeds as "password migrated", every row of that
    username then stores the base64 form, and a second login with the same
    password succeeds through the first comparison, leaving the users table
    as it is.  For every other username and password the login is refused
    with 401 and the store is as before: nothing is upgraded. *)
Theorem C1_default_account_migration :
  forall (s : Store) (u p : string) (user : UserRow),
    str_truthy u = true -> str_truthy p = true ->
    select_user_by_username s (Some u) = Some user ->
    password (user_cols user) = Some p ->
    sql_text_eq (Some (Base64Rev.simpleHash p)) (password (user_cols user)) = false ->
    (In (u, p) Base64Rev.defaultPasswords ->
     exists s1 s2 : Store,
       Base64Rev.post_auth_login s (login_request u p)
         = (s1, respond 200
                  (BodyLogin "Login successful (password migrated)"
                     (username (user_cols user)) (role (user_cols user))
                     "agreement-manager-token"))
       /\ (forall r, In r (users s1) -> username (user_cols r) = Some u ->
                     password (user_cols r) = Some (Base64Rev.simpleHash p))
       /\ Base64Rev.post_auth_login s1 (login_request u p)
         = (s2, respond 200
                  (BodyLogin "Login successful"
                     (username (user_cols user)) (role (user_cols user))
                     "agreement-manager-token"))
       /\ users s2 = users s1)
    /\ (~ In (u, p) Base64Rev.defaultPasswords ->
        Base64Rev.post_auth_login s (login_request u p)
        = (s, respond 401 (BodyError "Invalid username or password"))).
Proof.
  intros s u p user Hu Hp Hsel Hplain Hneq. split.
  - intros Hin. pose proof (listed_default_password u p Hin) as Hdef.
    destruct (select_after_password_update s u (Base64Rev.simpleHash p) user Hsel)
      as (user1 & Hsel1 & Hpw1 & Hname1 & Hrole1).
    eexists. eexists. split; [|split; [|split]].
    + unfold Base64Rev.post_auth_login, login_request.
      cbn [Base64Rev.req_username Base64Rev.req_password].
      rewrite Hu, Hp. cbn [negb orb]. rewrite Hsel. cbv zeta.
      rewrite Hneq, Hdef. reflexivity.
    + intros r Hr Hname. rewrite users_insert_log in Hr.
      unfold update_password_by_username in Hr. cbn [users set_users] in Hr.
      apply in_map_iff in Hr. destruct Hr as (r0 & <- & _).
      destruct (sql_text_eq (username (user_cols r0)) (Some u)) eqn:E.
      * reflexivity.
      * rewrite Hname in E. rewrite sql_text_eq_refl in E. discriminate.
    + unfold Base64Rev.post_auth_login at 1, login_request.
      cbn [Base64Rev.req_username Base64Rev.req_password].
      rewrite Hu, Hp. cbn [negb orb].
      unfold select_user_by_username in *. rewrite users_insert_log. rewrite Hsel1.
      cbv zeta. rewrite Hpw1, sql_text_eq_refl, Hname1, Hrole1. reflexivity.
    + reflexivity.
  - intros Hout.
    assert (Hdef : Base64Rev.default_password_matches u p = false).
    { destruct (Base64Rev.default_password_matches u p) eqn:E; [|reflexivity].
      exfalso. apply Hout, default_password_listed, E. }
    unfold Base64Rev.post_auth_login, login_request.
    cbn [Base64Rev.req_username Base64Rev.req_password].
    rewrite Hu, Hp. cbn [negb orb]. rewrite Hsel. cbv zeta.
    rewrite Hneq, Hdef. reflexivity.
Qed.

(** C1 as stated fails: bob's stored credential is the legacy plain text
    of his password, it does not verify as base64, and yet the login is
    refused and nothing is upgraded. *)
Lemma C1_legacy_plain_text_is_refused :
  password (user_cols (user_row 1 "bob" "secret" "user")) = Some "secret"
  /\ Base64Rev.simpleHash "secret" = "c2VjcmV0"
  /\ Base64Rev.post_auth_login bob_store (login_request "bob" "secret")
     = (bob_store, respond 401 (BodyError "Invalid username or password")).
Proof. repeat split. Qed.

(** The migration at the admin whose credential is the plain text
    "admin123". *)
Lemma C1_default_account_migration_witness :
  exists s1 s2 : Store,
    Base64Rev.post_auth_login plain_admin_store (login_request "admin" "admin123")
      = (s1, respond 200
               (BodyLogin "Login successful (password migrated)"
                  (Some "admin") (Some "admin") "agreement-manager-token"))
    /\ (forall r, In r (users s1) -> username (user_cols r) = Some "admin" ->
                  password (user_cols r) = Some (Base64Rev.simpleHash "admin123"))
    /\ Base64Rev.post_auth_login s1 (login_request "admin" "admin123")
      = (s2, respond 200
               (BodyLogin "Login successful" (Some "admin") (Some "admin")
                  "agreement-manager-token"))
    /\ users s2 = users s1.
Proof.
  apply (proj1 (C1_default_account_migration plain_admin_store "admin" "admin123"
                  (user_row 1 "admin" "admin123" "admin")
                  eq_refl eq_refl eq_refl eq_refl eq_refl)).
  left. reflexivity.
Defined.

(* ================================================================== *)
(** ** Facts about INSERT loops *)

Local Open Scope list_scope.

Section EngineFacts.
Variable engine_accepts : Statement -> bool.

Lemma insert_agreement_inr nn s c s' row :
  insert_agreement engine_accepts nn s c = (s', inr row) ->
  agreements s' = agreements s ++ [row] /\ agreement_cols row = c
  /\ agreement_id row = agreements_id_seq s
  /\ users s' = users s /\ activity_logs s' = activity_logs s
  /\ system_settings s' = system_settings s.
Proof.
  unfold insert_agreement.
  destruct (engine_accepts (InsertAgreement c)); cbn [negb]; [|discriminate].
  destruct (nn c); cbn [negb]; [|discriminate].
  destruct (_ || _); [discriminate|].
  intros H. inversion H; subst. cbn. repeat split.
Qed.

Lemma insert_agreement_inl nn s c s' e :
  insert_agreement engine_accepts nn s c = (s', inl e) -> same_tables s' s.
Proof.
  unfold insert_agreement, same_tables.
  destruct (engine_accepts (InsertAgreement c)); cbn [negb];
    [|intros H; inversion H; subst; repeat split].
  destruct (nn c); cbn [negb]; [|intros H; inversion H; subst; repeat split].
  destruct (_ || _); intros H; inversion H; subst; repeat split.
Qed.

Lemma insert_agreements_done nn l : forall s s',
  insert_agreements engine_accepts nn s l = (s', None) ->
  map agreement_cols (agreements s') = map agreement_cols (agreements s) ++ l
  /\ users s' = users s /\ activity_logs s' = activity_logs s
  /\ system_settings s' = system_settings s.
Proof.
  induction l as [|c l IH]; intros s s' H; cbn [insert_agreements] in H.
  - inversion H; subst. rewrite app_nil_r. repeat split.
  - destruct (insert_agreement engine_accepts nn s c) as [s1 [e|row]] eqn:E;
      [discriminate|].
    apply insert_agreement_inr in E.
    destruct E as (Ha & Hc & _ & Hu & Hl & Hs).
    apply IH in H. destruct H as (Ha' & Hu' & Hl' & Hs').
    rewrite Ha', Ha, map_app, <- app_assoc. cbn [map app]. rewrite Hc.
    repeat split; congruence.
Qed.

(** A loop that stops has applied a strict prefix of the list. *)
Lemma insert_agreements_stopped nn l : forall s s' e,
  insert_agreements engine_accepts nn s l = (s', Some e) ->
  exists done c rest,
    l = done ++ c :: rest
    /\ map agreement_cols (agreements s') = map agreement_cols (agreements s) ++ done
    /\ users s' = users s /\ activity_logs s' = activity_logs s
    /\ system_settings s' = system_settings s.
Proof.
  induction l as [|c l IH]; intros s s' e H; cbn [insert_agreements] in H;
    [discriminate|].
  destruct (insert_agreement engine_accepts nn s c) as [s1 [e1|row]] eqn:E.
  - inversion H; subst. apply insert_agreement_inl in E.
    destruct E as (Hu & Ha & Hl & Hs).
    exists [], c, l. rewrite app_nil_r, Ha. repeat split; assumption.
  - apply insert_agreement_inr in E.
    destruct E as (Ha & Hc & _ & Hu & Hl & Hs).
    apply IH in H. destruct H as (done & c' & rest & -> & Ha' & Hu' & Hl' & Hs').
    exists (c :: done), c', rest. split; [reflexivity|].
    rewrite Ha', Ha, map_app, <- app_assoc. cbn [map app]. rewrite Hc.
    repeat split; congruence.
Qed.

Lemma insert_user_inr nn s c s' row :
  insert_user engine_accepts nn s c = (s', inr row) ->
  users s' = users s ++ [row] /\ user_cols row = c
  /\ agreements s' = agreements s /\ activity_logs s' = activity_logs s
  /\ system_settings s' = system_settings s.
Proof.
  unfold insert_user.
  destruct (engine_accepts (InsertUser c)); cbn [negb]; [|discriminate].
  destruct (nn c); cbn [negb]; [|discriminate].
  destruct (_ || _); [discriminate|].
  intros H. inversion H; subst. cbn. repeat split.
Qed.

Lemma insert_users_done nn l : forall s s',
  insert_users engine_accepts nn s l = (s', None) ->
  map user_cols (users s') = map user_cols (users s) ++ l
  /\ agreements s' = agreements s /\ activity_logs s' = activity_logs s
  /\ system_settings s' = system_settings s.
Proof.
  induction l as [|c l IH]; intros s s' H; cbn [insert_users] in H.
  - inversion H; subst. rewrite app_nil_r. repeat split.
  - destruct (insert_user engine_accepts nn s c) as [s1 [e|row]] eqn:E;
      [discriminate|].
    apply insert_user_inr in E. destruct E as (Hu & Hc & Ha & Hl & Hs).
    apply IH in H. destruct H as (Hu' & Ha' & Hl' & Hs').
    rewrite Hu', Hu, map_app, <- app_assoc. cbn [map app]. rewrite Hc.
    repeat split; congruence.
Qed.

Lemma update_settings_done s r s' :
  update_settings engine_accepts s r = (s', None) ->
  users s' = users s /\ agreements s' = agreements s
  /\ activity_logs s' = activity_logs s.
Proof.
  unfold update_settings.
  destruct (engine_accepts (UpdateSettings r)); cbn [negb]; [|discriminate].
  destruct (system_settings s); intros H; inversion H; subst; repeat split.
Qed.

End EngineFacts.

(** The typed statements of [Base64Rev]. *)
Section TypedFacts.
Variable engine_accepts : Statement -> bool.
Variable decimal : nat -> nat -> SqlValue -> SqlValue.
Variable date_in : string -> string.

Lemma varchar_fits (n : nat) (t : string) :
  (char_length t <= n)%nat -> varchar n t = Some t.
Proof.
  intros H. unfold varchar. rewrite (proj2 (Nat.leb_le _ _) H). reflexivity.
Qed.

Lemma varchar_col_null (n : nat) (v w : option string) :
  varchar_col n v = Some w ->
  match w with Some _ => true | None => false end
  = match v with Some _ => true | None => false end.
Proof.
  destruct v as [t|]; cbn [varchar_col].
  - destruct (varchar n t); cbn [option_map]; intros H; inversion H; reflexivity.
  - intros H; inversion H; reflexivity.
Qed.

(** The columns of a stored row that the statements below read. *)
Lemma stored_agreement_fields c c' :
  Base64Rev.stored_agreement decimal date_in c = Some c' ->
  varchar_col 255 (owner_name c) = Some (owner_name c')
  /\ varchar_col 255 (location c) = Some (location c')
  /\ varchar_col 100 (token_number c) = Some (token_number c')
  /\ payment_due c' = Base64Rev.decimal_col decimal 15 2 (payment_due c).
Proof.
  unfold Base64Rev.stored_agreement. intros H.
  repeat match type of H with
         | match ?x with _ => _ end = _ => destruct x; try discriminate H
         end.
  inversion H; subst. cbn. auto.
Qed.

Lemma stored_agreement_not_null c c' :
  Base64Rev.stored_agreement decimal date_in c = Some c' ->
  Base64Rev.not_null c' = Base64Rev.not_null c.
Proof.
  intros H. apply stored_agreement_fields in H. destruct H as (Ho & Hl & Ht & _).
  apply varchar_col_null in Ho, Hl, Ht. unfold Base64Rev.not_null.
  destruct (owner_name c'), (owner_name c); try discriminate Ho;
    destruct (location c'), (location c); try discriminate Hl;
    destruct (token_number c'), (token_number c); try discriminate Ht; reflexivity.
Qed.

Lemma insert_typed_inr s c s' row :
  Base64Rev.insert_typed engine_accepts decimal date_in s c = (s', inr row) ->
  Base64Rev.stored_agreement decimal date_in c = Some (agreement_cols row)
  /\ agreements s' = agreements s ++ [row]
  /\ agreement_id row = agreements_id_seq s
  /\ users s' = users s /\ activity_logs s' = activity_logs s
  /\ system_settings s' = system_settings s.
Proof.
  unfold Base64Rev.insert_typed.
  destruct (Base64Rev.stored_agreement decimal date_in c) as [c'|]; [|discriminate].
  intros H. apply insert_agreement_inr in H.
  destruct H as (Ha & Hc & Hid & Hu & Hl & Hs). rewrite Hc. auto 6.
Qed.

Lemma insert_typed_inl s c s' e :
  Base64Rev.insert_typed engine_accepts decimal date_in s c = (s', inl e) ->
  same_tables s' s.
Proof.
  unfold Base64Rev.insert_typed.
  destruct (Base64Rev.stored_agreement decimal date_in c) as [c'|].
  - apply insert_agreement_inl.
  - intros H. inversion H; subst. repeat split.
Qed.

Lemma restore_agreements_done l : forall s s',
  Base64Rev.restore_agreements engine_accepts decimal date_in s l = (s', None) ->
  exists rows,
    Forall2 (fun c row => Base64Rev.stored_agreement decimal date_in c = Some row)
      l rows
    /\ map agreement_cols (agreements s') = map agreement_cols (agreements s) ++ rows
    /\ users s' = users s /\ activity_logs s' = activity_logs s
    /\ system_settings s' = system_settings s.
Proof.
  induction l as [|c l IH]; intros s s' H; cbn [Base64Rev.restore_agreements] in H.
  - inversion H; subst. exists []. rewrite app_nil_r. repeat split. constructor.
  - destruct (Base64Rev.insert_typed _ _ _ s c) as [s1 [e|row]] eqn:E;
      [discriminate|].
    apply insert_typed_inr in E.
    destruct E as (Hc & Ha & _ & Hu & Hl & Hs).
    apply IH in H. destruct H as (rows & Hrows & Ha' & Hu' & Hl' & Hs').
    exists (agreement_cols row :: rows). split; [constructor; assumption|].
    rewrite Ha', Ha, map_app, <- app_assoc. cbn [map app].
    repeat split; congruence.
Qed.

(** A loop that stops has applied a strict prefix of the list. *)
Lemma restore_agreements_stopped l : forall s s' e,
  Base64Rev.restore_agreements engine_accepts decimal date_in s l = (s', Some e) ->
  exists done c rest rows,
    l = done ++ c :: rest
    /\ Forall2 (fun c row => Base64Rev.stored_agreement decimal date_in c = Some row)
         done rows
    /\ map agreement_cols (agreements s') = map agreement_cols (agreements s) ++ rows
    /\ users s' = users s /\ activity_logs s' = activity_logs s
    /\ system_settings s' = system_settings s.
Proof.
  induction l as [|c l IH]; intros s s' e H; cbn [Base64Rev.restore_agreements] in H;
    [discriminate|].
  destruct (Base64Rev.insert_typed _ _ _ s c) as [s1 [e1|row]] eqn:E.
  - inversion H; subst. apply insert_typed_inl in E.
    destruct E as (Hu & Ha & Hl & Hs).
    exists [], c, l, []. rewrite app_nil_r, Ha. repeat split; try assumption.
    constructor.
  - apply insert_typed_inr in E.
    destruct E as (Hc & Ha & _ & Hu & Hl & Hs).
    apply IH in H.
    destruct H as (done & c' & rest & rows & -> & Hrows & Ha' & Hu' & Hl' & Hs').
    exists (c :: done), c', rest, (agreement_cols row :: rows).
    split; [reflexivity|]. split; [constructor; assumption|].
    rewrite Ha', Ha, map_app, <- app_assoc. cbn [map app].
    repeat split; congruence.
Qed.

End TypedFacts.

(* ================================================================== *)
(** ** C2: restore, all or nothing *)

(** The restore of [PlainRev] that answers 200 has committed: the
    agreements are those of the backup in its order, the users those it
    lists, the log is empty. *)
Lemma PlainRev_restore_commits_snapshot
    (engine_accepts : Statement -> bool) (now : string)
    (s s' : Store) (b : PlainRev.Snapshot) (r : Response) :
  PlainRev.post_backup_restore engine_accepts now s b = (s', r) ->
  status r = 200 ->
  map agreement_cols (agreements s')
    = map PlainRev.restore_cols (PlainRev.or_nil (PlainRev.snap_agreements b))
  /\ map user_cols (users s')
     = map (PlainRev.restore_user now) (PlainRev.or_nil (PlainRev.snap_users b))
  /\ activity_logs s' = [].
Proof.
  unfold PlainRev.post_backup_restore, PlainRev.restore_statements.
  destruct (insert_agreements _ _ _ _) as [s4 [e|]] eqn:Ea;
    [intros H; inversion H; subst; discriminate|].
  destruct (insert_users _ _ _ _) as [s5 [e|]] eqn:Eu;
    [intros H; inversion H; subst; discriminate|].
  apply insert_agreements_done in Ea. destruct Ea as (Ha & Hu & Hl & _).
  apply insert_users_done in Eu. destruct Eu as (Hu' & Ha' & Hl' & _).
  cbn in Ha, Hu, Hl. rewrite Hu in Hu'. cbn in Hu'.
  destruct (PlainRev.snap_settings b) as [st|].
  - destruct (update_settings engine_accepts s5 st) as [s6 [e|]] eqn:Es;
      intros H; inversion H; subst; [discriminate|].
    apply update_settings_done in Es. destruct Es as (Hu6 & Ha6 & Hl6).
    intros _. rewrite Ha6, Hu6, Hl6, Ha', Hl'. auto.
  - intros H; inversion H; subst. intros _. rewrite Ha', Hl'. auto.
Qed.

(** The restore of [PlainRev] that does not answer 200 answers 500 after
    ROLLBACK: every table is as it was before the request. *)
Lemma PlainRev_restore_rolls_back
    (engine_accepts : Statement -> bool) (now : string)
    (s s' : Store) (b : PlainRev.Snapshot) (r : Response) :
  PlainRev.post_backup_restore engine_accepts now s b = (s', r) ->
  status r <> 200 ->
  r = respond 500 (BodyError "Failed to restore backup") /\ same_tables s' s.
Proof.
  unfold PlainRev.post_backup_restore.
  destruct (PlainRev.restore_statements _ _ _ _) as [s1 [e|]];
    intros H; inversion H; subst; cbn.
  - intros _. split; [reflexivity|]. repeat split.
  - intros Hne. exfalso. apply Hne. reflexivity.
Qed.

(** The restore of [Base64Rev] that fails has deleted the stored
    agreements and kept the inserts made before the failure. *)
Lemma Base64Rev_restore_failure_is_partial
    (engine_accepts : Statement -> bool)
    (decimal : nat -> nat -> SqlValue -> SqlValue) (date_in : string -> string)
    (s s' : Store) (snapshot : list AgreementCols) (r : Response) :
  Base64Rev.post_backup_restore engine_accepts decimal date_in s (Some snapshot)
  = (s', r) ->
  status r <> 200 ->
  exists done c rest,
    snapshot = done ++ c :: rest
    /\ Forall2 (fun c row => Base64Rev.stored_agreement decimal date_in c = Some row)
         done (map agreement_cols (agreements s')).
Proof.
  unfold Base64Rev.post_backup_restore.
  destruct (Base64Rev.restore_agreements _ _ _ _ _) as [s1 [e|]] eqn:E;
    intros H; inversion H; subst; cbn.
  - intros _. apply restore_agreements_stopped in E.
    destruct E as (done & c & rest & rows & Hl & Hrows & Ha & _).
    exists done, c, rest. split; [exact Hl|]. rewrite Ha. exact Hrows.
  - intros Hne. exfalso. apply Hne. reflexivity.
Qed.

(** C2, where the code departs from it: the restore of [Base64Rev] runs
    DELETE and the INSERTs outside a transaction.  With one stored
    agreement and a backup whose second agreement repeats the token of the
    first, the answer is 500 and the table holds the first agreement of the
    backup alone: neither the table as it was nor the backup. *)
Theorem C2_restore_without_transaction_is_partial :
  forall (decimal : nat -> nat -> SqlValue -> SqlValue) (date_in : string -> string),
  exists s' : Store,
    Base64Rev.post_backup_restore accept_all decimal date_in one_agreement_store
      (Some duplicate_snapshot)
      = (s', respond 500 (BodyError "Internal server error"))
    /\ map agreement_cols (agreements s') = [sample_cols "A" "L1" "T-100"]
    /\ map agreement_cols (agreements one_agreement_store)
       = [sample_cols "Old" "L0" "T-OLD"]
    /\ ~ same_tables s' one_agreement_store
    /\ map agreement_cols (agreements s') <> duplicate_snapshot.
Proof.
  intros decimal date_in.
  eexists. split; [reflexivity|].
  split; [reflexivity|]. split; [reflexivity|]. split.
  - intros (_ & Ha & _). discriminate Ha.
  - discriminate.
Qed.

(** At the same input the restore of [PlainRev] answers 500 and leaves the
    tables as they were. *)
Lemma PlainRev_restore_same_input_rolls_back :
  forall now : string,
  exists s' : Store,
    PlainRev.post_backup_restore accept_all now one_agreement_store
      {| PlainRev.snap_agreements := Some duplicate_snapshot;
         PlainRev.snap_users := None; PlainRev.snap_settings := None |}
      = (s', respond 500 (BodyError "Failed to restore backup"))
    /\ same_tables s' one_agreement_store.
Proof.
  intros now. eexists. split; [reflexivity|]. repeat split.
Qed.

(* ================================================================== *)
(** ** C3: the derived financial fields *)

Lemma params_store_derivation pfs d id :
  stores_derivation_of pfs d {| agreement_id := id; agreement_cols := params pfs d |}.
Proof. unfold stores_derivation_of, derive. cbn. repeat split. Qed.

Lemma orZero_not_nan (f : float) : PrimFloat.is_nan (orZero f) = false.
Proof.
  unfold orZero, num_truthy.
  destruct (PrimFloat.is_nan f) eqn:E; cbn [orb negb]; [reflexivity|].
  destruct (PrimFloat.is_zero f); cbn [negb]; [reflexivity | exact E].
Qed.

Lemma money_default (pfs : string -> float) (v : JsValue) :
  v = JUndefined \/ v = JNull \/ PrimFloat.is_nan (parseFloat pfs v) = true ->
  money pfs v = 0%float.
Proof.
  intros [->|[->|H]]; [reflexivity | reflexivity |].
  unfold money, orZero, num_truthy. rewrite H. reflexivity.
Qed.

Section UpdateFacts.
Variable engine_accepts : Statement -> bool.

Lemma update_agreement_some nn merge s id p s' row :
  update_agreement engine_accepts nn merge s id p = (s', inr (Some row)) ->
  exists old,
    find (fun r => agreement_id r =? id) (agreements s) = Some old
    /\ row = {| agreement_id := id; agreement_cols := merge (agreement_cols old) p |}
    /\ agreements s'
       = map (fun r => if agreement_id r =? id then row else r) (agreements s)
    /\ users s' = users s.
Proof.
  unfold update_agreement.
  destruct (engine_accepts (UpdateAgreement id p)); cbn [negb]; [|discriminate].
  destruct (find _ (agreements s)) as [old|] eqn:E; [|discriminate].
  destruct (nn _); cbn [negb]; [|discriminate].
  destruct (token_taken_by_other _ _ _); [discriminate|].
  intros H. inversion H; subst. exists old. repeat split.
Qed.

(** After a successful UPDATE the new row is in the table and is the only
    row of its id. *)
Lemma update_agreement_replaces nn merge s id p s' row :
  update_agreement engine_accepts nn merge s id p = (s', inr (Some row)) ->
  In row (agreements s')
  /\ forall r, In r (agreements s') -> agreement_id r = id -> r = row.
Proof.
  intros H. apply update_agreement_some in H.
  destruct H as (old & Hfind & Hrow & Hags & _). rewrite Hags. split.
  - apply find_some in Hfind. destruct Hfind as [Hin Hid].
    apply in_map_iff. exists old. rewrite Hid. auto.
  - intros r Hin Hr. apply in_map_iff in Hin. destruct Hin as (r0 & Hr0 & _).
    destruct (agreement_id r0 =? id) eqn:E; [congruence|].
    subst r0. rewrite Hr, Z.eqb_refl in E. discriminate.
Qed.

End UpdateFacts.

Section ProfitHandlers.
Variable parseFloatString : string -> float.
Variable engine_accepts : Statement -> bool.

Lemma PlainRev_create_row s d s' row :
  PlainRev.post_agreements parseFloatString engine_accepts s d
    = (s', respond 200 (BodyAgreement (Some row))) ->
  In row (agreements s') /\ agreement_cols row = params parseFloatString d.
Proof.
  unfold PlainRev.post_agreements.
  destruct (insert_agreement _ _ _ _) as [s1 [e|row1]] eqn:E; [discriminate|].
  intros H. inversion H; subst.
  apply insert_agreement_inr in E. destruct E as (Ha & Hc & _).
  rewrite Ha. split; [apply in_or_app; right; left; reflexivity | exact Hc].
Qed.

Lemma PlainRev_update_row s id d s' row :
  PlainRev.put_agreements_id parseFloatString engine_accepts s id d
    = (s', respond 200 (BodyAgreement (Some row))) ->
  In row (agreements s')
  /\ int4_in id = Some (agreement_id row)
  /\ (forall r, In r (agreements s') -> agreement_id r = agreement_id row -> r = row)
  /\ agreement_cols row = params parseFloatString d.
Proof.
  unfold PlainRev.put_agreements_id.
  destruct (int4_in id) as [n|]; [|discriminate].
  destruct (update_agreement _ _ _ _ _ _) as [s1 [e|[row1|]]] eqn:E;
    try discriminate.
  intros H. inversion H; subst.
  destruct (update_agreement_replaces _ _ _ _ _ _ _ _ E) as [Hin Huniq].
  apply update_agreement_some in E. destruct E as (old & _ & Hrow & _).
  subst row. cbn [agreement_id agreement_cols replace_all].
  repeat split; [exact Hin | exact Huniq].
Qed.

Lemma BcryptRev_create_row s req user d s' row :
  BcryptRev.post_agreements parseFloatString engine_accepts s req user d
    = (s', respond 200 (BodyAgreement (Some row))) ->
  In row (agreements s') /\ agreement_cols row = params parseFloatString d.
Proof.
  unfold BcryptRev.post_agreements, BcryptRev.insert_and_log.
  destruct (BcryptRev.token_check s d); [discriminate|].
  destruct (insert_agreement _ _ _ _) as [s1 [e|row1]] eqn:E; [discriminate|].
  intros H. inversion H; subst. rewrite agreements_insert_log.
  apply insert_agreement_inr in E. destruct E as (Ha & Hc & _).
  rewrite Ha. split; [apply in_or_app; right; left; reflexivity | exact Hc].
Qed.

Lemma BcryptRev_update_row s req user id d s' row :
  BcryptRev.put_agreements_id parseFloatString engine_accepts s req user id d
    = (s', respond 200 (BodyAgreement (Some row))) ->
  In row (agreements s')
  /\ int4_in id = Some (agreement_id row)
  /\ (forall r, In r (agreements s') -> agreement_id r = agreement_id row -> r = row)
  /\ agreement_cols row = params parseFloatString d.
Proof.
  unfold BcryptRev.put_agreements_id.
  destruct (int4_in id) as [n|]; [|discriminate].
  destruct (token_taken_by_other _ _ _); [discriminate|].
  destruct (update_agreement _ _ _ _ _ _) as [s1 [e|[row1|]]] eqn:E;
    try discriminate.
  intros H. inversion H; subst. rewrite agreements_insert_log.
  destruct (update_agreement_replaces _ _ _ _ _ _ _ _ E) as [Hin Huniq].
  apply update_agreement_some in E. destruct E as (old & _ & Hrow & _).
  subst row. cbn [agreement_id agreement_cols replace_all].
  repeat split; [exact Hin | exact Huniq].
Qed.

End ProfitHandlers.

Lemma stores_derivation_of_params pfs d row :
  agreement_cols row = params pfs d -> stores_derivation_of pfs d row.
Proof.
  destruct row as [id c]. cbn [agreement_cols]. intros ->.
  apply params_store_derivation.
Qed.

(** C3: in [PlainRev] and [BcryptRev] every monetary input is read as
    [parseFloat(v) || 0], which is 0 for an absent, null or non-numeric
    value and never NaN; a create or an update that answers with the row has
    stored it with grossProfit = totalPayment - actualCost, netProfit =
    grossProfit - agentCommission - otherExpenses and profitMargin =
    (netProfit / totalPayment) * 100 when totalPayment > 0, else 0; and the
    create of the scenario (1000, 400, 50, 10) stores 600, 540 and 54. *)
Theorem C3_create_and_update_persist_derivation :
  forall (pfs : string -> float) (ea : Statement -> bool),
    (forall v, v = JUndefined \/ v = JNull
               \/ PrimFloat.is_nan (parseFloat pfs v) = true ->
               money pfs v = 0%float)
    /\ (forall v, PrimFloat.is_nan (money pfs v) = false)
    /\ (forall s d s' row,
          PlainRev.post_agreements pfs ea s d
            = (s', respond 200 (BodyAgreement (Some row))) ->
          In row (agreements s') /\ stores_derivation_of pfs d row)
    /\ (forall s id d s' row,
          PlainRev.put_agreements_id pfs ea s id d
            = (s', respond 200 (BodyAgreement (Some row))) ->
          In row (agreements s') /\ stores_derivation_of pfs d row)
    /\ (forall s req user d s' row,
          BcryptRev.post_agreements pfs ea s req user d
            = (s', respond 200 (BodyAgreement (Some row))) ->
          In row (agreements s') /\ stores_derivation_of pfs d row)
    /\ (forall s req user id d s' row,
          BcryptRev.put_agreements_id pfs ea s req user id d
            = (s', respond 200 (BodyAgreement (Some row))) ->
          In row (agreements s') /\ stores_derivation_of pfs d row)
    /\ derive 1000 400 50 10 = (600, 540, 54)%float
    /\ (ea (InsertAgreement (params pfs scenario)) = true ->
        forall req user, exists s1 s2 row,
          PlainRev.post_agreements pfs ea empty_store scenario
            = (s1, respond 200 (BodyAgreement (Some row)))
          /\ BcryptRev.post_agreements pfs ea empty_store req user scenario
            = (s2, respond 200 (BodyAgreement (Some row)))
          /\ In row (agreements s1) /\ In row (agreements s2)
          /\ gross_profit (agreement_cols row) = SqlNum 600
          /\ net_profit (agreement_cols row) = SqlNum 540
          /\ profit_margin (agreement_cols row) = SqlNum 54).
Proof.
  intros pfs ea.
  split; [apply money_default|].
  split; [intros v; apply orZero_not_nan|].
  split; [intros s d s' row H; apply PlainRev_create_row in H;
          destruct H as [Hin Hc]; split;
          [exact Hin | apply stores_derivation_of_params, Hc]|].
  split; [intros s id d s' row H; apply PlainRev_update_row in H;
          destruct H as (Hin & _ & _ & Hc); split;
          [exact Hin | apply stores_derivation_of_params, Hc]|].
  split; [intros s req user d s' row H; apply BcryptRev_create_row in H;
          destruct H as [Hin Hc]; split;
          [exact Hin | apply stores_derivation_of_params, Hc]|].
  split; [intros s req user id d s' row H; apply BcryptRev_update_row in H;
          destruct H as (Hin & _ & _ & Hc); split;
          [exact Hin | apply stores_derivation_of_params, Hc]|].
  split; [vm_compute; reflexivity|].
  intros Hacc req user.
  exists (set_agreements (bump_agreements_seq empty_store)
            [{| agreement_id := 1; agreement_cols := params pfs scenario |}]).
  eexists. exists {| agreement_id := 1; agreement_cols := params pfs scenario |}.
  split; [|split; [|split; [|split; [|split; [|split]]]]].
  - unfold PlainRev.post_agreements, insert_agreement. rewrite Hacc. reflexivity.
  - unfold BcryptRev.post_agreements, BcryptRev.insert_and_log, insert_agreement.
    rewrite Hacc. reflexivity.
  - left; reflexivity.
  - left; reflexivity.
  - vm_compute; reflexivity.
  - vm_compute; reflexivity.
  - vm_compute; reflexivity.
Qed.

(** The four handlers and the scenario, run with an engine that accepts
    every statement. *)
Lemma C3_scenario_witness :
  (In scenario_row
      (agreements (fst (PlainRev.post_agreements no_string_numbers accept_all
                          empty_store scenario)))
   /\ stores_derivation_of no_string_numbers scenario scenario_row)
  /\ (In scenario_row
        (agreements (fst (PlainRev.put_agreements_id no_string_numbers accept_all
                            one_agreement_store "1" scenario)))
      /\ stores_derivation_of no_string_numbers scenario scenario_row)
  /\ (In scenario_row
        (agreements (fst (BcryptRev.post_agreements no_string_numbers accept_all
                            empty_store anonymous admin_token scenario)))
      /\ stores_derivation_of no_string_numbers scenario scenario_row)
  /\ (In scenario_row
        (agreements (fst (BcryptRev.put_agreements_id no_string_numbers accept_all
                            one_agreement_store anonymous admin_token "1" scenario)))
      /\ stores_derivation_of no_string_numbers scenario scenario_row)
  /\ exists s1 s2 row,
      PlainRev.post_agreements no_string_numbers accept_all empty_store scenario
        = (s1, respond 200 (BodyAgreement (Some row)))
      /\ BcryptRev.post_agreements no_string_numbers accept_all empty_store
           anonymous admin_token scenario
         = (s2, respond 200 (BodyAgreement (Some row)))
      /\ In row (agreements s1) /\ In row (agreements s2)
      /\ gross_profit (agreement_cols row) = SqlNum 600
      /\ net_profit (agreement_cols row) = SqlNum 540
      /\ profit_margin (agreement_cols row) = SqlNum 54.
Proof.
  destruct (C3_create_and_update_persist_derivation no_string_numbers accept_all)
    as (_ & _ & Hcreate & Hupdate & Hcreate' & Hupdate' & _ & Hscenario).
  split; [apply (Hcreate empty_store scenario _ scenario_row); reflexivity|].
  split; [apply (Hupdate one_agreement_store "1" scenario _ scenario_row); reflexivity|].
  split; [apply (Hcreate' empty_store anonymous admin_token scenario _ scenario_row);
          reflexivity|].
  split; [apply (Hupdate' one_agreement_store anonymous admin_token "1" scenario _
                   scenario_row); reflexivity|].
  apply Hscenario. reflexivity.
Defined.

(* ================================================================== *)
(** ** C4 and C5: what an update recomputes, and the payment due *)

Lemma SqlNum_5_is_not_500 : SqlNum 5 <> SqlNum 500.
Proof.
  intros H.
  apply (f_equal (fun v => match v with
                           | SqlNum f => (f <? 500)%float
                           | _ => false
                           end)) in H.
  vm_compute in H. discriminate H.
Qed.

Lemma params_ignore_submitted_profit pfs d g n m :
  params pfs (with_submitted_profit d g n m) = params pfs d.
Proof. reflexivity. Qed.

(** C4 as stated fails for paymentDue: the update of [BcryptRev] answers
    200 and the row stores the submitted 5, not 1000 - 200 - 300 = 500. *)
Lemma C4_update_stores_submitted_due :
  exists s' row,
    BcryptRev.put_agreements_id no_string_numbers accept_all one_agreement_store
      anonymous admin_token "1" due_5_of_500
      = (s', respond 200 (BodyAgreement (Some row)))
    /\ In row (agreements s')
    /\ payment_due (agreement_cols row) = SqlNum 5
    /\ (1000 - 200 - 300 = 500)%float
    /\ payment_due (agreement_cols row) <> SqlNum 500.
Proof.
  eexists. eexists. split; [reflexivity|].
  split; [left; reflexivity|]. split; [reflexivity|].
  split; [vm_compute; reflexivity|]. exact SqlNum_5_is_not_500.
Qed.

(** C4, as the code has it.  In [PlainRev] and [BcryptRev] an update that
    answers with the row leaves that row as the only one of its id, with the
    three profit columns derived from the submitted inputs whatever profit
    values the client sent along, and with payment_due as the client sent it
    ([parseFloat(paymentDue) || 0]). *)
Theorem C4_update_recomputes_profit_not_due :
  forall (pfs : string -> float) (ea : Statement -> bool),
    (forall s id d s' row,
        PlainRev.put_agreements_id pfs ea s id d
          = (s', respond 200 (BodyAgreement (Some row))) ->
        int4_in id = Some (agreement_id row)
        /\ (forall r, In r (agreements s') ->
                      agreement_id r = agreement_id row -> r = row)
        /\ In row (agreements s')
        /\ stores_derivation_of pfs d row
        /\ payment_due (agreement_cols row) = SqlNum (money pfs (paymentDue d)))
    /\ (forall s req user id d s' row,
        BcryptRev.put_agreements_id pfs ea s req user id d
          = (s', respond 200 (BodyAgreement (Some row))) ->
        int4_in id = Some (agreement_id row)
        /\ (forall r, In r (agreements s') ->
                      agreement_id r = agreement_id row -> r = row)
        /\ In row (agreements s')
        /\ stores_derivation_of pfs d row
        /\ payment_due (agreement_cols row) = SqlNum (money pfs (paymentDue d)))
    /\ (forall s req user id d g n m,
        PlainRev.put_agreements_id pfs ea s id (with_submitted_profit d g n m)
          = PlainRev.put_agreements_id pfs ea s id d
        /\ BcryptRev.put_agreements_id pfs ea s req user id
             (with_submitted_profit d g n m)
           = BcryptRev.put_agreements_id pfs ea s req user id d).
Proof.
  intros pfs ea. split; [|split].
  - intros s id d s' row H. apply PlainRev_update_row in H.
    destruct H as (Hin & Hid & Huniq & Hc).
    repeat split; [exact Hid | exact Huniq | exact Hin
                  | apply stores_derivation_of_params, Hc | | | ];
      rewrite Hc; reflexivity.
  - intros s req user id d s' row H. apply BcryptRev_update_row in H.
    destruct H as (Hin & Hid & Huniq & Hc).
    repeat split; [exact Hid | exact Huniq | exact Hin
                  | apply stores_derivation_of_params, Hc | | | ];
      rewrite Hc; reflexivity.
  - intros. split; reflexivity.
Qed.

(** The two updates run on the store of one agreement. *)
Lemma C4_update_witness :
  (int4_in "1" = Some (agreement_id due_5_row)
   /\ (forall r,
         In r (agreements (fst (PlainRev.put_agreements_id no_string_numbers
                                  accept_all one_agreement_store "1" due_5_of_500))) ->
         agreement_id r = agreement_id due_5_row -> r = due_5_row)
   /\ In due_5_row
        (agreements (fst (PlainRev.put_agreements_id no_string_numbers accept_all
                            one_agreement_store "1" due_5_of_500)))
   /\ stores_derivation_of no_string_numbers due_5_of_500 due_5_row
   /\ payment_due (agreement_cols due_5_row)
      = SqlNum (money no_string_numbers (paymentDue due_5_of_500)))
  /\ (int4_in "1" = Some (agreement_id due_5_row)
      /\ (forall r,
            In r (agreements (fst (BcryptRev.put_agreements_id no_string_numbers
                                     accept_all one_agreement_store anonymous
                                     admin_token "1" due_5_of_500))) ->
            agreement_id r = agreement_id due_5_row -> r = due_5_row)
      /\ In due_5_row
           (agreements (fst (BcryptRev.put_agreements_id no_string_numbers
                               accept_all one_agreement_store anonymous
                               admin_token "1" due_5_of_500)))
      /\ stores_derivation_of no_string_numbers due_5_of_500 due_5_row
      /\ payment_due (agreement_cols due_5_row)
         = SqlNum (money no_string_numbers (paymentDue due_5_of_500))).
Proof.
  destruct (C4_update_recomputes_profit_not_due no_string_numbers accept_all)
    as (Hplain & Hbcrypt & _).
  split; [apply (Hplain one_agreement_store "1" due_5_of_500 _ due_5_row);
          reflexivity|].
  apply (Hbcrypt one_agreement_store anonymous admin_token "1" due_5_of_500 _
           due_5_row); reflexivity.
Defined.

(** Beside C4: the update of [Base64Rev] names no cost or profit column in
    its SET list, so a row it answers with has the profit columns of the
    row it replaces, whatever the body holds; payment_due is what the
    column takes of the value sent. *)
Remark Base64Rev_update_keeps_profit_columns :
  forall (ea : Statement -> bool) (decimal : nat -> nat -> SqlValue -> SqlValue)
         (date_in : string -> string) (s s' : Store) (id : string)
         (d : AgreementData) (row : AgreementRow),
    Base64Rev.put_agreements_id ea decimal date_in s id d
    = (s', respond 200 (BodyAgreement (Some row))) ->
    exists old,
      int4_in id = Some (agreement_id row)
      /\ find (fun r => agreement_id r =? agreement_id row) (agreements s) = Some old
      /\ gross_profit (agreement_cols row) = gross_profit (agreement_cols old)
      /\ net_profit (agreement_cols row) = net_profit (agreement_cols old)
      /\ profit_margin (agreement_cols row) = profit_margin (agreement_cols old)
      /\ payment_due (agreement_cols row)
         = Base64Rev.decimal_col decimal 15 2 (prepareValue (paymentDue d)).
Proof.
  intros ea decimal date_in s s' id d row.
  unfold Base64Rev.put_agreements_id, Base64Rev.update_typed.
  destruct (int4_in id) as [k|]; [|discriminate].
  destruct (Base64Rev.stored_agreement decimal date_in (Base64Rev.update_params d))
    as [c|] eqn:Ec; [|discriminate].
  destruct (update_agreement _ _ _ _ _ _) as [s1 [e|[row1|]]] eqn:E;
    try discriminate.
  intros H. inversion H; subst.
  apply update_agreement_some in E. destruct E as (old & Hfind & Hrow & _).
  exists old. subst row. cbn [agreement_id agreement_cols Base64Rev.update_merge
                              gross_profit net_profit profit_margin payment_due].
  repeat split; try exact Hfind.
  unfold Base64Rev.stored_agreement in Ec.
  repeat match type of Ec with
         | match ?x with _ => _ end = _ => destruct x; try discriminate Ec
         end.
  inversion Ec; subst. reflexivity.
Qed.

(** C5 as stated fails: the create of [BcryptRev] answers 200 and the row
    stores the caller's 5, while 1000 - 200 - 300 = 500. *)
Lemma C5_create_stores_caller_due :
  exists s' row,
    BcryptRev.post_agreements no_string_numbers accept_all empty_store
      anonymous admin_token due_5_of_500
      = (s', respond 200 (BodyAgreement (Some row)))
    /\ In row (agreements s')
    /\ total_payment (agreement_cols row) = SqlNum 1000
    /\ payment_owner (agreement_cols row) = SqlNum 200
    /\ payment_tenant (agreement_cols row) = SqlNum 300
    /\ payment_due (agreement_cols row) = SqlNum 5
    /\ (1000 - 200 - 300 = 500)%float
    /\ payment_due (agreement_cols row) <> SqlNum 500.
Proof.
  eexists. eexists. split; [reflexivity|].
  split; [left; reflexivity|].
  do 4 (split; [reflexivity|]).
  split; [vm_compute; reflexivity|]. exact SqlNum_5_is_not_500.
Qed.

(** C5, as the code has it: in [PlainRev] and [BcryptRev] a create or an
    update that answers with the row has stored as payment_due the caller's
    paymentDue read as [parseFloat(paymentDue) || 0] (0 when absent or not a
    number); totalPayment, paymentOwner and paymentTenant are stored beside
    it and take no part in it. *)
Theorem C5_payment_due_is_the_caller_value :
  forall (pfs : string -> float) (ea : Statement -> bool),
    (forall s d s' row,
        PlainRev.post_agreements pfs ea s d
          = (s', respond 200 (BodyAgreement (Some row))) ->
        In row (agreements s')
        /\ payment_due (agreement_cols row) = SqlNum (money pfs (paymentDue d)))
    /\ (forall s id d s' row,
        PlainRev.put_agreements_id pfs ea s id d
          = (s', respond 200 (BodyAgreement (Some row))) ->
        In row (agreements s')
        /\ payment_due (agreement_cols row) = SqlNum (money pfs (paymentDue d)))
    /\ (forall s req user d s' row,
        BcryptRev.post_agreements pfs ea s req user d
          = (s', respond 200 (BodyAgreement (Some row))) ->
        In row (agreements s')
        /\ payment_due (agreement_cols row) = SqlNum (money pfs (paymentDue d)))
    /\ (forall s req user id d s' row,
        BcryptRev.put_agreements_id pfs ea s req user id d
          = (s', respond 200 (BodyAgreement (Some row))) ->
        In row (agreements s')
        /\ payment_due (agreement_cols row) = SqlNum (money pfs (paymentDue d))).
Proof.
  intros pfs ea. split; [|split; [|split]].
  - intros s d s' row H. apply PlainRev_create_row in H.
    destruct H as [Hin Hc]. split; [exact Hin | rewrite Hc; reflexivity].
  - intros s id d s' row H. apply PlainRev_update_row in H.
    destruct H as (Hin & _ & _ & Hc). split; [exact Hin | rewrite Hc; reflexivity].
  - intros s req user d s' row H. apply BcryptRev_create_row in H.
    destruct H as [Hin Hc]. split; [exact Hin | rewrite Hc; reflexivity].
  - intros s req user id d s' row H. apply BcryptRev_update_row in H.
    destruct H as (Hin & _ & _ & Hc). split; [exact Hin | rewrite Hc; reflexivity].
Qed.

(** The four handlers run on the body whose paymentDue is 5. *)
Lemma C5_payment_due_witness :
  (In due_5_row
     (agreements (fst (PlainRev.post_agreements no_string_numbers accept_all
                         empty_store due_5_of_500)))
   /\ payment_due (agreement_cols due_5_row)
      = SqlNum (money no_string_numbers (paymentDue due_5_of_500)))
  /\ (In due_5_row
        (agreements (fst (PlainRev.put_agreements_id no_string_numbers accept_all
                            one_agreement_store "1" due_5_of_500)))
      /\ payment_due (agreement_cols due_5_row)
         = SqlNum (money no_string_numbers (paymentDue due_5_of_500)))
  /\ (In due_5_row
        (agreements (fst (BcryptRev.post_agreements no_string_numbers accept_all
                            empty_store anonymous admin_token due_5_of_500)))
      /\ payment_due (agreement_cols due_5_row)
         = SqlNum (money no_string_numbers (paymentDue due_5_of_500)))
  /\ (In due_5_row
        (agreements (fst (BcryptRev.put_agreements_id no_string_numbers accept_all
                            one_agreement_store anonymous admin_token "1"
                            due_5_of_500)))
      /\ payment_due (agreement_cols due_5_row)
         = SqlNum (money no_string_numbers (paymentDue due_5_of_500))).
Proof.
  destruct (C5_payment_due_is_the_caller_value no_string_numbers accept_all)
    as (H1 & H2 & H3 & H4).
  split; [apply (H1 empty_store due_5_of_500 _ due_5_row); reflexivity|].
  split; [apply (H2 one_agreement_store "1" due_5_of_500 _ due_5_row); reflexivity|].
  split; [apply (H3 empty_store anonymous admin_token due_5_of_500 _ due_5_row);
          reflexivity|].
  apply (H4 one_agreement_store anonymous admin_token "1" due_5_of_500 _ due_5_row);
    reflexivity.
Defined.

(* ================================================================== *)
(** ** C6: failed logins and whether the username exists *)

(** Where the two failed logins are alike: in [BcryptRev] and in
    [Argon2Rev] a login whose username and password are filled in is
    answered with the same status 401 and the same body
    [{ error: 'Invalid credentials' }] whether the username is unknown or
    the username is known and the verification answers false; the store is
    left as it was in both cases. *)
Lemma failed_logins_with_password_are_alike :
  forall (bcrypt_compare : string -> string -> bool)
         (argon2_verify : string -> JsText -> option bool)
         (jwt_sign : TokenUser -> string) (now : string)
         (s : Store) (req : Request)
         (nouser whatever known wrong : string) (user : UserRow) (digest : string),
    str_truthy nouser = true -> str_truthy whatever = true ->
    str_truthy known = true -> str_truthy wrong = true ->
    select_user_by_username s (Some nouser) = None ->
    select_user_by_username s (Some known) = Some user ->
    password (user_cols user) = Some digest ->
    (bcrypt_compare wrong digest = false ->
     BcryptRev.post_auth_login bcrypt_compare jwt_sign s req
       {| BcryptRev.req_username := Some nouser;
          BcryptRev.req_password := Some whatever |} = (s, unauthorized)
     /\ BcryptRev.post_auth_login bcrypt_compare jwt_sign s req
          {| BcryptRev.req_username := Some known;
             BcryptRev.req_password := Some wrong |} = (s, unauthorized))
    /\ (argon2_verify digest (Some wrong) = Some false ->
        Argon2Rev.post_auth_login argon2_verify jwt_sign now s
          {| Argon2Rev.req_username := Some nouser;
             Argon2Rev.req_password := Some whatever |} = (s, unauthorized)
        /\ Argon2Rev.post_auth_login argon2_verify jwt_sign now s
             {| Argon2Rev.req_username := Some known;
                Argon2Rev.req_password := Some wrong |} = (s, unauthorized)).
Proof.
  intros bc av js now s req nouser whatever known wrong user digest
    Hn Hw Hk Hp Hnone Hsome Hpw.
  split; intros Hbad; split.
  - unfold BcryptRev.post_auth_login.
    cbn [BcryptRev.req_username BcryptRev.req_password text_truthy].
    rewrite Hn, Hw, Hnone. reflexivity.
  - unfold BcryptRev.post_auth_login.
    cbn [BcryptRev.req_username BcryptRev.req_password text_truthy template].
    rewrite Hk, Hp, Hsome, Hpw, Hbad. reflexivity.
  - unfold Argon2Rev.post_auth_login. cbn [Argon2Rev.req_username].
    rewrite Hnone. reflexivity.
  - unfold Argon2Rev.post_auth_login.
    cbn [Argon2Rev.req_username Argon2Rev.req_password].
    rewrite Hsome, Hpw, Hbad. reflexivity.
Qed.

(** The specification's scenario: login("nouser", "whatever") and
    login("admin", "wrong"). *)
Lemma failed_logins_scenario :
  (BcryptRev.post_auth_login toy_compare toy_sign hashed_admin_store anonymous
     {| BcryptRev.req_username := Some "nouser";
        BcryptRev.req_password := Some "whatever" |}
   = (hashed_admin_store, unauthorized)
   /\ BcryptRev.post_auth_login toy_compare toy_sign hashed_admin_store anonymous
        {| BcryptRev.req_username := Some "admin";
           BcryptRev.req_password := Some "wrong" |}
      = (hashed_admin_store, unauthorized))
  /\ (Argon2Rev.post_auth_login toy_verify toy_sign "2024-01-01" hashed_admin_store
        {| Argon2Rev.req_username := Some "nouser";
           Argon2Rev.req_password := Some "whatever" |}
      = (hashed_admin_store, unauthorized)
      /\ Argon2Rev.post_auth_login toy_verify toy_sign "2024-01-01" hashed_admin_store
           {| Argon2Rev.req_username := Some "admin";
              Argon2Rev.req_password := Some "wrong" |}
         = (hashed_admin_store, unauthorized)).
Proof.
  destruct (failed_logins_with_password_are_alike toy_compare toy_verify toy_sign
              "2024-01-01" hashed_admin_store anonymous
              "nouser" "whatever" "admin" "wrong"
              (user_row 1 "admin" (toy_digest "admin123") "admin")
              (toy_digest "admin123")
              eq_refl eq_refl eq_refl eq_refl eq_refl eq_refl eq_refl) as [Hb Ha].
  split; [apply Hb | apply Ha]; reflexivity.
Qed.

(** C6 fails in [Argon2Rev], whose login does not test that a password was
    sent, as the login of [BcryptRev] does.  When [argon2.verify] throws on
    an absent password, a login without password is answered 500 "Server
    error during authentication" for a stored username and 401 "Invalid
    credentials" for an unknown one: the two failed logins differ in status
    and in body, so the answer tells whether the username is stored.
    [BcryptRev] answers both with the same 400. *)
Theorem C6_login_without_password_tells_stored_names :
  forall (bcrypt_compare : string -> string -> bool)
         (argon2_verify : string -> JsText -> option bool)
         (jwt_sign : TokenUser -> string) (now : string) (s : Store) (req : Request)
         (known nouser : string) (user : UserRow) (digest : string),
    select_user_by_username s (Some known) = Some user ->
    password (user_cols user) = Some digest ->
    select_user_by_username s (Some nouser) = None ->
    argon2_verify digest None = None ->
    exists r_known r_nouser : Response,
      Argon2Rev.post_auth_login argon2_verify jwt_sign now s
        {| Argon2Rev.req_username := Some known; Argon2Rev.req_password := None |}
      = (s, r_known)
      /\ Argon2Rev.post_auth_login argon2_verify jwt_sign now s
           {| Argon2Rev.req_username := Some nouser; Argon2Rev.req_password := None |}
         = (s, r_nouser)
      /\ r_known = respond 500 (BodyError "Server error during authentication")
      /\ r_nouser = unauthorized
      /\ status r_known <> status r_nouser
      /\ BcryptRev.post_auth_login bcrypt_compare jwt_sign s req
           {| BcryptRev.req_username := Some known; BcryptRev.req_password := None |}
         = BcryptRev.post_auth_login bcrypt_compare jwt_sign s req
             {| BcryptRev.req_username := Some nouser;
                BcryptRev.req_password := None |}.
Proof.
  intros bc av js now s req known nouser user digest Hk Hd Hn Hthrow.
  eexists. eexists. split; [|split; [|split; [|split; [|split]]]].
  - unfold Argon2Rev.post_auth_login.
    cbn [Argon2Rev.req_username Argon2Rev.req_password].
    rewrite Hk, Hd, Hthrow. reflexivity.
  - unfold Argon2Rev.post_auth_login.
    cbn [Argon2Rev.req_username Argon2Rev.req_password].
    rewrite Hn. reflexivity.
  - reflexivity.
  - reflexivity.
  - discriminate.
  - unfold BcryptRev.post_auth_login.
    cbn [BcryptRev.req_username BcryptRev.req_password text_truthy].
    rewrite !orb_true_r. reflexivity.
Qed.

(** The login of "admin" and of "nouser" with no password, on the store
    whose one user is admin. *)
Lemma C6_login_without_password_witness :
  Argon2Rev.post_auth_login toy_verify toy_sign "2024-01-01" hashed_admin_store
    {| Argon2Rev.req_username := Some "admin"; Argon2Rev.req_password := None |}
  = (hashed_admin_store, respond 500 (BodyError "Server error during authentication"))
  /\ Argon2Rev.post_auth_login toy_verify toy_sign "2024-01-01" hashed_admin_store
       {| Argon2Rev.req_username := Some "nouser"; Argon2Rev.req_password := None |}
     = (hashed_admin_store, respond 401 (BodyError "Invalid credentials")).
Proof.
  destruct (C6_login_without_password_tells_stored_names toy_compare toy_verify
              toy_sign "2024-01-01" hashed_admin_store anonymous "admin" "nouser"
              (user_row 1 "admin" (toy_digest "admin123") "admin")
              (toy_digest "admin123") eq_refl eq_refl eq_refl eq_refl)
    as (r1 & r2 & H1 & H2 & E1 & E2 & _).
  subst r1 r2. split; [exact H1 | exact H2].
Defined.

(* ================================================================== *)
(** ** C7: a token number that is already stored *)

(** [Base64Rev] leaves uniqueness to the UNIQUE index and maps its error:
    a create with all three required fields and a stored token answers 409
    and leaves every table as it was. *)
Lemma Base64Rev_create_params_not_null (d : AgreementData) :
  text_truthy (ownerName d) = true -> text_truthy (location_ d) = true ->
  text_truthy (tokenNumber d) = true ->
  Base64Rev.not_null (Base64Rev.create_params d) = true.
Proof.
  intros Ho Hl Ht. unfold Base64Rev.not_null. cbn.
  destruct (ownerName d), (location_ d), (tokenNumber d);
    cbn in Ho, Hl, Ht; congruence.
Qed.

Lemma Base64Rev_duplicate_token_is_conflict
    (ea : Statement -> bool)
    (decimal : nat -> nat -> SqlValue -> SqlValue) (date_in : string -> string)
    (s : Store) (d : AgreementData) (c : AgreementCols) :
  text_truthy (ownerName d) = true -> text_truthy (location_ d) = true ->
  text_truthy (tokenNumber d) = true ->
  ea (InsertAgreement (Base64Rev.create_params d)) = true ->
  Base64Rev.stored_agreement decimal date_in (Base64Rev.create_params d) = Some c ->
  token_taken (agreements s) (token_number c) = true ->
  exists s',
    Base64Rev.post_agreements ea decimal date_in s d
      = (s', respond 409 (BodyError "Token number already exists"))
    /\ same_tables s' s.
Proof.
  intros Ho Hl Ht Hacc Hc Htaken.
  unfold Base64Rev.post_agreements, Base64Rev.insert_typed, insert_agreement.
  rewrite Ho, Hl, Ht, Hc, Hacc. cbn [negb orb].
  rewrite (stored_agreement_not_null decimal date_in _ _ Hc),
    (Base64Rev_create_params_not_null d Ho Hl Ht).
  cbn [negb]. rewrite Htaken, orb_true_r. cbn [is_23505].
  eexists. split; [reflexivity|]. repeat split.
Qed.

(** Two creates of [Base64Rev] with the same token, one after the other
    or in either order of their INSERTs: the first INSERT to run answers
    201, the other 409, and one row is stored. *)
Lemma Base64Rev_same_token_twice
    (ea : Statement -> bool)
    (decimal : nat -> nat -> SqlValue -> SqlValue) (date_in : string -> string)
    (s s1 : Store) (d1 d2 : AgreementData) (row : AgreementRow) (c2 : AgreementCols) :
  tokenNumber d2 = tokenNumber d1 ->
  text_truthy (ownerName d2) = true -> text_truthy (location_ d2) = true ->
  ea (InsertAgreement (Base64Rev.create_params d2)) = true ->
  Base64Rev.stored_agreement decimal date_in (Base64Rev.create_params d2) = Some c2 ->
  Base64Rev.post_agreements ea decimal date_in s d1
  = (s1, respond 201 (BodyAgreement (Some row))) ->
  exists s2,
    Base64Rev.post_agreements ea decimal date_in s1 d2
      = (s2, respond 409 (BodyError "Token number already exists"))
    /\ agreements s2 = agreements s ++ [row].
Proof.
  intros Htok Ho Hl Hacc Hc2 H1.
  unfold Base64Rev.post_agreements in H1.
  destruct (negb (text_truthy (ownerName d1)) || negb (text_truthy (location_ d1))
            || negb (text_truthy (tokenNumber d1))) eqn:Hreq; [discriminate|].
  destruct (Base64Rev.insert_typed ea decimal date_in s (Base64Rev.create_params d1))
    as [s0 [e|row0]] eqn:E; [destruct (is_23505 e); discriminate|].
  inversion H1; subst. clear H1.
  apply insert_typed_inr in E. destruct E as (Hc & Ha & _).
  apply orb_false_elim in Hreq. destruct Hreq as [Hreq Ht1].
  apply orb_false_elim in Hreq. destruct Hreq as [Ho1 Hl1].
  apply negb_false_iff in Ht1, Ho1, Hl1.
  pose proof (stored_agreement_fields decimal date_in _ _ Hc) as (_ & _ & Htk1 & _).
  pose proof (stored_agreement_fields decimal date_in _ _ Hc2) as (_ & _ & Htk2 & _).
  cbn [token_number Base64Rev.create_params] in Htk1, Htk2.
  rewrite Htok, Htk1 in Htk2. inversion Htk2 as [Heq].
  pose proof (stored_agreement_not_null decimal date_in _ _ Hc) as Hnn.
  rewrite (Base64Rev_create_params_not_null d1 Ho1 Hl1 Ht1) in Hnn.
  destruct (Base64Rev_duplicate_token_is_conflict ea decimal date_in
              (insert_log s0 (Some "system") "Agreement Created"
                 ("Agreement added for " ++ template (ownerName d1) ++ " (Token: "
                    ++ template (tokenNumber d1) ++ ")")%string None) d2 c2)
    as (s2 & Hpost & Hsame); try assumption.
  - rewrite Htok. exact Ht1.
  - rewrite agreements_insert_log, Ha. unfold token_taken.
    rewrite existsb_app. cbn [existsb]. rewrite <- Heq.
    unfold Base64Rev.not_null in Hnn.
    destruct (token_number (agreement_cols row)) as [t|];
      [|destruct (owner_name (agreement_cols row)), (location (agreement_cols row));
        discriminate Hnn].
    rewrite sql_text_eq_refl. cbn [orb]. apply orb_true_r.
  - exists s2. split; [exact Hpost|].
    destruct Hsame as (_ & Hags & _). rewrite Hags, agreements_insert_log. exact Ha.
Qed.

(** [BcryptRev] tests for the token first: a stored token is answered 400
    and the store is left as it was. *)
Lemma BcryptRev_duplicate_token_is_400
    (pfs : string -> float) (ea : Statement -> bool)
    (s : Store) (req : Request) (user : TokenUser) (d : AgreementData) :
  token_taken (agreements s) (tokenNumber d) = true ->
  BcryptRev.post_agreements pfs ea s req user d
    = (s, respond 400 (BodyError "Token number already exists")).
Proof.
  intros H. unfold BcryptRev.post_agreements, BcryptRev.token_check.
  rewrite H. reflexivity.
Qed.

(** C7, where the code departs from it: the create of [BcryptRev] answers
    a stored token with 400, not with the 409 of a conflict; and when two
    creates of one token are in flight together and both token checks are
    answered before either INSERT, the first is answered 200 and the second
    500 "Failed to save agreement": its handler has no case for the unique
    violation. *)
Theorem C7_bcrypt_create_misses_conflict :
  BcryptRev.post_agreements no_string_numbers accept_all t100_store
    anonymous admin_token scenario
  = (t100_store, respond 400 (BodyError "Token number already exists"))
  /\ exists s2,
      BcryptRev.post_agreements_interleaved no_string_numbers accept_all empty_store
        anonymous admin_token scenario anonymous admin_token scenario
      = (s2, respond 200 (BodyAgreement (Some scenario_row)),
             respond 500 (BodyError "Failed to save agreement"))
      /\ agreements s2 = [scenario_row].
Proof.
  split; [reflexivity|]. eexists. split; reflexivity.
Qed.

(* ================================================================== *)
(** ** C8: the session token middleware *)

(** C8 as stated fails: a token that does not verify (invalid or expired)
    is answered with status 403, not with the 401 of Unauthorized. *)
Lemma C8_invalid_token_is_answered_403 :
  BcryptRev.authenticateToken no_valid_token (bearer "expired")
  = Reply (respond 403 (BodyError "Invalid or expired token"))
  /\ BcryptRev.protected no_valid_token empty_store (bearer "expired")
       (echo_handler empty_store)
     = (empty_store, respond 403 (BodyError "Invalid or expired token"))
  /\ status (respond 403 (BodyError "Invalid or expired token")) <> 401.
Proof. repeat split. discriminate. Qed.

Section RouterFacts.
Variable jwt_verify : string -> option TokenUser.
Variable req : Request.

Lemma token_missing user :
  bearer_token (authorization req) = None ->
  BcryptRev.run_middleware jwt_verify BcryptRev.AuthenticateToken req user
  = Reply (respond 401 (BodyError "Access token required")).
Proof.
  intros H. unfold BcryptRev.run_middleware, BcryptRev.authenticateToken.
  rewrite H. reflexivity.
Qed.

Lemma token_refused user t :
  bearer_token (authorization req) = Some t -> jwt_verify t = None ->
  BcryptRev.run_middleware jwt_verify BcryptRev.AuthenticateToken req user
  = Reply (respond 403 (BodyError "Invalid or expired token")).
Proof.
  intros H Hv. unfold BcryptRev.run_middleware, BcryptRev.authenticateToken.
  rewrite H, Hv. reflexivity.
Qed.

Lemma token_verified user t u :
  bearer_token (authorization req) = Some t -> jwt_verify t = Some u ->
  BcryptRev.run_middleware jwt_verify BcryptRev.AuthenticateToken req user
  = Next (Some u).
Proof.
  intros H Hv. unfold BcryptRev.run_middleware, BcryptRev.authenticateToken.
  rewrite H, Hv. reflexivity.
Qed.

Lemma admin_checked u :
  BcryptRev.run_middleware jwt_verify BcryptRev.CheckAdmin req (Some u)
  = if sql_text_eq (tu_role u) (Some "admin") then Next (Some u)
    else Reply (respond 403 (BodyError "Forbidden: Admin access required")).
Proof.
  unfold BcryptRev.run_middleware, BcryptRev.checkAdmin.
  destruct (sql_text_eq _ _); reflexivity.
Qed.

End RouterFacts.

Lemma prefix_of_two (a b : string) (path : list string) :
  BcryptRev.prefix_matches [a; b] path = true -> exists rest, path = a :: b :: rest.
Proof.
  destruct path as [|x [|y rest]]; cbn [BcryptRev.prefix_matches]; try discriminate.
  - rewrite andb_false_r. discriminate.
  - intros H. apply andb_true_iff in H. destruct H as [Ha H].
    apply andb_true_iff in H. destruct H as [Hb _].
    apply String.eqb_eq in Ha, Hb. subst. exists rest. reflexivity.
Qed.

Lemma path_of_two (a b : string) (path : list string) :
  PlainRev.path_matches [PlainRev.Lit a; PlainRev.Lit b] path = true -> path = [a; b].
Proof.
  destruct path as [|x [|y [|z rest]]]; cbn [PlainRev.path_matches]; try discriminate.
  - rewrite andb_false_r. discriminate.
  - intros H. apply andb_true_iff in H. destruct H as [Ha H].
    apply andb_true_iff in H. destruct H as [Hb _].
    apply String.eqb_eq in Ha, Hb. subst. reflexivity.
  - rewrite !andb_false_r. discriminate.
Qed.

Lemma path_of_three (a b c : string) (path : list string) :
  PlainRev.path_matches [PlainRev.Lit a; PlainRev.Lit b; PlainRev.Lit c] path = true ->
  path = [a; b; c].
Proof.
  destruct path as [|x [|y [|z [|w rest]]]]; cbn [PlainRev.path_matches];
    try discriminate; try (rewrite ?andb_false_r; discriminate).
  intros H. apply andb_true_iff in H. destruct H as [Ha H].
  apply andb_true_iff in H. destruct H as [Hb H].
  apply andb_true_iff in H. destruct H as [Hc _].
  apply String.eqb_eq in Ha, Hb, Hc. subst. reflexivity.
Qed.

Lemma path_of_two_and_id (a b : string) (path : list string) :
  PlainRev.path_matches [PlainRev.Lit a; PlainRev.Lit b; PlainRev.Param] path = true ->
  exists id, path = [a; b; id] /\ str_truthy id = true.
Proof.
  destruct path as [|x [|y [|z [|w rest]]]]; cbn [PlainRev.path_matches];
    try discriminate; try (rewrite ?andb_false_r; discriminate).
  intros H. apply andb_true_iff in H. destruct H as [Ha H].
  apply andb_true_iff in H. destruct H as [Hb H].
  apply andb_true_iff in H. destruct H as [Hc _].
  apply String.eqb_eq in Ha, Hb. subst. exists z. auto.
Qed.

(** C8, as the code has it, for the routes of [BcryptRev] as the server
    registers them.  A request to a path under one of the five paths of
    [app.use(..., authenticateToken)], whichever of the five methods it
    has, and a request to one of the nine operations behind the token, is
    answered 401 "Access
    token required" when it carries no token and 403 "Invalid or expired
    token" when its token does not verify, with the store as it was.  With
    a token that verifies, an operation behind [checkAdmin] is answered 403
    "Forbidden: Admin access required" when the role is not admin, with the
    store as it was; otherwise the handler of the operation runs with the
    token's payload. *)
Theorem C8_routes_behind_the_token :
  forall (jwt_verify : string -> option TokenUser)
         (handlers : BcryptRev.Endpoint -> Request -> list string ->
                     option TokenUser -> Store -> Store * Response)
         (s : Store) (req : Request) (m : BcryptRev.Method) (path : list string),
    (forall prefix,
        In prefix BcryptRev.protected_prefixes ->
        BcryptRev.prefix_matches prefix path = true ->
        (bearer_token (authorization req) = None ->
         BcryptRev.serve jwt_verify handlers BcryptRev.layers s req m path None
         = Some (s, respond 401 (BodyError "Access token required")))
        /\ (forall t, bearer_token (authorization req) = Some t ->
                      jwt_verify t = None ->
                      BcryptRev.serve jwt_verify handlers BcryptRev.layers s req m path
                        None
                      = Some (s, respond 403 (BodyError "Invalid or expired token"))))
    /\ (forall m' pattern e admin,
          In (m', pattern, e, admin) BcryptRev.protected_operations ->
          BcryptRev.method_matches m' m = true ->
          PlainRev.path_matches pattern path = true ->
          (bearer_token (authorization req) = None ->
           BcryptRev.serve jwt_verify handlers BcryptRev.layers s req m path None
           = Some (s, respond 401 (BodyError "Access token required")))
          /\ (forall t, bearer_token (authorization req) = Some t ->
                        jwt_verify t = None ->
                        BcryptRev.serve jwt_verify handlers BcryptRev.layers s req m
                          path None
                        = Some (s, respond 403 (BodyError "Invalid or expired token")))
          /\ (forall t u, bearer_token (authorization req) = Some t ->
                          jwt_verify t = Some u ->
                          BcryptRev.serve jwt_verify handlers BcryptRev.layers s req m
                            path None
                          = if admin && negb (sql_text_eq (tu_role u) (Some "admin"))
                            then Some (s, respond 403
                                            (BodyError "Forbidden: Admin access required"))
                            else Some (handlers e req path (Some u) s))).
Proof.
  intros jv handlers s req m path. split.
  - intros prefix Hin Hp. unfold BcryptRev.protected_prefixes in Hin.
    repeat (destruct Hin as [<-|Hin];
            [apply prefix_of_two in Hp; destruct Hp as [rest ->]|]);
      [| | | | |destruct Hin].
    all: split; [intros H | intros t H Hv].
    all: destruct m; cbn -[BcryptRev.run_middleware].
    all: rewrite ?(token_missing jv req _ H), ?(token_refused jv req _ t H Hv).
    all: try reflexivity.
  - intros m' pattern e admin Hin Hm Hp. unfold BcryptRev.protected_operations in Hin.
    repeat (destruct Hin as [Hin|Hin]; [inversion Hin; subst m' pattern e admin; clear Hin|]);
      [| | | | | | | | |destruct Hin].
    all: first [ apply path_of_two in Hp; subst path
               | apply path_of_three in Hp; subst path
               | apply path_of_two_and_id in Hp; destruct Hp as (id & -> & Hid) ].
    all: destruct m; try discriminate Hm.
    all: split; [intros H | split; [intros t H Hv | intros t u H Hv]].
    all: cbn -[BcryptRev.run_middleware]; rewrite ?Hid;
      cbn -[BcryptRev.run_middleware].
    all: rewrite ?(token_missing jv req _ H), ?(token_refused jv req _ t H Hv),
           ?(token_verified jv req _ t u H Hv).
    all: try reflexivity.
    all: cbn -[BcryptRev.run_middleware]; rewrite ?Hid;
      cbn -[BcryptRev.run_middleware].
    all: rewrite ?(token_verified jv req _ t u H Hv), ?admin_checked.
    all: try reflexivity.
    all: destruct (sql_text_eq (tu_role u) (Some "admin")); reflexivity.
Qed.

(** The deletion of user 2 asked with no token, with a stale token, with a
    user's token and with an admin's token. *)
Lemma C8_routes_behind_the_token_witness :
  BcryptRev.serve toy_verify_token echo_handlers BcryptRev.layers three_users_store
    anonymous BcryptRev.DELETE ["api"; "users"; "2"] None
  = Some (three_users_store, respond 401 (BodyError "Access token required"))
  /\ BcryptRev.serve toy_verify_token echo_handlers BcryptRev.layers three_users_store
       (bearer "stale") BcryptRev.DELETE ["api"; "users"; "2"] None
     = Some (three_users_store, respond 403 (BodyError "Invalid or expired token"))
  /\ BcryptRev.serve toy_verify_token echo_handlers BcryptRev.layers three_users_store
       (bearer "user-token") BcryptRev.DELETE ["api"; "users"; "2"] None
     = Some (three_users_store,
             respond 403 (BodyError "Forbidden: Admin access required"))
  /\ BcryptRev.serve toy_verify_token echo_handlers BcryptRev.layers three_users_store
       (bearer "admin-token") BcryptRev.DELETE ["api"; "users"; "2"] None
     = Some (echo_handlers BcryptRev.DeleteUser (bearer "admin-token")
               ["api"; "users"; "2"] (Some admin_token) three_users_store).
Proof.
  assert (Hop : In (BcryptRev.DELETE,
                    [PlainRev.Lit "api"; PlainRev.Lit "users"; PlainRev.Param],
                    BcryptRev.DeleteUser, true) BcryptRev.protected_operations)
    by (cbn; tauto).
  split; [|split; [|split]].
  - exact (proj1 (proj2 (C8_routes_behind_the_token toy_verify_token echo_handlers
                           three_users_store anonymous BcryptRev.DELETE
                           ["api"; "users"; "2"]) _ _ _ _ Hop eq_refl eq_refl)
             eq_refl).
  - exact (proj1 (proj2 (proj2 (C8_routes_behind_the_token toy_verify_token
                                  echo_handlers three_users_store (bearer "stale")
                                  BcryptRev.DELETE ["api"; "users"; "2"])
                           _ _ _ _ Hop eq_refl eq_refl))
             "stale" eq_refl eq_refl).
  - exact (proj2 (proj2 (proj2 (C8_routes_behind_the_token toy_verify_token
                                  echo_handlers three_users_store
                                  (bearer "user-token")
                                  BcryptRev.DELETE ["api"; "users"; "2"])
                           _ _ _ _ Hop eq_refl eq_refl))
             "user-token" user_token eq_refl eq_refl).
  - exact (proj2 (proj2 (proj2 (C8_routes_behind_the_token toy_verify_token
                                  echo_handlers three_users_store
                                  (bearer "admin-token")
                                  BcryptRev.DELETE ["api"; "users"; "2"])
                           _ _ _ _ Hop eq_refl eq_refl))
             "admin-token" admin_token eq_refl eq_refl).
Defined.

(** Beside C8: the two report routes lie outside the five paths and have no
    middleware of their own, so their handlers run whether the request
    carries a token or not, with no payload in [req.user]. *)
Remark BcryptRev_reports_are_served_without_token :
  forall (jwt_verify : string -> option TokenUser)
         (handlers : BcryptRev.Endpoint -> Request -> list string ->
                     option TokenUser -> Store -> Store * Response)
         (s : Store) (req : Request) (m : BcryptRev.Method),
    BcryptRev.method_matches BcryptRev.GET m = true ->
    BcryptRev.serve jwt_verify handlers BcryptRev.layers s req m ["api"; "reports"] None
    = Some (handlers BcryptRev.Reports req ["api"; "reports"] None s)
    /\ BcryptRev.serve jwt_verify handlers BcryptRev.layers s req m
         ["api"; "reports"; "profit"] None
       = Some (handlers BcryptRev.ReportsProfit req ["api"; "reports"; "profit"]
                 None s).
Proof.
  intros jv handlers s req m Hm. destruct m; try discriminate Hm; split; reflexivity.
Qed.

(* ================================================================== *)
(** ** C9: protected user records *)

(** C9 as stated fails.  In [BcryptRev] the caller's own record is refused
    with 400, not 403, and a second admin deletes the primary admin (id 1)
    with 204.  In [Base64Rev] the guard compares the text of the route
    parameter with "1": the parameter "01" passes it and deletes the primary
    admin.  In [PlainRev] a restore from a backup without users answers 200
    and leaves no user at all, the primary admin included; and a user whose
    credential is hidden is inserted with the credential "password". *)
Lemma C9_protection_fails :
  BcryptRev.route_delete_users_id toy_verify_token three_users_store
    (bearer "ram-token") "3"
  = (three_users_store,
     respond 400 (BodyError "Admin cannot delete their own account."))
  /\ select_user_by_username three_users_store (Some "admin")
     = Some (user_row 1 "admin" (toy_digest "admin123") "admin")
  /\ (exists s',
        BcryptRev.route_delete_users_id toy_verify_token three_users_store
          (bearer "ram-token") "1" = (s', respond 204 BodyNone)
        /\ select_user_by_username s' (Some "admin") = None)
  /\ (exists s',
        Base64Rev.delete_users_id three_users_store "01"
        = (s', respond 200 (BodyMessage "User 'admin' deleted successfully."))
        /\ select_user_by_username s' (Some "admin") = None)
  /\ (exists s',
        PlainRev.post_backup_restore accept_all "2024-01-01" three_users_store
          backup_without_users
        = (s', respond 200 (BodyMessage "Backup restored successfully"))
        /\ users s' = [])
  /\ (exists s' id,
        PlainRev.post_backup_restore accept_all "2024-01-01" three_users_store
          backup_with_hidden_credential
        = (s', respond 200 (BodyMessage "Backup restored successfully"))
        /\ users s'
           = [ {| user_id := id;
                  user_cols := {| username := Some "carol";
                                  password := Some "password";
                                  role := Some "user";
                                  user_created_at := Some "2024-01-01";
                                  last_login := None |} |} ]).
Proof.
  split; [reflexivity|]. split; [reflexivity|].
  split; [eexists; split; reflexivity|].
  split; [eexists; split; reflexivity|].
  split; [eexists; split; reflexivity|].
  eexists. eexists. split; reflexivity.
Qed.

(** [BcryptRev] deletes whatever id passes the guard. *)
Lemma BcryptRev_delete_of_another_id (s : Store) (user : TokenUser) (id : string)
    (n : Z) :
  parseInt10 id <> Some (tu_id user) -> int4_in id = Some n ->
  exists s',
    BcryptRev.delete_users_id s user id = (s', respond 204 BodyNone)
    /\ user_id_taken (users s') n = false.
Proof.
  intros Hne Hn.
  assert (Hown : BcryptRev.is_own_id id user = false).
  { unfold BcryptRev.is_own_id. destruct (parseInt10 id) as [m|]; [|reflexivity].
    apply Z.eqb_neq. congruence. }
  unfold BcryptRev.delete_users_id. rewrite Hown, Hn.
  eexists. split; [reflexivity|].
  cbn [fst delete_user_by_id users set_users]. unfold user_id_taken.
  destruct (existsb _ _) eqn:E; [|reflexivity].
  apply existsb_exists in E. destruct E as (x & Hx & Hid).
  apply filter_In in Hx. destruct Hx as [_ Hx]. rewrite Hid in Hx. discriminate Hx.
Qed.

Lemma pwd_of_given_credential (u : PlainRev.SnapshotUser) :
  credential_given u = true -> Some (PlainRev.pwd u) = PlainRev.su_password u.
Proof.
  unfold credential_given, PlainRev.pwd.
  destruct (PlainRev.su_password u) as [p|]; [|discriminate].
  intros ->. reflexivity.
Qed.

(** C9, as the code has it.  In [BcryptRev] a delete whose route parameter
    reads (by [parseInt]) as the caller's own id is refused with status 400
    and leaves the store as it was; no id is protected as the primary
    admin's: a parameter that reads otherwise and that the engine reads as
    an id is answered 204, and no user of that id is left.  In [Base64Rev] a delete whose route parameter is "1" is
    refused with status 403 and leaves the store as it was; there is no
    caller identity.  The restore of [PlainRev] that answers 200, from a
    backup each of whose users comes with its credential (a text that is
    not the mark of a hidden one), has replaced the users table: its
    usernames, credentials and roles are those the backup lists, in its
    order, and no other user remains. *)
Theorem C9_delete_guards_and_restore_of_users :
  (forall (s : Store) (user : TokenUser) (id : string),
      parseInt10 id = Some (tu_id user) ->
      BcryptRev.delete_users_id s user id
      = (s, respond 400 (BodyError "Admin cannot delete their own account.")))
  /\ (forall (s : Store) (user : TokenUser) (id : string) (n : Z),
        parseInt10 id <> Some (tu_id user) -> int4_in id = Some n ->
        exists s',
          BcryptRev.delete_users_id s user id = (s', respond 204 BodyNone)
          /\ user_id_taken (users s') n = false)
  /\ (forall (s : Store),
        Base64Rev.delete_users_id s "1"
        = (s, respond 403 (BodyError "Cannot delete the primary admin account.")))
  /\ (forall (ea : Statement -> bool) (now : string) (s s' : Store)
             (b : PlainRev.Snapshot) (r : Response),
        PlainRev.post_backup_restore ea now s b = (s', r) ->
        status r = 200 ->
        forallb credential_given (PlainRev.or_nil (PlainRev.snap_users b)) = true ->
        map (fun row => (username (user_cols row), password (user_cols row),
                         role (user_cols row))) (users s')
        = map (fun u => (PlainRev.su_username u, PlainRev.su_password u,
                         PlainRev.su_role u))
            (PlainRev.or_nil (PlainRev.snap_users b))).
Proof.
  split; [|split; [|split]].
  - intros s user id Hid. unfold BcryptRev.delete_users_id, BcryptRev.is_own_id.
    rewrite Hid, Z.eqb_refl. reflexivity.
  - exact BcryptRev_delete_of_another_id.
  - intros s. reflexivity.
  - intros ea now s s' b r H Hok Hgiven.
    destruct (PlainRev_restore_commits_snapshot ea now s s' b r H Hok)
      as (_ & Hu & _).
    rewrite <- (map_map user_cols (fun c => (username c, password c, role c))), Hu.
    rewrite map_map. apply map_ext_in. intros u Hin.
    rewrite forallb_forall in Hgiven.
    cbn [PlainRev.restore_user username password role].
    rewrite (pwd_of_given_credential u (Hgiven u Hin)). reflexivity.
Qed.

(** The second admin deleting the record of its own id, and the restore of
    the backup that lists carol with her credential. *)
Lemma C9_delete_guards_and_restore_witness :
  BcryptRev.delete_users_id three_users_store ram_token "3"
  = (three_users_store,
     respond 400 (BodyError "Admin cannot delete their own account."))
  /\ map (fun row => (username (user_cols row), password (user_cols row),
                      role (user_cols row)))
       (users (fst (PlainRev.post_backup_restore accept_all "2024-01-01"
                      three_users_store backup_with_credential)))
     = [ (Some "carol", Some "s3cret", Some "user") ].
Proof.
  split.
  - apply (proj1 C9_delete_guards_and_restore_of_users three_users_store
             ram_token "3"). reflexivity.
  - apply (proj2 (proj2 (proj2 C9_delete_guards_and_restore_of_users)) accept_all
             "2024-01-01" three_users_store _ backup_with_credential
             (snd (PlainRev.post_backup_restore accept_all "2024-01-01"
                     three_users_store backup_with_credential)));
      reflexivity.
Defined.

(* ================================================================== *)
(** ** C10: the debug endpoint *)

Lemma with_password_id id p r : user_id (with_password id p r) = user_id r.
Proof. unfold with_password. destruct (user_id r =? id); reflexivity. Qed.

Lemma insert_by_id_map (f : UserRow -> UserRow) (r : UserRow) (l : list UserRow) :
  (forall x, user_id (f x) = user_id x) ->
  Base64Rev.insert_by_id (f r) (map f l) = map f (Base64Rev.insert_by_id r l).
Proof.
  intros Hf. induction l as [|x l IH]; cbn [map Base64Rev.insert_by_id];
    [reflexivity|].
  rewrite !Hf. destruct (user_id r <? user_id x); cbn [map]; [reflexivity|].
  rewrite IH. reflexivity.
Qed.

Lemma order_by_id_map (f : UserRow -> UserRow) (l : list UserRow) :
  (forall x, user_id (f x) = user_id x) ->
  Base64Rev.order_by_id (map f l) = map f (Base64Rev.order_by_id l).
Proof.
  intros Hf. unfold Base64Rev.order_by_id.
  induction l as [|x l IH]; cbn [map fold_right]; [reflexivity|].
  rewrite IH. apply insert_by_id_map, Hf.
Qed.

Lemma in_insert_by_id (x r : UserRow) (l : list UserRow) :
  In x (Base64Rev.insert_by_id r l) <-> x = r \/ In x l.
Proof.
  induction l as [|y l IH]; cbn [Base64Rev.insert_by_id].
  - cbn. intuition congruence.
  - destruct (user_id r <? user_id y); cbn [In]; [intuition congruence|].
    rewrite IH. intuition congruence.
Qed.

Lemma in_order_by_id (x : UserRow) (l : list UserRow) :
  In x (Base64Rev.order_by_id l) <-> In x l.
Proof.
  unfold Base64Rev.order_by_id.
  induction l as [|y l IH]; cbn [fold_right]; [reflexivity|].
  rewrite in_insert_by_id, IH. cbn. intuition congruence.
Qed.

(** C10: [GET /api/debug/users] of [Base64Rev] reads nothing of the
    request, so it asks for no token.  It answers 200 with, for every stored
    user, the row (id, username, role, password); and when only the stored
    credential of the users of one id is changed to another value, the
    answer changes. *)
Theorem C10_debug_users_exposes_credentials :
  forall (s : Store),
    (exists rows,
        Base64Rev.get_debug_users s = (s, respond 200 (BodyUsers rows))
        /\ forall r, In r (users s) ->
             In (user_id r, username (user_cols r), role (user_cols r),
                 password (user_cols r)) rows)
    /\ forall (s' : Store) (id : Z) (p' : option string) (r : UserRow),
        users s' = map (with_password id p') (users s) ->
        In r (users s) -> user_id r = id -> password (user_cols r) <> p' ->
        snd (Base64Rev.get_debug_users s') <> snd (Base64Rev.get_debug_users s).
Proof.
  intros s. split.
  - eexists. split; [reflexivity|].
    intros r Hin. apply (in_map Base64Rev.debug_row).
    apply in_order_by_id. exact Hin.
  - intros s' id p' r Hs' Hin Hid Hp Heq.
    unfold Base64Rev.get_debug_users in Heq. cbn [snd] in Heq.
    injection Heq as Heq. rewrite Hs' in Heq.
    rewrite order_by_id_map in Heq by (intros x; apply with_password_id).
    rewrite map_map in Heq.
    assert (Hr : Base64Rev.debug_row (with_password id p' r) = Base64Rev.debug_row r).
    { apply (proj1 (map_ext_in_iff) Heq). apply in_order_by_id. exact Hin. }
    unfold with_password, Base64Rev.debug_row in Hr.
    rewrite Hid, Z.eqb_refl in Hr. cbn in Hr.
    apply Hp. congruence.
Qed.

(** bob's credential as plain text and as base64: two different answers. *)
Lemma C10_debug_users_witness :
  snd (Base64Rev.get_debug_users
         (store_of [user_row 1 "bob" "c2VjcmV0" "user"] []))
  <> snd (Base64Rev.get_debug_users bob_store).
Proof.
  apply (proj2 (C10_debug_users_exposes_credentials bob_store)
           (store_of [user_row 1 "bob" "c2VjcmV0" "user"] []) 1 (Some "c2VjcmV0")
           (user_row 1 "bob" "secret" "user")).
  - reflexivity.
  - left; reflexivity.
  - reflexivity.
  - discriminate.
Defined.

(* ================================================================== *)
(** ** Remarks beside the claims *)

(** Beside C3: the inputs are never NaN, the derived fields can be.  A JSON
    number too large for a double (1e999) is read as Infinity, which
    [parseFloat(v) || 0] keeps; the margin of an infinite payment is NaN. *)
Remark derive_of_infinite_payment :
  forall pfs : string -> float,
    money pfs (JNumber PrimFloat.infinity) = PrimFloat.infinity
    /\ derive PrimFloat.infinity 0 0 0
       = (PrimFloat.infinity, PrimFloat.infinity, PrimFloat.nan).
Proof. intros pfs. split; vm_compute; reflexivity. Qed.

(* ================================================================== *)
(** ** Beyond the claims: the keys of the agreements table *)

Lemma sql_text_eq_sym (a b : option string) : sql_text_eq a b = sql_text_eq b a.
Proof. destruct a, b; cbn; try reflexivity. apply String.eqb_sym. Qed.

Lemma existsb_false {A : Type} (g : A -> bool) (l : list A) :
  existsb g l = false <-> forall x, In x l -> g x = false.
Proof.
  induction l as [|y l IH]; cbn [existsb In].
  - split; [intros _ x [] | reflexivity].
  - rewrite orb_false_iff, IH. split.
    + intros [Hy Hl] x [<-|Hx]; auto.
    + intros H. split; [apply H; left; reflexivity | intros x Hx; apply H; right; exact Hx].
Qed.

Lemma agreement_keys_ok_snoc (l : list AgreementRow) (x : AgreementRow) :
  agreement_keys_ok l ->
  agreement_id_taken l (agreement_id x) = false ->
  token_taken l (token_number (agreement_cols x)) = false ->
  agreement_keys_ok (l ++ [x]).
Proof.
  induction l as [|r l IH]; cbn [agreement_keys_ok app].
  - intros _ _ _. cbn. auto.
  - intros (Hid & Htok & Hl) Hx Hxt.
    unfold agreement_id_taken, token_taken in *. cbn [existsb] in Hx, Hxt.
    apply orb_false_elim in Hx, Hxt. destruct Hx as [Hrx Hx], Hxt as [Hrxt Hxt].
    rewrite !existsb_app. cbn [existsb]. rewrite Hid, Htok, !orb_false_r.
    rewrite Z.eqb_sym, Hrx, sql_text_eq_sym, Hrxt. auto.
Qed.

Lemma agreement_keys_ok_filter (f : AgreementRow -> bool) (l : list AgreementRow) :
  agreement_keys_ok l -> agreement_keys_ok (filter f l).
Proof.
  induction l as [|r l IH]; cbn [agreement_keys_ok filter]; [auto|].
  intros (Hid & Htok & Hl). destruct (f r); [|auto].
  cbn [agreement_keys_ok]. unfold agreement_id_taken, token_taken in *.
  rewrite existsb_false in Hid, Htok.
  split; [|split; [|auto]]; apply existsb_false; intros x Hx;
    apply filter_In in Hx; destruct Hx; auto.
Qed.

(** Replacing the one row of id [n] by a row of the same id whose token no
    other row has keeps the keys. *)
Lemma agreement_keys_ok_replace (l : list AgreementRow) (n : Z) (c : AgreementCols) :
  agreement_keys_ok l ->
  token_taken_by_other l n (token_number c) = false ->
  agreement_keys_ok
    (map (fun r => if agreement_id r =? n
                   then {| agreement_id := n; agreement_cols := c |} else r) l).
Proof.
  set (h := fun r => if agreement_id r =? n
                     then {| agreement_id := n; agreement_cols := c |} else r).
  assert (Hh : forall r, agreement_id (h r) = agreement_id r).
  { intros r. unfold h. destruct (agreement_id r =? n) eqn:E; [|reflexivity].
    apply Z.eqb_eq in E. symmetry. exact E. }
  unfold token_taken_by_other.
  induction l as [|r l IH]; cbn [agreement_keys_ok map]; [auto|].
  intros (Hid & Htok & Hl) Hother.
  unfold agreement_id_taken, token_taken in *.
  rewrite existsb_false in Hid, Htok, Hother.
  split; [|split].
  - apply existsb_false. intros x Hx. apply in_map_iff in Hx.
    destruct Hx as (y & <- & Hy). rewrite !Hh. apply Hid, Hy.
  - apply existsb_false. intros x Hx. apply in_map_iff in Hx.
    destruct Hx as (y & <- & Hy).
    pose proof (Hid y Hy) as Hyr. cbn beta in Hyr.
    pose proof (Hother y (or_intror Hy)) as Hyo. cbn beta in Hyo.
    pose proof (Hother r (or_introl eq_refl)) as Hro. cbn beta in Hro.
    unfold h. destruct (agreement_id r =? n) eqn:Er.
    + apply Z.eqb_eq in Er. rewrite <- Er, Hyr in *. cbn [negb andb] in Hyo.
      exact Hyo.
    + cbn [negb andb] in Hro. destruct (agreement_id y =? n).
      * cbn [agreement_cols]. rewrite sql_text_eq_sym. exact Hro.
      * apply Htok, Hy.
  - apply IH; [exact Hl|]. apply existsb_false. intros x Hx. apply Hother.
    right. exact Hx.
Qed.

Section KeysOfAgreements.
Variable engine_accepts : Statement -> bool.

Lemma insert_agreement_keys nn s c :
  agreement_keys_ok (agreements s) ->
  agreement_keys_ok (agreements (fst (insert_agreement engine_accepts nn s c))).
Proof.
  intros H. unfold insert_agreement.
  destruct (engine_accepts (InsertAgreement c)); cbn [negb fst]; [|exact H].
  destruct (nn c); cbn [negb fst]; [|exact H].
  destruct (_ || _) eqn:E; cbn [fst]; [exact H|].
  apply orb_false_elim in E. destruct E as [Eid Etok].
  cbn [agreements set_agreements]. apply agreement_keys_ok_snoc; assumption.
Qed.

Lemma insert_agreements_keys nn l : forall s,
  agreement_keys_ok (agreements s) ->
  agreement_keys_ok (agreements (fst (insert_agreements engine_accepts nn s l))).
Proof.
  induction l as [|c l IH]; intros s H; cbn [insert_agreements fst]; [exact H|].
  pose proof (insert_agreement_keys nn s c H) as H1.
  destruct (insert_agreement engine_accepts nn s c) as [s1 [e|row]];
    cbn [fst] in *; [exact H1 | apply IH, H1].
Qed.

Lemma update_agreement_keys nn merge s n p :
  agreement_keys_ok (agreements s) ->
  agreement_keys_ok
    (agreements (fst (update_agreement engine_accepts nn merge s n p))).
Proof.
  intros H. unfold update_agreement.
  destruct (engine_accepts (UpdateAgreement n p)); cbn [negb fst]; [|exact H].
  destruct (find _ (agreements s)) as [old|]; cbn [fst]; [|exact H].
  destruct (nn _); cbn [negb fst]; [|exact H].
  destruct (token_taken_by_other _ _ _) eqn:E; cbn [fst]; [exact H|].
  cbn [agreements set_agreements]. apply agreement_keys_ok_replace; assumption.
Qed.

Lemma insert_users_agreements nn l : forall s,
  agreements (fst (insert_users engine_accepts nn s l)) = agreements s.
Proof.
  induction l as [|c l IH]; intros s; cbn [insert_users fst]; [reflexivity|].
  destruct (insert_user engine_accepts nn s c) as [s1 [e|row]] eqn:E; cbn [fst].
  - unfold insert_user in E.
    destruct (engine_accepts (InsertUser c)); cbn [negb] in E;
      [|inversion E; reflexivity].
    destruct (nn c); cbn [negb] in E; [|inversion E; reflexivity].
    destruct (_ || _); inversion E; reflexivity.
  - rewrite IH. apply insert_user_inr in E. destruct E as (_ & _ & Ha & _).
    exact Ha.
Qed.

Lemma update_settings_agreements s r :
  agreements (fst (update_settings engine_accepts s r)) = agreements s.
Proof.
  unfold update_settings.
  destruct (engine_accepts (UpdateSettings r)); cbn [negb fst]; [|reflexivity].
  destruct (system_settings s); reflexivity.
Qed.

End KeysOfAgreements.

Section KeysOfTypedAgreements.
Variable engine_accepts : Statement -> bool.
Variable decimal : nat -> nat -> SqlValue -> SqlValue.
Variable date_in : string -> string.

Lemma insert_typed_keys s c :
  agreement_keys_ok (agreements s) ->
  agreement_keys_ok
    (agreements (fst (Base64Rev.insert_typed engine_accepts decimal date_in s c))).
Proof.
  intros H. unfold Base64Rev.insert_typed.
  destruct (Base64Rev.stored_agreement decimal date_in c) as [row|]; [|exact H].
  apply insert_agreement_keys, H.
Qed.

Lemma restore_agreements_keys l : forall s,
  agreement_keys_ok (agreements s) ->
  agreement_keys_ok
    (agreements (fst (Base64Rev.restore_agreements engine_accepts decimal date_in
                        s l))).
Proof.
  induction l as [|c l IH]; intros s H; cbn [Base64Rev.restore_agreements fst];
    [exact H|].
  pose proof (insert_typed_keys s c H) as H1.
  destruct (Base64Rev.insert_typed engine_accepts decimal date_in s c)
    as [s1 [e|row]]; cbn [fst] in *; [exact H1 | apply IH, H1].
Qed.

Lemma update_typed_keys s n c :
  agreement_keys_ok (agreements s) ->
  agreement_keys_ok
    (agreements (fst (Base64Rev.update_typed engine_accepts decimal date_in s n c))).
Proof.
  intros H. unfold Base64Rev.update_typed.
  destruct (Base64Rev.stored_agreement decimal date_in c) as [row|]; [|exact H].
  apply update_agreement_keys, H.
Qed.

End KeysOfTypedAgreements.

(** X1.  Every route that writes the agreements table keeps its keys: if no
    two stored agreements share an id or a token number before the request,
    none do after it, whatever the request and whatever the answer.  This
    holds for create, update and restore of [Base64Rev], for create,
    update, delete and restore of [PlainRev], and for create and update of
    [BcryptRev]. *)
Theorem agreement_keys_are_kept :
  forall (pfs : string -> float) (ea : Statement -> bool) (now : string) (s : Store),
    agreement_keys_ok (agreements s) ->
    (forall decimal date_in d,
        agreement_keys_ok
          (agreements (fst (Base64Rev.post_agreements ea decimal date_in s d))))
    /\ (forall decimal date_in id d,
          agreement_keys_ok
            (agreements (fst (Base64Rev.put_agreements_id ea decimal date_in s id d))))
    /\ (forall decimal date_in b,
          agreement_keys_ok
            (agreements (fst (Base64Rev.post_backup_restore ea decimal date_in s b))))
    /\ (forall d,
          agreement_keys_ok (agreements (fst (PlainRev.post_agreements pfs ea s d))))
    /\ (forall id d,
          agreement_keys_ok
            (agreements (fst (PlainRev.put_agreements_id pfs ea s id d))))
    /\ (forall id,
          agreement_keys_ok (agreements (fst (PlainRev.delete_agreements_id s id))))
    /\ (forall b,
          agreement_keys_ok
            (agreements (fst (PlainRev.post_backup_restore ea now s b))))
    /\ (forall req user d,
          agreement_keys_ok
            (agreements (fst (BcryptRev.post_agreements pfs ea s req user d))))
    /\ (forall req user id d,
          agreement_keys_ok
            (agreements (fst (BcryptRev.put_agreements_id pfs ea s req user id d)))).
Proof.
  intros pfs ea now s H.
  repeat match goal with |- _ /\ _ => split end.
  - intros decimal date_in d. unfold Base64Rev.post_agreements.
    destruct (_ || _); cbn [fst]; [exact H|].
    pose proof (insert_typed_keys ea decimal date_in s
                  (Base64Rev.create_params d) H) as H1.
    destruct (Base64Rev.insert_typed _ _ _ _ _) as [s1 [e|row]]; cbn [fst] in *.
    + destruct (is_23505 e); exact H1.
    + exact H1.
  - intros decimal date_in id d. unfold Base64Rev.put_agreements_id.
    destruct (int4_in id) as [n|]; cbn [fst]; [|exact H].
    pose proof (update_typed_keys ea decimal date_in s n
                  (Base64Rev.update_params d) H) as H1.
    destruct (Base64Rev.update_typed _ _ _ _ _ _) as [s1 [e|[row|]]]; exact H1.
  - intros decimal date_in b. unfold Base64Rev.post_backup_restore.
    destruct b as [ags|]; cbn [fst]; [|exact I].
    pose proof (restore_agreements_keys ea decimal date_in ags
                  (set_agreements s []) I) as H1.
    destruct (Base64Rev.restore_agreements _ _ _ _ _) as [s1 [e|]]; exact H1.
  - intros d. unfold PlainRev.post_agreements.
    pose proof (insert_agreement_keys ea no_not_null s (params pfs d) H) as H1.
    destruct (insert_agreement _ _ _ _) as [s1 [e|row]]; exact H1.
  - intros id d. unfold PlainRev.put_agreements_id.
    destruct (int4_in id) as [n|]; cbn [fst]; [|exact H].
    pose proof (update_agreement_keys ea no_not_null replace_all s n
                  (params pfs d) H) as H1.
    destruct (update_agreement _ _ _ _ _ _) as [s1 [e|[row|]]]; exact H1.
  - intros id. unfold PlainRev.delete_agreements_id, delete_agreement_by_id.
    destruct (int4_in id) as [n|]; cbn [fst agreements set_agreements]; [|exact H].
    apply agreement_keys_ok_filter, H.
  - intros b. unfold PlainRev.post_backup_restore, PlainRev.restore_statements.
    pose proof (insert_agreements_keys ea no_not_null
                  (map PlainRev.restore_cols (PlainRev.or_nil (PlainRev.snap_agreements b)))
                  (set_users (set_agreements (set_activity_logs s []) []) []) I)
      as H1.
    destruct (insert_agreements _ _ _ _) as [s4 [e|]]; cbn [fst] in *; [exact H|].
    pose proof (insert_users_agreements ea PlainRev.user_not_null
                  (map (PlainRev.restore_user now) (PlainRev.or_nil (PlainRev.snap_users b)))
                  s4) as H2.
    destruct (insert_users _ _ _ _) as [s5 [e|]]; cbn [fst] in *; [exact H|].
    destruct (PlainRev.snap_settings b) as [r|].
    + pose proof (update_settings_agreements ea s5 r) as H3.
      destruct (update_settings ea s5 r) as [s6 [e|]]; cbn [fst] in *; [exact H|].
      rewrite H3, H2. exact H1.
    + cbn [fst]. rewrite H2. exact H1.
  - intros req user d. unfold BcryptRev.post_agreements, BcryptRev.insert_and_log.
    destruct (BcryptRev.token_check s d); cbn [fst]; [exact H|].
    pose proof (insert_agreement_keys ea no_not_null s (params pfs d) H) as H1.
    destruct (insert_agreement _ _ _ _) as [s1 [e|row]]; exact H1.
  - intros req user id d. unfold BcryptRev.put_agreements_id.
    destruct (int4_in id) as [n|]; cbn [fst]; [|exact H].
    destruct (token_taken_by_other _ _ _); cbn [fst]; [exact H|].
    pose proof (update_agreement_keys ea no_not_null replace_all s n
                  (params pfs d) H) as H1.
    destruct (update_agreement _ _ _ _ _ _) as [s1 [e|row]]; exact H1.
Qed.

(** The keys are kept on a table with a duplicate-free row and a request
    that repeats its token, and on an update of that row. *)
Lemma agreement_keys_are_kept_witness :
  agreement_keys_ok
    (agreements (fst (PlainRev.post_agreements no_string_numbers accept_all
                        t100_store scenario)))
  /\ agreement_keys_ok
       (agreements (fst (Base64Rev.post_agreements accept_all exact_decimal
                           exact_date t100_store due_5_of_500)))
  /\ agreement_keys_ok
       (agreements (fst (BcryptRev.put_agreements_id no_string_numbers accept_all
                           t100_store anonymous admin_token "1" scenario))).
Proof.
  assert (H : agreement_keys_ok (agreements t100_store)) by (cbn; auto).
  destruct (agreement_keys_are_kept no_string_numbers accept_all "2024-01-01"
              t100_store H) as (Hb & _ & _ & Hp & _ & _ & _ & _ & Hu).
  split; [apply Hp|]. split; [apply Hb | apply Hu].
Defined.

(* ================================================================== *)
(** ** Beyond the claims: the keys of the users table *)

Lemma user_keys_ok_snoc (l : list UserRow) (x : UserRow) :
  user_keys_ok l ->
  user_id_taken l (user_id x) = false ->
  username_taken l (username (user_cols x)) = false ->
  user_keys_ok (l ++ [x]).
Proof.
  induction l as [|r l IH]; cbn [user_keys_ok app].
  - intros _ _ _. cbn. auto.
  - intros (Hid & Hname & Hl) Hx Hxn.
    unfold user_id_taken, username_taken in *. cbn [existsb] in Hx, Hxn.
    apply orb_false_elim in Hx, Hxn. destruct Hx as [Hrx Hx], Hxn as [Hrxn Hxn].
    rewrite !existsb_app. cbn [existsb]. rewrite Hid, Hname, !orb_false_r.
    rewrite Z.eqb_sym, Hrx, sql_text_eq_sym, Hrxn. auto.
Qed.

Lemma user_keys_ok_filter (f : UserRow -> bool) (l : list UserRow) :
  user_keys_ok l -> user_keys_ok (filter f l).
Proof.
  induction l as [|r l IH]; cbn [user_keys_ok filter]; [auto|].
  intros (Hid & Hname & Hl). destruct (f r); [|auto].
  cbn [user_keys_ok]. unfold user_id_taken, username_taken in *.
  rewrite existsb_false in Hid, Hname.
  split; [|split; [|auto]]; apply existsb_false; intros x Hx;
    apply filter_In in Hx; destruct Hx; auto.
Qed.

(** Rewriting rows without touching id or username keeps the keys. *)
Lemma user_keys_ok_map (h : UserRow -> UserRow) (l : list UserRow) :
  (forall r, user_id (h r) = user_id r) ->
  (forall r, username (user_cols (h r)) = username (user_cols r)) ->
  user_keys_ok l -> user_keys_ok (map h l).
Proof.
  intros Hid Hname.
  induction l as [|r l IH]; cbn [user_keys_ok map]; [auto|].
  intros (Hi & Hn & Hl). unfold user_id_taken, username_taken in *.
  rewrite existsb_false in Hi, Hn.
  split; [|split; [|auto]]; apply existsb_false; intros x Hx;
    apply in_map_iff in Hx; destruct Hx as (y & <- & Hy).
  - rewrite !Hid. apply Hi, Hy.
  - rewrite !Hname. apply Hn, Hy.
Qed.

Lemma update_password_by_username_keys s p u :
  user_keys_ok (users s) ->
  user_keys_ok (users (update_password_by_username s p u)).
Proof.
  intros H. unfold update_password_by_username. cbn [users set_users].
  apply user_keys_ok_map; [| |exact H]; intros r;
    destruct (sql_text_eq (username (user_cols r)) u); reflexivity.
Qed.

Lemma update_password_by_id_keys s p n :
  user_keys_ok (users s) -> user_keys_ok (users (update_password_by_id s p n)).
Proof.
  intros H. unfold update_password_by_id. cbn [users set_users].
  apply user_keys_ok_map; [| |exact H]; intros r;
    destruct (user_id r =? n); reflexivity.
Qed.

Section KeysOfUsers.
Variable engine_accepts : Statement -> bool.

Lemma insert_user_keys nn s c :
  user_keys_ok (users s) ->
  user_keys_ok (users (fst (insert_user engine_accepts nn s c))).
Proof.
  intros H. unfold insert_user.
  destruct (engine_accepts (InsertUser c)); cbn [negb fst]; [|exact H].
  destruct (nn c); cbn [negb fst]; [|exact H].
  destruct (_ || _) eqn:E; cbn [fst]; [exact H|].
  apply orb_false_elim in E. destruct E as [Eid Ename].
  cbn [users set_users]. apply user_keys_ok_snoc; assumption.
Qed.

Lemma insert_typed_user_keys s c :
  user_keys_ok (users s) ->
  user_keys_ok (users (fst (Base64Rev.insert_typed_user engine_accepts s c))).
Proof.
  intros H. unfold Base64Rev.insert_typed_user.
  destruct (Base64Rev.stored_user c) as [row|]; [|exact H].
  unfold insert_user.
  destruct (engine_accepts (InsertUser c)); cbn [negb fst]; [|exact H].
  destruct (no_user_not_null row); cbn [negb fst]; [|exact H].
  destruct (_ || _) eqn:E; cbn [fst]; [exact H|].
  apply orb_false_elim in E. destruct E as [Eid Ename].
  cbn [users set_users]. apply user_keys_ok_snoc; assumption.
Qed.

Lemma insert_users_keys nn l : forall s,
  user_keys_ok (users s) ->
  user_keys_ok (users (fst (insert_users engine_accepts nn s l))).
Proof.
  induction l as [|c l IH]; intros s H; cbn [insert_users fst]; [exact H|].
  pose proof (insert_user_keys nn s c H) as H1.
  destruct (insert_user engine_accepts nn s c) as [s1 [e|row]];
    cbn [fst] in *; [exact H1 | apply IH, H1].
Qed.

Lemma insert_agreement_users nn s c :
  users (fst (insert_agreement engine_accepts nn s c)) = users s.
Proof.
  unfold insert_agreement.
  destruct (engine_accepts (InsertAgreement c)); cbn [negb fst]; [|reflexivity].
  destruct (nn c); cbn [negb fst]; [|reflexivity].
  destruct (_ || _); reflexivity.
Qed.

Lemma insert_agreements_users nn l : forall s,
  users (fst (insert_agreements engine_accepts nn s l)) = users s.
Proof.
  induction l as [|c l IH]; intros s; cbn [insert_agreements fst]; [reflexivity|].
  pose proof (insert_agreement_users nn s c) as H1.
  destruct (insert_agreement engine_accepts nn s c) as [s1 [e|row]];
    cbn [fst] in *; [exact H1 | rewrite IH; exact H1].
Qed.

Lemma update_settings_users s r :
  users (fst (update_settings engine_accepts s r)) = users s.
Proof.
  unfold update_settings.
  destruct (engine_accepts (UpdateSettings r)); cbn [negb fst]; [|reflexivity].
  destruct (system_settings s); reflexivity.
Qed.

End KeysOfUsers.

Lemma update_last_login_keys s t n :
  user_keys_ok (users s) -> user_keys_ok (users (Argon2Rev.update_last_login s t n)).
Proof.
  intros H. unfold Argon2Rev.update_last_login. cbn [users set_users].
  apply user_keys_ok_map; [| |exact H]; intros r;
    destruct (user_id r =? n); reflexivity.
Qed.

Lemma delete_user_by_id_keys s n :
  user_keys_ok (users s) -> user_keys_ok (users (fst (delete_user_by_id s n))).
Proof.
  intros H. unfold delete_user_by_id. cbn [fst users set_users].
  apply user_keys_ok_filter, H.
Qed.

(** X2.  Every route that writes the users table keeps its keys: if no two
    stored users share an id or a username before the request, none do
    after it.  This holds for login, password change, user creation and
    user deletion of [Base64Rev]; for password change, user creation, user
    deletion and restore of [PlainRev]; for user creation, password change
    and user deletion of [BcryptRev]; and for the login of [Argon2Rev]. *)
Theorem user_keys_are_kept :
  forall (ea : Statement -> bool) (now : string)
         (bcrypt_compare : string -> string -> bool)
         (bcrypt_hash : string -> string -> string)
         (argon2_verify : string -> JsText -> option bool)
         (jwt_sign : TokenUser -> string) (s : Store),
    user_keys_ok (users s) ->
    (forall req, user_keys_ok (users (fst (Base64Rev.post_auth_login s req))))
    /\ (forall b, user_keys_ok (users (fst (Base64Rev.put_users_change_password s b))))
    /\ (forall b, user_keys_ok (users (fst (Base64Rev.post_users ea s b))))
    /\ (forall id, user_keys_ok (users (fst (Base64Rev.delete_users_id s id))))
    /\ (forall b, user_keys_ok (users (fst (PlainRev.put_users_change_password s b))))
    /\ (forall b, user_keys_ok (users (fst (PlainRev.post_users ea s b))))
    /\ (forall id, user_keys_ok (users (fst (PlainRev.delete_users_id s id))))
    /\ (forall b, user_keys_ok (users (fst (PlainRev.post_backup_restore ea now s b))))
    /\ (forall salt b,
          user_keys_ok (users (fst (BcryptRev.post_users ea bcrypt_hash s salt b))))
    /\ (forall user salt b,
          user_keys_ok
            (users (fst (BcryptRev.put_auth_change_password bcrypt_compare
                           bcrypt_hash s user salt b))))
    /\ (forall user id, user_keys_ok (users (fst (BcryptRev.delete_users_id s user id))))
    /\ (forall b,
          user_keys_ok
            (users (fst (Argon2Rev.post_auth_login argon2_verify jwt_sign now s b)))).
Proof.
  intros ea now bc bh av js s H.
  repeat match goal with |- _ /\ _ => split end.
  - intros req. unfold Base64Rev.post_auth_login.
    destruct (Base64Rev.req_username req) as [u|], (Base64Rev.req_password req) as [p|];
      cbn [fst]; try exact H.
    destruct (_ || _); cbn [fst]; [exact H|].
    destruct (select_user_by_username s (Some u)); cbn [fst]; [|exact H].
    destruct (sql_text_eq _ _); cbn [fst]; [exact H|].
    destruct (Base64Rev.default_password_matches u p); cbn [fst]; [|exact H].
    rewrite users_insert_log. apply update_password_by_username_keys, H.
  - intros b. unfold Base64Rev.put_users_change_password.
    destruct (pc_username b) as [u|], (pc_currentPassword b) as [c|],
      (pc_newPassword b) as [n|]; cbn [fst]; try exact H.
    destruct (_ || _); cbn [fst]; [exact H|].
    destruct (select_user_by_username s (Some u)); cbn [fst]; [|exact H].
    destruct (negb _); cbn [fst]; [exact H|].
    destruct (_ <? _)%nat; cbn [fst]; [exact H|].
    rewrite users_insert_log. apply update_password_by_username_keys, H.
  - intros b. unfold Base64Rev.post_users.
    destruct (nu_password b) as [p|]; cbn [fst]; [|exact H].
    match goal with
    | |- context [Base64Rev.insert_typed_user ea s ?c] =>
        pose proof (insert_typed_user_keys ea s c H) as H1;
        destruct (Base64Rev.insert_typed_user ea s c) as [s1 [e|row]]
    end; cbn [fst] in *; [destruct (is_23505 e)|]; exact H1.
  - intros id. unfold Base64Rev.delete_users_id.
    destruct (String.eqb id "1"); cbn [fst]; [exact H|].
    destruct (int4_in id) as [n|]; cbn [fst]; [|exact H].
    pose proof (delete_user_by_id_keys s n H) as H1.
    destruct (delete_user_by_id s n) as [s1 [|r gone]]; exact H1.
  - intros b. unfold PlainRev.put_users_change_password.
    destruct (_ || _); cbn [fst]; [exact H|].
    destruct (negb _); cbn [fst]; [exact H|].
    apply update_password_by_username_keys, H.
  - intros b. unfold PlainRev.post_users.
    destruct (_ || _); cbn [fst]; [exact H|].
    match goal with
    | |- context [insert_user ea ?nn s ?c] =>
        pose proof (insert_user_keys ea nn s c H) as H1;
        destruct (insert_user ea nn s c) as [s1 [e|row]]
    end; exact H1.
  - intros id. unfold PlainRev.delete_users_id.
    destruct (int4_in id) as [n|]; cbn [fst]; [|exact H].
    apply delete_user_by_id_keys, H.
  - intros b. unfold PlainRev.post_backup_restore, PlainRev.restore_statements.
    pose proof (insert_agreements_users ea no_not_null
                  (map PlainRev.restore_cols (PlainRev.or_nil (PlainRev.snap_agreements b)))
                  (set_users (set_agreements (set_activity_logs s []) []) []))
      as H1.
    destruct (insert_agreements _ _ _ _) as [s4 [e|]]; cbn [fst] in *; [exact H|].
    assert (H4 : user_keys_ok (users s4)) by (rewrite H1; exact I).
    pose proof (insert_users_keys ea PlainRev.user_not_null
                  (map (PlainRev.restore_user now) (PlainRev.or_nil (PlainRev.snap_users b)))
                  s4 H4) as H2.
    destruct (insert_users _ _ _ _) as [s5 [e|]]; cbn [fst] in *; [exact H|].
    destruct (PlainRev.snap_settings b) as [r|]; [|exact H2].
    pose proof (update_settings_users ea s5 r) as H3.
    destruct (update_settings ea s5 r) as [s6 [e|]]; cbn [fst] in *; [exact H|].
    rewrite H3. exact H2.
  - intros salt b. unfold BcryptRev.post_users.
    destruct (nu_username b) as [u|], (nu_password b) as [p|], (nu_role b) as [r|];
      cbn [fst]; try exact H.
    destruct (_ || _); cbn [fst]; [exact H|].
    match goal with
    | |- context [insert_user ea ?nn s ?c] =>
        pose proof (insert_user_keys ea nn s c H) as H1;
        destruct (insert_user ea nn s c) as [s1 [e|row]]
    end; cbn [fst] in *; [destruct (is_23505 e)|]; exact H1.
  - intros user salt b. unfold BcryptRev.put_auth_change_password.
    destruct (pc_currentPassword b) as [c|], (pc_newPassword b) as [n|];
      cbn [fst]; try exact H.
    destruct (_ || _); cbn [fst]; [exact H|].
    destruct (select_user_by_id s (tu_id user)) as [row|]; cbn [fst]; [|exact H].
    destruct (password (user_cols row)); cbn [fst]; [|exact H].
    destruct (negb _); cbn [fst]; [exact H|].
    apply update_password_by_id_keys, H.
  - intros user id. unfold BcryptRev.delete_users_id.
    destruct (BcryptRev.is_own_id id user); cbn [fst]; [exact H|].
    destruct (int4_in id) as [n|]; cbn [fst]; [|exact H].
    apply delete_user_by_id_keys, H.
  - intros b. unfold Argon2Rev.post_auth_login.
    destruct (select_user_by_username s _) as [user|]; cbn [fst]; [|exact H].
    destruct (password (user_cols user)) as [d|]; cbn [fst]; [|exact H].
    destruct (av d _) as [[|]|]; cbn [fst]; try exact H.
    apply update_last_login_keys, H.
Qed.

(** The keys are kept by a repeated username ([PlainRev]), by the migrating
    login ([Base64Rev]) and by a delete ([BcryptRev]). *)
Lemma user_keys_are_kept_witness :
  user_keys_ok
    (users (fst (PlainRev.post_users accept_all plain_admin_store
                   {| nu_username := Some "admin"; nu_password := Some "x";
                      nu_role := None |})))
  /\ user_keys_ok
       (users (fst (Base64Rev.post_auth_login plain_admin_store
                      (login_request "admin" "admin123"))))
  /\ user_keys_ok
       (users (fst (BcryptRev.delete_users_id plain_admin_store ram_token "1"))).
Proof.
  assert (H : user_keys_ok (users plain_admin_store)) by (cbn; auto).
  destruct (user_keys_are_kept accept_all "2024-01-01" toy_compare
              (fun p salt => toy_digest p) toy_verify toy_sign plain_admin_store H)
    as (Hlogin & _ & _ & _ & _ & Hpost & _ & _ & _ & _ & Hdel & _).
  split; [apply Hpost|]. split; [apply Hlogin | apply Hdel].
Defined.

(* ================================================================== *)
(** ** Beyond the claims: [simpleHash] tells passwords apart *)

Lemma in_sextets (i : N) : (i < 64)%N -> In i sextets.
Proof.
  intros H. unfold sextets. apply in_map_iff. exists (N.to_nat i).
  split; [apply N2Nat.id | apply in_seq; lia].
Qed.

Lemma b64_digit_index (i : N) :
  (i < 64)%N -> index_of (b64_digit i) b64_alphabet = i.
Proof.
  intros H. apply in_sextets in H.
  assert (Hall : forallb (fun i => N.eqb (index_of (b64_digit i) b64_alphabet) i)
                   sextets = true) by (vm_compute; reflexivity).
  rewrite forallb_forall in Hall. apply N.eqb_eq, Hall, H.
Qed.

Lemma b64_digit_inj (i j : N) :
  (i < 64)%N -> (j < 64)%N -> b64_digit i = b64_digit j -> i = j.
Proof.
  intros Hi Hj H.
  rewrite <- (b64_digit_index i Hi), <- (b64_digit_index j Hj), H. reflexivity.
Qed.

Lemma b64_digit_not_pad (i : N) : (i < 64)%N -> "="%char <> b64_digit i.
Proof.
  intros H. apply in_sextets in H.
  assert (Hall : forallb (fun i => negb (Ascii.eqb "="%char (b64_digit i)))
                   sextets = true) by (vm_compute; reflexivity).
  rewrite forallb_forall in Hall. specialize (Hall i H).
  intros E. rewrite <- E, Ascii.eqb_refl in Hall. discriminate.
Qed.

Ltac divmod x d :=
  pose proof (N.div_mod x d ltac:(discriminate));
  pose proof (N.mod_lt x d ltac:(discriminate));
  pose proof (N.le_0_l (x / d));
  pose proof (N.le_0_l (x mod d)).

(** The four sextets of three bytes are below 64 and give the bytes back. *)
Lemma sextets_bounded (a b c : N) :
  (a < 256 -> b < 256 -> c < 256 ->
   a / 4 < 64 /\ (a mod 4) * 16 + b / 16 < 64
   /\ (b mod 16) * 4 + c / 64 < 64 /\ c mod 64 < 64
   /\ (a mod 4) * 16 < 64 /\ (b mod 16) * 4 < 64)%N.
Proof.
  intros. divmod a 4%N. divmod b 16%N. divmod c 64%N. lia.
Qed.

Lemma sextets_inj (a b c a' b' c' : N) :
  (a < 256 -> b < 256 -> c < 256 -> a' < 256 -> b' < 256 -> c' < 256 ->
   a / 4 = a' / 4 ->
   (a mod 4) * 16 + b / 16 = (a' mod 4) * 16 + b' / 16 ->
   (b mod 16) * 4 + c / 64 = (b' mod 16) * 4 + c' / 64 ->
   c mod 64 = c' mod 64 ->
   a = a' /\ b = b' /\ c = c')%N.
Proof.
  intros. divmod a 4%N. divmod a' 4%N. divmod b 16%N. divmod b' 16%N.
  divmod c 64%N. divmod c' 64%N. lia.
Qed.

Lemma base64_injective_upto (n : nat) : forall bs1 bs2 : list N,
  (List.length bs1 <= n)%nat -> all_bytes bs1 -> all_bytes bs2 ->
  base64 bs1 = base64 bs2 -> bs1 = bs2.
Proof.
  unfold all_bytes.
  induction n as [|n IH]; intros bs1 bs2 Hlen H1 H2 E.
  - destruct bs1 as [|a r]; [|cbn in Hlen; lia].
    destruct bs2 as [|a' [|b' [|c' r']]]; [reflexivity | | |]; discriminate E.
  - destruct bs1 as [|a [|b [|c r]]], bs2 as [|a' [|b' [|c' r']]];
      cbn [base64] in E; try discriminate E; try reflexivity;
      repeat match goal with
             | H : Forall _ (_ :: _) |- _ => apply Forall_cons_iff in H; destruct H
             end.
    + (* one byte, one byte *)
      injection E as E1 E2.
      destruct (sextets_bounded a 0 0) as (B1 & _ & _ & _ & B2 & _); try lia.
      destruct (sextets_bounded a' 0 0) as (B1' & _ & _ & _ & B2' & _); try lia.
      apply b64_digit_inj in E1, E2; try assumption.
      destruct (sextets_inj a 0 0 a' 0 0) as (-> & _); cbn; try lia. reflexivity.
    + (* one byte, two bytes: a pad against a digit *)
      injection E as _ _ E3.
      destruct (sextets_bounded a' b' 0) as (_ & _ & _ & _ & _ & B); try lia.
      exfalso. exact (b64_digit_not_pad _ B E3).
    + injection E as _ _ E3.
      destruct (sextets_bounded a' b' c') as (_ & _ & B & _); try lia.
      exfalso. exact (b64_digit_not_pad _ B E3).
    + injection E as _ _ E3.
      destruct (sextets_bounded a b 0) as (_ & _ & _ & _ & _ & B); try lia.
      exfalso. exact (b64_digit_not_pad _ B (eq_sym E3)).
    + (* two bytes, two bytes *)
      injection E as E1 E2 E3.
      destruct (sextets_bounded a b 0) as (B1 & B2 & _ & _ & _ & B3); try lia.
      destruct (sextets_bounded a' b' 0) as (B1' & B2' & _ & _ & _ & B3'); try lia.
      apply b64_digit_inj in E1, E2, E3; try assumption.
      destruct (sextets_inj a b 0 a' b' 0) as (-> & -> & _); cbn; try lia.
      reflexivity.
    + injection E as _ _ _ E4.
      destruct (sextets_bounded a' b' c') as (_ & _ & _ & B & _); try lia.
      exfalso. exact (b64_digit_not_pad _ B E4).
    + injection E as _ _ E3.
      destruct (sextets_bounded a b c) as (_ & _ & B & _); try lia.
      exfalso. exact (b64_digit_not_pad _ B (eq_sym E3)).
    + injection E as _ _ _ E4.
      destruct (sextets_bounded a b c) as (_ & _ & _ & B & _); try lia.
      exfalso. exact (b64_digit_not_pad _ B (eq_sym E4)).
    + (* three bytes and more on both sides *)
      injection E as E1 E2 E3 E4 E5.
      destruct (sextets_bounded a b c) as (B1 & B2 & B3 & B4 & _); try lia.
      destruct (sextets_bounded a' b' c') as (B1' & B2' & B3' & B4' & _); try lia.
      apply b64_digit_inj in E1, E2, E3, E4; try assumption.
      destruct (sextets_inj a b c a' b' c') as (-> & -> & ->); try lia.
      f_equal. f_equal. f_equal. apply IH; try assumption.
      cbn [List.length] in Hlen. lia.
Qed.

Lemma base64_injective (bs1 bs2 : list N) :
  all_bytes bs1 -> all_bytes bs2 -> base64 bs1 = base64 bs2 -> bs1 = bs2.
Proof. apply (base64_injective_upto (List.length bs1)). apply Nat.le_refl. Qed.

Lemma bytes_of_all_bytes (s : string) : all_bytes (bytes_of s).
Proof.
  unfold all_bytes, bytes_of. apply Forall_forall. intros b Hb.
  apply in_map_iff in Hb. destruct Hb as (c & <- & _). apply N_ascii_bounded.
Qed.

Lemma bytes_of_injective (s t : string) : bytes_of s = bytes_of t -> s = t.
Proof.
  unfold bytes_of. revert t.
  induction s as [|c s IH]; intros [|d t]; cbn; intros H;
    try discriminate H; [reflexivity|].
  injection H as Hc Hs. f_equal; [|apply IH, Hs].
  rewrite <- (ascii_N_embedding c), <- (ascii_N_embedding d), Hc. reflexivity.
Qed.

(** X3.  [simpleHash] is one to one: two passwords whose UTF-8 texts differ
    never have the same stored form (base64 of the bytes of the text). *)
Theorem simpleHash_tells_passwords_apart :
  forall p q : string, p <> q -> Base64Rev.simpleHash p <> Base64Rev.simpleHash q.
Proof.
  intros p q Hne E. apply Hne. unfold Base64Rev.simpleHash in E.
  apply bytes_of_injective, base64_injective; auto using bytes_of_all_bytes.
Qed.

(** Two passwords of which one is a prefix of the other. *)
Lemma simpleHash_tells_passwords_apart_witness :
  Base64Rev.simpleHash "admin12" <> Base64Rev.simpleHash "admin123".
Proof. apply simpleHash_tells_passwords_apart. discriminate. Defined.

(* ================================================================== *)
(** ** Beyond the claims: credentials of [Base64Rev] *)

Lemma default_password_of_pair (u d : string) :
  In (u, d) Base64Rev.defaultPasswords ->
  Base64Rev.default_password_matches u d = true
  /\ forall p, Base64Rev.default_password_matches u p = true -> p = d.
Proof.
  intros H. split.
  - unfold Base64Rev.defaultPasswords in H. cbn [In] in H.
    destruct H as [H|[H|[H|[H|[]]]]]; inversion H; reflexivity.
  - intros p Hp. apply default_password_listed in Hp.
    unfold Base64Rev.defaultPasswords in H, Hp. cbn [In] in H, Hp.
    destruct H as [H|[H|[H|[H|[]]]]]; inversion H; subst;
      destruct Hp as [Hp|[Hp|[Hp|[Hp|[]]]]]; inversion Hp; reflexivity.
Qed.

Lemma find_snoc_new {A : Type} (f : A -> bool) (l : list A) (x : A) :
  existsb f l = false -> f x = true -> find f (l ++ [x]) = Some x.
Proof.
  induction l as [|y l IH]; cbn [existsb find app]; intros H Hx.
  - rewrite Hx. reflexivity.
  - apply orb_false_elim in H. destruct H as [Hy Hl]. rewrite Hy. auto.
Qed.

(** The login of [Base64Rev] on a filled-in request for a stored user. *)
Lemma Base64Rev_login_cases (s : Store) (u p : string) (user : UserRow) :
  str_truthy u = true -> str_truthy p = true ->
  select_user_by_username s (Some u) = Some user ->
  Base64Rev.post_auth_login s (login_request u p)
  = if sql_text_eq (Some (Base64Rev.simpleHash p)) (password (user_cols user)) then
      (insert_log s (Some u) "Login" "User logged in successfully" None,
       respond 200
         (BodyLogin "Login successful" (username (user_cols user))
            (role (user_cols user)) "agreement-manager-token"))
    else if Base64Rev.default_password_matches u p then
      (insert_log
         (update_password_by_username s (Some (Base64Rev.simpleHash p)) (Some u))
         (Some u) "Login" "User logged in and password migrated" None,
       respond 200
         (BodyLogin "Login successful (password migrated)"
            (username (user_cols user)) (role (user_cols user))
            "agreement-manager-token"))
    else (s, respond 401 (BodyError "Invalid username or password")).
Proof.
  intros Hu Hp Hsel. unfold Base64Rev.post_auth_login, login_request.
  cbn [Base64Rev.req_username Base64Rev.req_password].
  rewrite Hu, Hp. cbn [negb orb]. rewrite Hsel. reflexivity.
Qed.

Lemma Base64Rev_login_accepts (s : Store) (u p0 : string) (user : UserRow) :
  str_truthy u = true -> str_truthy p0 = true ->
  select_user_by_username s (Some u) = Some user ->
  password (user_cols user) = Some (Base64Rev.simpleHash p0) ->
  Base64Rev.post_auth_login s (login_request u p0)
  = (insert_log s (Some u) "Login" "User logged in successfully" None,
     respond 200
       (BodyLogin "Login successful" (username (user_cols user))
          (role (user_cols user)) "agreement-manager-token")).
Proof.
  intros Hu Hp0 Hsel Hpw.
  rewrite (Base64Rev_login_cases s u p0 user Hu Hp0 Hsel), Hpw, sql_text_eq_refl.
  reflexivity.
Qed.

Lemma simpleHash_injective (p q : string) :
  Base64Rev.simpleHash p = Base64Rev.simpleHash q -> p = q.
Proof.
  unfold Base64Rev.simpleHash. intros E.
  apply bytes_of_injective, base64_injective; auto using bytes_of_all_bytes.
Qed.

Lemma Base64Rev_login_refuses (s : Store) (u p0 p : string) (user : UserRow) :
  str_truthy u = true -> str_truthy p = true ->
  select_user_by_username s (Some u) = Some user ->
  password (user_cols user) = Some (Base64Rev.simpleHash p0) ->
  p <> p0 -> Base64Rev.default_password_matches u p = false ->
  Base64Rev.post_auth_login s (login_request u p)
  = (s, respond 401 (BodyError "Invalid username or password")).
Proof.
  intros Hu Hp Hsel Hpw Hne Hdef.
  rewrite (Base64Rev_login_cases s u p user Hu Hp Hsel), Hpw, Hdef.
  cbn [sql_text_eq].
  destruct (String.eqb_spec (Base64Rev.simpleHash p) (Base64Rev.simpleHash p0))
    as [E|_]; [|reflexivity].
  exfalso. exact (Hne (simpleHash_injective p p0 E)).
Qed.

(** X4.  The login of [Base64Rev] accepts exactly the password whose hash
    is stored, the default passwords apart: for a stored user whose
    credential is [simpleHash p0], the password [p0] is answered 200 "Login
    successful" and leaves the users table as it is, and any other password
    that is not the default password of that username is answered 401 and
    leaves the store as it is. *)
Theorem Base64Rev_login_checks_the_password :
  forall (s : Store) (u p0 : string) (user : UserRow),
    str_truthy u = true -> str_truthy p0 = true ->
    select_user_by_username s (Some u) = Some user ->
    password (user_cols user) = Some (Base64Rev.simpleHash p0) ->
    (exists s',
        Base64Rev.post_auth_login s (login_request u p0)
        = (s', respond 200
                 (BodyLogin "Login successful" (username (user_cols user))
                    (role (user_cols user)) "agreement-manager-token"))
        /\ users s' = users s)
    /\ forall p, p <> p0 -> str_truthy p = true ->
         Base64Rev.default_password_matches u p = false ->
         Base64Rev.post_auth_login s (login_request u p)
         = (s, respond 401 (BodyError "Invalid username or password")).
Proof.
  intros s u p0 user Hu Hp0 Hsel Hpw. split.
  - rewrite (Base64Rev_login_accepts s u p0 user Hu Hp0 Hsel Hpw).
    eexists. split; reflexivity.
  - intros p Hne Hp Hdef.
    exact (Base64Rev_login_refuses s u p0 p user Hu Hp Hsel Hpw Hne Hdef).
Qed.

(** A password that differs from the stored one in the case of a letter. *)
Lemma Base64Rev_login_checks_the_password_witness :
  Base64Rev.post_auth_login hashed_bob_store (login_request "bob" "Secret")
  = (hashed_bob_store, respond 401 (BodyError "Invalid username or password")).
Proof.
  apply (proj2 (Base64Rev_login_checks_the_password hashed_bob_store "bob" "secret"
                  (user_row 1 "bob" (Base64Rev.simpleHash "secret") "user")
                  eq_refl eq_refl eq_refl eq_refl));
    [discriminate|reflexivity|reflexivity].
Defined.

Lemma default_password_truthy_pair (u d : string) :
  In (u, d) Base64Rev.defaultPasswords -> str_truthy u = true /\ str_truthy d = true.
Proof.
  unfold Base64Rev.defaultPasswords. cbn [In].
  intros [H|[H|[H|[H|[]]]]]; inversion H; split; reflexivity.
Qed.

(** X5.  The default passwords of [Base64Rev] cannot be retired.  For a
    stored user whose name is one of the four default accounts, whatever
    credential the row holds (so also after a change of password), a login
    with the default password is answered 200, the row then stores the
    base64 form of the default password, and from then on every other
    password for that name, the one the user had chosen included, is
    answered 401. *)
Theorem Base64Rev_default_password_always_opens :
  forall (s : Store) (u d : string) (user : UserRow),
    In (u, d) Base64Rev.defaultPasswords ->
    select_user_by_username s (Some u) = Some user ->
    exists s' msg user',
      Base64Rev.post_auth_login s (login_request u d)
      = (s', respond 200
               (BodyLogin msg (username (user_cols user)) (role (user_cols user))
                  "agreement-manager-token"))
      /\ select_user_by_username s' (Some u) = Some user'
      /\ password (user_cols user') = Some (Base64Rev.simpleHash d)
      /\ forall p, p <> d -> str_truthy p = true ->
           Base64Rev.post_auth_login s' (login_request u p)
           = (s', respond 401 (BodyError "Invalid username or password")).
Proof.
  intros s u d user Hin Hsel.
  destruct (default_password_truthy_pair u d Hin) as [Hu Hd].
  destruct (default_password_of_pair u d Hin) as [Hdef Honly].
  assert (Hother : forall p, p <> d -> Base64Rev.default_password_matches u p = false).
  { intros p Hne. destruct (Base64Rev.default_password_matches u p) eqn:E; [|reflexivity].
    exfalso. exact (Hne (Honly p E)). }
  rewrite (Base64Rev_login_cases s u d user Hu Hd Hsel).
  destruct (sql_text_eq (Some (Base64Rev.simpleHash d)) (password (user_cols user)))
    eqn:Hstored.
  - assert (Hpw : password (user_cols user) = Some (Base64Rev.simpleHash d)).
    { destruct (password (user_cols user)) as [h|]; [|discriminate Hstored].
      cbn [sql_text_eq] in Hstored. apply String.eqb_eq in Hstored. congruence. }
    eexists _, _, user. split; [reflexivity|]. split; [exact Hsel|].
    split; [exact Hpw|]. intros p Hne Hp.
    apply (Base64Rev_login_refuses _ u d p user); auto.
  - rewrite Hdef.
    destruct (select_after_password_update s u (Base64Rev.simpleHash d) user Hsel)
      as (user1 & Hsel1 & Hpw1 & _ & _).
    eexists _, _, user1. split; [reflexivity|]. split; [exact Hsel1|].
    split; [exact Hpw1|]. intros p Hne Hp.
    apply (Base64Rev_login_refuses _ u d p user1); auto.
Qed.

(** The admin has changed the password to "s3cret!": "admin123" still
    opens the account and puts the default credential back. *)
Lemma Base64Rev_default_password_always_opens_witness :
  exists s' msg user',
    Base64Rev.post_auth_login changed_admin_store (login_request "admin" "admin123")
    = (s', respond 200 (BodyLogin msg (Some "admin") (Some "admin")
                          "agreement-manager-token"))
    /\ select_user_by_username s' (Some "admin") = Some user'
    /\ password (user_cols user') = Some (Base64Rev.simpleHash "admin123")
    /\ forall p, p <> "admin123" -> str_truthy p = true ->
         Base64Rev.post_auth_login s' (login_request "admin" p)
         = (s', respond 401 (BodyError "Invalid username or password")).
Proof.
  apply (Base64Rev_default_password_always_opens changed_admin_store "admin" "admin123"
           (user_row 1 "admin" (Base64Rev.simpleHash "s3cret!") "admin")).
  - left. reflexivity.
  - reflexivity.
Defined.

Lemma Base64Rev_change_password_cases (s : Store) (u cur new : string) (user : UserRow) :
  str_truthy u = true -> str_truthy cur = true -> str_truthy new = true ->
  select_user_by_username s (Some u) = Some user ->
  Base64Rev.put_users_change_password s
    {| pc_username := Some u; pc_currentPassword := Some cur;
       pc_newPassword := Some new |}
  = if sql_text_eq (Some (Base64Rev.simpleHash cur)) (password (user_cols user)) then
      if (255 <? String.length (Base64Rev.simpleHash new))%nat then
        (s, respond 500 (BodyError "Internal server error"))
      else
        (insert_log
           (update_password_by_username s (Some (Base64Rev.simpleHash new)) (Some u))
           (Some u) "Password Change" "User changed password successfully" None,
         respond 200 (BodyMessage "Password changed successfully"))
    else (s, respond 401 (BodyError "Current password is incorrect")).
Proof.
  intros Hu Hc Hn Hsel. unfold Base64Rev.put_users_change_password.
  cbn [pc_username pc_currentPassword pc_newPassword].
  rewrite Hu, Hc, Hn. cbn [negb orb]. rewrite Hsel.
  destruct (sql_text_eq _ _); reflexivity.
Qed.

Lemma select_insert_log s u a d i v :
  select_user_by_username (insert_log s u a d i) v = select_user_by_username s v.
Proof. reflexivity. Qed.

(** X6.  Change of password in [Base64Rev], for a stored user whose
    credential is [simpleHash cur].  With the right current password, and a
    new one whose base64 form fits the column (255 characters), the route
    answers 200 and a login with the new password then succeeds as "Login
    successful"; the old password is then refused, unless it is the default
    password of that name.  With any other current password the route
    answers 401 and changes nothing. *)
Theorem Base64Rev_change_password_then_login :
  forall (s : Store) (u cur new : string) (user : UserRow),
    str_truthy u = true -> str_truthy cur = true -> str_truthy new = true ->
    select_user_by_username s (Some u) = Some user ->
    password (user_cols user) = Some (Base64Rev.simpleHash cur) ->
    (String.length (Base64Rev.simpleHash new) <= 255)%nat ->
    (exists s1,
        Base64Rev.put_users_change_password s
          {| pc_username := Some u; pc_currentPassword := Some cur;
             pc_newPassword := Some new |}
        = (s1, respond 200 (BodyMessage "Password changed successfully"))
        /\ (exists s2,
               Base64Rev.post_auth_login s1 (login_request u new)
               = (s2, respond 200
                        (BodyLogin "Login successful" (username (user_cols user))
                           (role (user_cols user)) "agreement-manager-token")))
        /\ (new <> cur -> Base64Rev.default_password_matches u cur = false ->
            Base64Rev.post_auth_login s1 (login_request u cur)
            = (s1, respond 401 (BodyError "Invalid username or password"))))
    /\ forall wrong, wrong <> cur -> str_truthy wrong = true ->
         Base64Rev.put_users_change_password s
           {| pc_username := Some u; pc_currentPassword := Some wrong;
              pc_newPassword := Some new |}
         = (s, respond 401 (BodyError "Current password is incorrect")).
Proof.
  intros s u cur new user Hu Hc Hn Hsel Hpw Hfits. split.
  - rewrite (Base64Rev_change_password_cases s u cur new user Hu Hc Hn Hsel), Hpw,
      sql_text_eq_refl, (proj2 (Nat.ltb_ge _ _) Hfits).
    destruct (select_after_password_update s u (Base64Rev.simpleHash new) user Hsel)
      as (user1 & Hsel1 & Hpw1 & Hname & Hrole).
    eexists. split; [reflexivity|]. split.
    + eexists. rewrite <- Hname, <- Hrole.
      apply Base64Rev_login_accepts; auto.
    + intros Hne Hdef.
      apply (Base64Rev_login_refuses _ u new cur user1); auto.
  - intros wrong Hne Hw.
    rewrite (Base64Rev_change_password_cases s u wrong new user Hu Hw Hn Hsel), Hpw.
    cbn [sql_text_eq].
    destruct (String.eqb_spec (Base64Rev.simpleHash wrong) (Base64Rev.simpleHash cur))
      as [E|_]; [|reflexivity].
    exfalso. exact (Hne (simpleHash_injective wrong cur E)).
Qed.

Lemma Base64Rev_change_password_then_login_witness :
  exists s1 s2,
    Base64Rev.put_users_change_password hashed_bob_store
      {| pc_username := Some "bob"; pc_currentPassword := Some "secret";
         pc_newPassword := Some "hunter2" |}
    = (s1, respond 200 (BodyMessage "Password changed successfully"))
    /\ Base64Rev.post_auth_login s1 (login_request "bob" "hunter2")
       = (s2, respond 200 (BodyLogin "Login successful" (Some "bob") (Some "user")
                             "agreement-manager-token"))
    /\ Base64Rev.post_auth_login s1 (login_request "bob" "secret")
       = (s1, respond 401 (BodyError "Invalid username or password")).
Proof.
  destruct (proj1 (Base64Rev_change_password_then_login hashed_bob_store "bob" "secret"
                     "hunter2"
                     (user_row 1 "bob" (Base64Rev.simpleHash "secret") "user")
                     eq_refl eq_refl eq_refl eq_refl eq_refl
                     (proj1 (Nat.leb_le (String.length (Base64Rev.simpleHash "hunter2"))
                               255) eq_refl)))
    as (s1 & H1 & (s2 & H2) & H3).
  exists s1, s2. split; [exact H1|]. split; [exact H2|].
  apply H3; [discriminate|reflexivity].
Defined.

(* ================================================================== *)
(** ** Beyond the claims: a created user can log in *)

Section UsersInserted.
Variable engine_accepts : Statement -> bool.

Lemma insert_user_fresh nn s c s' row :
  insert_user engine_accepts nn s c = (s', inr row) ->
  users s' = users s ++ [row] /\ row = {| user_id := users_id_seq s; user_cols := c |}
  /\ username_taken (users s) (username c) = false
  /\ activity_logs s' = activity_logs s /\ agreements s' = agreements s.
Proof.
  unfold insert_user.
  destruct (engine_accepts (InsertUser c)); cbn [negb]; [|discriminate].
  destruct (nn c); cbn [negb]; [|discriminate].
  destruct (user_id_taken _ _); cbn [orb]; [discriminate|].
  destruct (username_taken _ _) eqn:E; [discriminate|].
  intros H. inversion H; subst. cbn. repeat split.
Qed.

Lemma insert_user_selected nn s c s' row u :
  insert_user engine_accepts nn s c = (s', inr row) ->
  username c = Some u ->
  select_user_by_username s' (Some u) = Some row /\ user_cols row = c.
Proof.
  intros H Hu. apply insert_user_fresh in H.
  destruct H as (Hus & Hrow & Hfree & _ & _).
  unfold select_user_by_username. rewrite Hus. split.
  - apply find_snoc_new.
    + rewrite <- Hu. exact Hfree.
    + rewrite Hrow. cbn. rewrite Hu. apply sql_text_eq_refl.
  - rewrite Hrow. reflexivity.
Qed.

Lemma insert_user_taken nn s c :
  engine_accepts (InsertUser c) = true -> nn c = true ->
  username_taken (users s) (username c) = true ->
  insert_user engine_accepts nn s c = (bump_users_seq s, inl UniqueViolation).
Proof.
  intros Hea Hnn Ht. unfold insert_user. rewrite Hea, Hnn, Ht, orb_true_r.
  reflexivity.
Qed.

End UsersInserted.

Lemma char_length_le (t : string) : (char_length t <= String.length t)%nat.
Proof.
  induction t as [|c t IH]; cbn [char_length String.length]; [apply Nat.le_refl|].
  destruct (is_continuation c); lia.
Qed.

(** The row [users] stores for a name of at most 50 characters and a hash
    of at most 255: name and hash as sent, the role as its column takes
    it. *)
Lemma stored_user_of (u h : string) (r : JsText) (c : UserCols) :
  (char_length u <= 50)%nat -> (String.length h <= 255)%nat ->
  Base64Rev.stored_user
    {| username := Some u; password := Some h; role := r;
       user_created_at := None; last_login := None |} = Some c ->
  exists r',
    varchar_col 20 r = Some r'
    /\ c = {| username := Some u; password := Some h; role := r';
              user_created_at := None; last_login := None |}.
Proof.
  intros Hu Hh. unfold Base64Rev.stored_user. cbn [username password role varchar_col
    user_created_at last_login].
  rewrite (varchar_fits 50 u Hu).
  rewrite (varchar_fits 255 h (Nat.le_trans _ _ _ (char_length_le h) Hh)).
  cbn [option_map]. destruct (varchar_col 20 r) as [r'|]; [|discriminate].
  intros H. inversion H; subst. exists r'. split; reflexivity.
Qed.

(** X7.  [POST /api/users] of [Base64Rev] and the login fit together.  When
    the route answers 201 for a name of at most 50 characters (the width of
    the column) and a password whose base64 form has at most 255, a login
    with that name and password succeeds as "Login successful", with the
    role as the column VARCHAR(20) took it; a second request for the same
    name that the engine takes is answered 409 and leaves the rows of the
    users table as they are. *)
Theorem Base64Rev_created_user_can_log_in :
  forall (ea : Statement -> bool) (s s1 : Store) (u p : string) (r : JsText)
         (a : Answer),
    str_truthy u = true -> str_truthy p = true ->
    (char_length u <= 50)%nat ->
    (String.length (Base64Rev.simpleHash p) <= 255)%nat ->
    Base64Rev.post_users ea s
      {| nu_username := Some u; nu_password := Some p; nu_role := r |} = (s1, a) ->
    answer_status a = 201 ->
    (exists s2 r',
        varchar_col 20 r = Some r'
        /\ Base64Rev.post_auth_login s1 (login_request u p)
           = (s2, respond 200
                    (BodyLogin "Login successful" (Some u) r'
                       "agreement-manager-token")))
    /\ forall p' r' c,
         ea (InsertUser {| username := Some u;
                           password := Some (Base64Rev.simpleHash p');
                           role := r'; user_created_at := None;
                           last_login := None |}) = true ->
         Base64Rev.stored_user
           {| username := Some u; password := Some (Base64Rev.simpleHash p');
              role := r'; user_created_at := None; last_login := None |} = Some c ->
         exists s2,
           Base64Rev.post_users ea s1
             {| nu_username := Some u; nu_password := Some p'; nu_role := r' |}
           = (s2, answer 409 (AnswerError "Username already exists"))
           /\ users s2 = users s1.
Proof.
  intros ea s s1 u p r a Hu Hp Hlen Hfits Hpost Hst.
  unfold Base64Rev.post_users, Base64Rev.insert_typed_user in Hpost.
  cbn [nu_username nu_password nu_role] in Hpost.
  destruct (Base64Rev.stored_user _) as [c|] eqn:Ec;
    [|inversion Hpost; subst; discriminate Hst].
  destruct (stored_user_of u _ r c Hlen Hfits Ec) as (r' & Hr & ->).
  destruct (insert_user _ no_user_not_null s _) as [s' [e|row]] eqn:E.
  - destruct (is_23505 e); inversion Hpost; subst; discriminate Hst.
  - inversion Hpost; subst s' a. clear Hpost Hst.
    destruct (insert_user_selected _ _ s _ s1 row u E eq_refl) as [Hsel Hcols].
    split.
    + eexists _, r'. split; [exact Hr|].
      rewrite (Base64Rev_login_accepts s1 u p row Hu Hp Hsel)
        by (rewrite Hcols; reflexivity).
      rewrite Hcols. reflexivity.
    + intros p' r2 c2 Hea Hc2. unfold Base64Rev.post_users, Base64Rev.insert_typed_user.
      cbn [nu_username nu_password nu_role]. rewrite Hc2.
      assert (Hname : username c2 = Some u).
      { unfold Base64Rev.stored_user in Hc2. cbn [username varchar_col] in Hc2.
        rewrite (varchar_fits 50 u Hlen) in Hc2. cbn [option_map] in Hc2.
        repeat match type of Hc2 with
               | match ?x with _ => _ end = _ => destruct x; try discriminate Hc2
               end.
        inversion Hc2; reflexivity. }
      rewrite (insert_user_taken _ no_user_not_null s1 c2 Hea eq_refl).
      * eexists. split; reflexivity.
      * rewrite Hname. unfold username_taken, select_user_by_username in *.
        apply find_some in Hsel. apply existsb_exists. exists row. exact Hsel.
Qed.

Lemma Base64Rev_created_user_can_log_in_witness :
  exists s2 r',
    varchar_col 20 (Some "agent") = Some r'
    /\ Base64Rev.post_auth_login
         (fst (Base64Rev.post_users accept_all hashed_bob_store
                 {| nu_username := Some "carol"; nu_password := Some "pw";
                    nu_role := Some "agent" |}))
         (login_request "carol" "pw")
       = (s2, respond 200
                (BodyLogin "Login successful" (Some "carol") r'
                   "agreement-manager-token")).
Proof.
  apply (proj1 (Base64Rev_created_user_can_log_in accept_all hashed_bob_store _
                  "carol" "pw" (Some "agent") _ eq_refl eq_refl
                  (proj1 (Nat.leb_le (char_length "carol") 50) eq_refl)
                  (proj1 (Nat.leb_le (String.length (Base64Rev.simpleHash "pw")) 255)
                     eq_refl)
                  eq_refl eq_refl)).
Defined.

(* ================================================================== *)
(** ** Beyond the claims: credentials of [PlainRev] *)

Lemma PlainRev_login_200 (s : Store) (u p : JsText) :
  text_truthy u = true -> text_truthy p = true ->
  existsb (fun r => sql_text_eq (username (user_cols r)) u
                    && sql_text_eq (password (user_cols r)) p) (users s) = true ->
  PlainRev.post_auth_login s u p = (s, respond 200 (BodyMessage "Login successful")).
Proof.
  intros Hu Hp H. unfold PlainRev.post_auth_login. rewrite Hu, Hp, H. reflexivity.
Qed.

Lemma PlainRev_login_401 (s : Store) (u p : JsText) :
  text_truthy u = true -> text_truthy p = true ->
  existsb (fun r => sql_text_eq (username (user_cols r)) u
                    && sql_text_eq (password (user_cols r)) p) (users s) = false ->
  PlainRev.post_auth_login s u p = (s, respond 401 (BodyError "Invalid credentials")).
Proof.
  intros Hu Hp H. unfold PlainRev.post_auth_login. rewrite Hu, Hp, H. reflexivity.
Qed.

Lemma text_truthy_eq (v : JsText) : text_truthy v = true -> sql_text_eq v v = true.
Proof. destruct v as [x|]; [intros _; apply sql_text_eq_refl | discriminate]. Qed.

Lemma sql_text_eq_eq (a b : option string) : sql_text_eq a b = true -> a = b.
Proof.
  destruct a, b; cbn; try discriminate. intros H. apply String.eqb_eq in H.
  congruence.
Qed.

(** X8.  Credentials of [PlainRev] round trip.  When [POST /api/users]
    answers 200, a login with the name and password that were sent is
    answered 200.  When [PUT /api/users/change-password] answers 200, a
    login with the new password is answered 200 and a login with the old
    password, if it differs from the new one, is answered 401. *)
Theorem PlainRev_credentials_round_trip :
  forall (ea : Statement -> bool) (s : Store),
    (forall b s1 a,
        PlainRev.post_users ea s b = (s1, a) -> answer_status a = 200 ->
        PlainRev.post_auth_login s1 (nu_username b) (nu_password b)
        = (s1, respond 200 (BodyMessage "Login successful")))
    /\ (forall b s1 r,
          PlainRev.put_users_change_password s b = (s1, r) -> status r = 200 ->
          PlainRev.post_auth_login s1 (pc_username b) (pc_newPassword b)
          = (s1, respond 200 (BodyMessage "Login successful"))
          /\ (pc_currentPassword b <> pc_newPassword b ->
              PlainRev.post_auth_login s1 (pc_username b) (pc_currentPassword b)
              = (s1, respond 401 (BodyError "Invalid credentials")))).
Proof.
  intros ea s. split.
  - intros b s1 a Hpost Hst. unfold PlainRev.post_users in Hpost.
    destruct (text_truthy (nu_username b)) eqn:Hu; cbn [negb orb] in Hpost;
      [|inversion Hpost; subst; discriminate Hst].
    destruct (text_truthy (nu_password b)) eqn:Hp; cbn [negb orb] in Hpost;
      [|inversion Hpost; subst; discriminate Hst].
    destruct (insert_user ea users_not_null s _) as [s' [e|row]] eqn:E;
      inversion Hpost; subst; [discriminate Hst|].
    apply insert_user_fresh in E. destruct E as (Hus & Hrow & _).
    apply PlainRev_login_200; auto.
    rewrite Hus, existsb_app. apply orb_true_iff. right.
    rewrite Hrow. cbn. rewrite !text_truthy_eq by assumption. reflexivity.
  - intros b s1 r Hput Hst. unfold PlainRev.put_users_change_password in Hput.
    destruct (text_truthy (pc_username b)) eqn:Hu; cbn [negb orb] in Hput;
      [|inversion Hput; subst; discriminate Hst].
    destruct (text_truthy (pc_currentPassword b)) eqn:Hc; cbn [negb orb] in Hput;
      [|inversion Hput; subst; discriminate Hst].
    destruct (text_truthy (pc_newPassword b)) eqn:Hn; cbn [negb orb] in Hput;
      [|inversion Hput; subst; discriminate Hst].
    destruct (existsb _ (users s)) eqn:Hex; cbn [negb] in Hput;
      inversion Hput; subst; [clear Hput Hst|discriminate Hst].
    apply existsb_exists in Hex. destruct Hex as (row & Hin & Hrow).
    apply andb_true_iff in Hrow. destruct Hrow as [Hname _].
    split.
    + apply PlainRev_login_200; auto.
      apply existsb_exists.
      unfold update_password_by_username. cbn [users set_users].
      eexists. split; [apply in_map, Hin|]. cbv beta. rewrite Hname. cbn.
      rewrite Hname, text_truthy_eq by assumption. reflexivity.
    + intros Hne. apply PlainRev_login_401; auto.
      apply existsb_false. intros x Hx.
      unfold update_password_by_username in Hx. cbn [users set_users] in Hx.
      apply in_map_iff in Hx. destruct Hx as (y & <- & _).
      destruct (sql_text_eq (username (user_cols y)) (pc_username b)) eqn:Ey.
      * cbn. rewrite Ey. cbn [andb].
        destruct (sql_text_eq (pc_newPassword b) (pc_currentPassword b)) eqn:Eq;
          [|reflexivity].
        apply sql_text_eq_eq in Eq. congruence.
      * rewrite Ey. reflexivity.
Qed.

Lemma PlainRev_credentials_round_trip_witness :
  PlainRev.post_auth_login
    (fst (PlainRev.put_users_change_password plain_admin_store
            {| pc_username := Some "admin"; pc_currentPassword := Some "admin123";
               pc_newPassword := Some "s3cret!" |}))
    (Some "admin") (Some "admin123")
  = (fst (PlainRev.put_users_change_password plain_admin_store
            {| pc_username := Some "admin"; pc_currentPassword := Some "admin123";
               pc_newPassword := Some "s3cret!" |}),
     respond 401 (BodyError "Invalid credentials")).
Proof.
  apply (proj2 (proj2 (PlainRev_credentials_round_trip accept_all plain_admin_store)
                  {| pc_username := Some "admin"; pc_currentPassword := Some "admin123";
                     pc_newPassword := Some "s3cret!" |} _ _ eq_refl eq_refl)).
  discriminate.
Defined.

(* ================================================================== *)
(** ** Beyond the claims: the session token of [BcryptRev] *)

Lemma split_space_no_space (t : string) :
  has_space t = false -> split_space t = [t].
Proof.
  induction t as [|c t IH]; cbn [has_space split_space]; [reflexivity|].
  intros H. apply orb_false_elim in H. destruct H as [Hc Ht].
  rewrite Hc, (IH Ht). reflexivity.
Qed.

Lemma split_space_app (w r : string) :
  has_space w = false ->
  split_space (w ++ String " " r)%string = w :: split_space r.
Proof.
  induction w as [|c w IH]; cbn [has_space split_space String.append].
  - intros _. reflexivity.
  - intros H. apply orb_false_elim in H. destruct H as [Hc Hw].
    rewrite Hc, (IH Hw). reflexivity.
Qed.

(** The header is read by position: the word before the first space is
    not looked at. *)
Lemma bearer_token_second_word (scheme t : string) :
  has_space scheme = false -> has_space t = false -> str_truthy t = true ->
  bearer_token (Some (scheme ++ " " ++ t)%string) = Some t.
Proof.
  intros Hs Ht Hne. unfold bearer_token.
  change (scheme ++ " " ++ t)%string with (scheme ++ String " " t)%string.
  rewrite (split_space_app scheme t Hs), (split_space_no_space t Ht).
  cbn [nth_error]. rewrite Hne.
  destruct scheme; reflexivity.
Qed.

(** X9.  The token of a login opens the protected routes of [BcryptRev]
    for the user who logged in.  When the login answers 200, the token in
    the answer is the signature of the id, name and role in the answer; if
    that token verifies and is a single word, then a request that carries
    it as the second word of its Authorization header passes
    [authenticateToken] as that user, whatever the first word, and passes
    [checkAdmin] exactly when the role in the answer is 'admin'. *)
Theorem BcryptRev_login_token_opens_routes :
  forall (cmp : string -> string -> bool) (sign : TokenUser -> string)
         (verify : string -> option TokenUser) (s s1 : Store) (req : Request)
         (b : BcryptRev.LoginRequest) (msg : string) (id : Z) (u r : option string)
         (t : string),
    BcryptRev.post_auth_login cmp sign s req b
    = (s1, respond 200 (BodyJwtLogin msg id u r t)) ->
    verify t = Some {| tu_id := id; tu_username := u; tu_role := r |} ->
    has_space t = false -> str_truthy t = true ->
    t = sign {| tu_id := id; tu_username := u; tu_role := r |}
    /\ forall (scheme : string) (s' : Store) (i : option string)
              (h : TokenUser -> Store * Response),
         has_space scheme = false ->
         BcryptRev.protected verify s'
           {| authorization := Some (scheme ++ " " ++ t)%string; ip := i |} h
         = h {| tu_id := id; tu_username := u; tu_role := r |}
         /\ BcryptRev.admin_only verify s'
              {| authorization := Some (scheme ++ " " ++ t)%string; ip := i |} h
            = if sql_text_eq r (Some "admin")
              then h {| tu_id := id; tu_username := u; tu_role := r |}
              else (s', respond 403 (BodyError "Forbidden: Admin access required")).
Proof.
  intros cmp sign verify s s1 req b msg id u r t Hlogin Hver Hsp Hne. split.
  - unfold BcryptRev.post_auth_login in Hlogin.
    destruct (_ || _); [discriminate Hlogin|].
    destruct (select_user_by_username s _) as [row|]; [|discriminate Hlogin].
    destruct (password (user_cols row)) as [hash|]; [|discriminate Hlogin].
    destruct (negb _); [discriminate Hlogin|].
    inversion Hlogin; subst. reflexivity.
  - intros scheme s' i h Hscheme.
    unfold BcryptRev.admin_only, BcryptRev.protected, BcryptRev.authenticateToken.
    cbn [authorization].
    rewrite (bearer_token_second_word scheme t Hscheme Hsp Hne), Hver.
    split; [reflexivity|].
    unfold BcryptRev.checkAdmin. cbn [tu_role].
    destruct (sql_text_eq r (Some "admin")); reflexivity.
Qed.

(** The admin logs in, and the token is sent under the scheme "Token". *)
Lemma BcryptRev_login_token_opens_routes_witness :
  BcryptRev.admin_only toy_verify_name three_users_store
    {| authorization := Some "Token jwt.admin"; ip := None |}
    (echo_handler three_users_store)
  = (three_users_store, respond 200 (BodyMessage "admin")).
Proof.
  apply (proj2 (proj2 (BcryptRev_login_token_opens_routes toy_compare toy_sign_name
                         toy_verify_name hashed_admin_store _ anonymous
                         {| BcryptRev.req_username := Some "admin";
                            BcryptRev.req_password := Some "admin123" |}
                         _ _ _ _ _ eq_refl eq_refl eq_refl eq_refl)
                  "Token" three_users_store None (echo_handler three_users_store)
                  eq_refl)).
Defined.

(* ================================================================== *)
(** ** Beyond the claims: credentials of [BcryptRev] *)

Lemma select_by_name_of_id (l : list UserRow) (n : Z) (row : UserRow) (u : string) :
  user_keys_ok l ->
  find (fun r => user_id r =? n) l = Some row ->
  username (user_cols row) = Some u ->
  find (fun r => sql_text_eq (username (user_cols r)) (Some u)) l = Some row.
Proof.
  induction l as [|r l IH]; cbn [user_keys_ok find]; [discriminate|].
  intros (_ & Hname & Hl) Hfind Hu.
  destruct (user_id r =? n).
  - inversion Hfind; subst. rewrite Hu, sql_text_eq_refl. reflexivity.
  - destruct (sql_text_eq (username (user_cols r)) (Some u)) eqn:E.
    + exfalso. apply sql_text_eq_eq in E. rewrite E in Hname.
      unfold username_taken in Hname. rewrite existsb_false in Hname.
      apply find_some in Hfind. destruct Hfind as [Hin _].
      specialize (Hname row Hin). rewrite Hu, sql_text_eq_refl in Hname.
      discriminate Hname.
    + apply IH; assumption.
Qed.

Lemma select_after_password_update_by_id (s : Store) (n : Z) (h u : string)
    (row : UserRow) :
  user_keys_ok (users s) ->
  select_user_by_id s n = Some row ->
  username (user_cols row) = Some u ->
  exists row1,
    select_user_by_username (update_password_by_id s (Some h) n) (Some u) = Some row1
    /\ password (user_cols row1) = Some h
    /\ user_id row1 = user_id row
    /\ username (user_cols row1) = Some u
    /\ role (user_cols row1) = role (user_cols row).
Proof.
  unfold select_user_by_id, select_user_by_username, update_password_by_id.
  cbn [users set_users]. intros Hk Hsel Hu.
  rewrite find_map_preserved.
  - rewrite (select_by_name_of_id _ n row u Hk Hsel Hu). cbn [option_map].
    apply find_some in Hsel. destruct Hsel as [_ Hid]. rewrite Hid.
    eexists. split; [reflexivity|]. cbn. auto.
  - intros x. destruct (user_id x =? n); reflexivity.
Qed.

(** X10.  Credentials of [BcryptRev] round trip, for a [bcrypt.compare]
    that accepts a password against its own hash.  When [POST /api/users]
    answers 201, a login with the name and password that were sent is
    answered 200 with the role that was sent.  When
    [PUT /api/auth/change-password] answers 200 for the user of the token,
    a login under that user's name with the new password is answered 200,
    and a login with a password that [bcrypt.compare] rejects against the
    new hash is answered 401.  The user is found by id for the change and
    by name for the login; the two agree because names and ids are unique. *)
Theorem BcryptRev_credentials_round_trip :
  forall (ea : Statement -> bool) (cmp : string -> string -> bool)
         (hash : string -> string -> string) (sign : TokenUser -> string)
         (s : Store) (salt : string) (req : Request),
    (forall (u p r : string) (s1 : Store) (a : Answer),
        cmp p (hash p salt) = true ->
        BcryptRev.post_users ea hash s salt
          {| nu_username := Some u; nu_password := Some p; nu_role := Some r |}
        = (s1, a) ->
        answer_status a = 201 ->
        exists s2 id,
          BcryptRev.post_auth_login cmp sign s1 req
            {| BcryptRev.req_username := Some u; BcryptRev.req_password := Some p |}
          = (s2, respond 200
                   (BodyJwtLogin "Login successful" id (Some u) (Some r)
                      (sign {| tu_id := id; tu_username := Some u;
                               tu_role := Some r |}))))
    /\ (forall (user : TokenUser) (b : PasswordChange) (new u : string)
               (row : UserRow) (s1 : Store) (resp : Response),
          user_keys_ok (users s) ->
          select_user_by_id s (tu_id user) = Some row ->
          username (user_cols row) = Some u -> str_truthy u = true ->
          pc_newPassword b = Some new ->
          BcryptRev.put_auth_change_password cmp hash s user salt b = (s1, resp) ->
          status resp = 200 ->
          (cmp new (hash new salt) = true ->
           exists s2,
             BcryptRev.post_auth_login cmp sign s1 req
               {| BcryptRev.req_username := Some u;
                  BcryptRev.req_password := Some new |}
             = (s2, respond 200
                      (BodyJwtLogin "Login successful" (tu_id user) (Some u)
                         (role (user_cols row))
                         (sign {| tu_id := tu_id user; tu_username := Some u;
                                  tu_role := role (user_cols row) |}))))
          /\ (forall p, str_truthy p = true -> cmp p (hash new salt) = false ->
              BcryptRev.post_auth_login cmp sign s1 req
                {| BcryptRev.req_username := Some u; BcryptRev.req_password := Some p |}
              = (s1, respond 401 (BodyError "Invalid credentials")))).
Proof.
  intros ea cmp hash sign s salt req. split.
  - intros u p r s1 a Hcmp Hpost Hst. unfold BcryptRev.post_users in Hpost.
    cbn [nu_username nu_password nu_role] in Hpost.
    destruct (str_truthy u) eqn:Hu; cbn [negb orb] in Hpost;
      [|inversion Hpost; subst; discriminate Hst].
    destruct (str_truthy p) eqn:Hp; cbn [negb orb] in Hpost;
      [|inversion Hpost; subst; discriminate Hst].
    destruct (str_truthy r) eqn:Hr; cbn [negb orb] in Hpost;
      [|inversion Hpost; subst; discriminate Hst].
    destruct (insert_user ea users_not_null s _) as [s' [e|row]] eqn:E.
    + destruct (is_23505 e); inversion Hpost; subst; discriminate Hst.
    + inversion Hpost; subst s' a. clear Hpost Hst.
      destruct (insert_user_selected ea _ s _ s1 row u E eq_refl) as [Hsel Hcols].
      unfold BcryptRev.post_auth_login.
      cbn [BcryptRev.req_username BcryptRev.req_password text_truthy template].
      rewrite Hu, Hp, Hsel, Hcols. cbn [negb orb password username role].
      rewrite Hcmp. cbn [negb]. eexists _, _. reflexivity.
  - intros user b new u row s1 resp Hk Hsel Hname Hu Hnew Hput Hst.
    unfold BcryptRev.put_auth_change_password in Hput. rewrite Hnew in Hput.
    destruct (pc_currentPassword b) as [cur|];
      [|inversion Hput; subst; discriminate Hst].
    destruct (str_truthy cur); cbn [negb orb] in Hput;
      [|inversion Hput; subst; discriminate Hst].
    destruct (str_truthy new) eqn:Hn; cbn [negb orb] in Hput;
      [|inversion Hput; subst; discriminate Hst].
    rewrite Hsel in Hput.
    destruct (password (user_cols row)) as [old|];
      [|inversion Hput; subst; discriminate Hst].
    destruct (negb _); inversion Hput; subst; [discriminate Hst|]. clear Hput Hst.
    destruct (select_after_password_update_by_id s (tu_id user) (hash new salt) u row
                Hk Hsel Hname) as (row1 & Hsel1 & Hpw1 & Hid1 & Hname1 & Hrole1).
    apply find_some in Hsel. destruct Hsel as [_ Hid]. apply Z.eqb_eq in Hid.
    split.
    + intros Hcmp. unfold BcryptRev.post_auth_login.
      cbn [BcryptRev.req_username BcryptRev.req_password text_truthy template].
      rewrite Hu, Hn. cbn [negb orb]. rewrite Hsel1, Hpw1, Hcmp.
      cbn [negb]. rewrite Hid1, Hname1, Hrole1, Hid. eexists. reflexivity.
    + intros p Hp Hcmp. unfold BcryptRev.post_auth_login.
      cbn [BcryptRev.req_username BcryptRev.req_password text_truthy template].
      rewrite Hu, Hp. cbn [negb orb]. rewrite Hsel1, Hpw1, Hcmp. reflexivity.
Qed.

(** The admin of a three-user table changes the password and logs in. *)
Lemma BcryptRev_credentials_round_trip_witness :
  exists s2,
    BcryptRev.post_auth_login toy_compare toy_sign_name
      (fst (BcryptRev.put_auth_change_password toy_compare toy_hash three_users_store
              admin_token "salt"
              {| pc_username := None; pc_currentPassword := Some "admin123";
                 pc_newPassword := Some "n3w" |}))
      anonymous
      {| BcryptRev.req_username := Some "admin"; BcryptRev.req_password := Some "n3w" |}
    = (s2, respond 200
             (BodyJwtLogin "Login successful" 1 (Some "admin") (Some "admin")
                "jwt.admin")).
Proof.
  refine (proj1 (proj2 (BcryptRev_credentials_round_trip accept_all toy_compare
                          toy_hash toy_sign_name three_users_store "salt" anonymous)
                   admin_token
                   {| pc_username := None; pc_currentPassword := Some "admin123";
                      pc_newPassword := Some "n3w" |}
                   "n3w" "admin" (user_row 1 "admin" (toy_digest "admin123") "admin")
                   _ _ _ eq_refl eq_refl eq_refl eq_refl eq_refl eq_refl) eq_refl).
  cbn. repeat split.
Defined.

(* ================================================================== *)
(** ** Beyond the claims: the guards of [DELETE /api/users/:id] and the
       spelling of the id *)

Lemma digit_is_plain (c : ascii) :
  is_digit c = true ->
  is_space c = false /\ (forall b, js_space_2 c b = false)
  /\ (forall b d, js_space_3 c b d = false)
  /\ read_sign (String c "") = (false, String c "")
  /\ Ascii.eqb c "_"%char = false
  /\ (forall x, is_digit x = true ->
       (Ascii.eqb c "0"%char
        && (Ascii.eqb x "x"%char || Ascii.eqb x "X"%char) = false)
       /\ (Ascii.eqb c "0"%char
           && (Ascii.eqb x "o"%char || Ascii.eqb x "O"%char) = false)
       /\ (Ascii.eqb c "0"%char
           && (Ascii.eqb x "b"%char || Ascii.eqb x "B"%char) = false)).
Proof.
  destruct c as [[|] [|] [|] [|] [|] [|] [|] [|]]; intros H; try discriminate H;
    (split; [reflexivity|]); (split; [intros b; reflexivity|]);
    (split; [intros b d; reflexivity|]); (split; [reflexivity|]);
    (split; [reflexivity|]); intros x Hx;
    destruct x as [[|] [|] [|] [|] [|] [|] [|] [|]]; try discriminate Hx;
    repeat split.
Qed.

Lemma read_literal_digits (s : string) : forall (moved : bool) (acc : Z),
  all_digits s = true ->
  read_literal is_digit digit_value 10 moved acc s
  = Some (fst (read_digits acc s), EmptyString,
          match s with EmptyString => moved | _ => true end).
Proof.
  induction s as [|c s IH]; intros moved acc H; cbn [read_literal read_digits fst];
    [reflexivity|].
  cbn [all_digits] in H. apply andb_true_iff in H. destruct H as [Hc Hs].
  rewrite Hc, (IH true _ Hs). destruct s; reflexivity.
Qed.

(** A parameter that is decimal digits and nothing else is read alike by
    [parseInt] and by the engine. *)
Lemma digits_read_alike (id : string) (n : Z) :
  only_digits id = true -> int4_in id = Some n -> parseInt10 id = Some n.
Proof.
  destruct id as [|c r]; [discriminate 1|]. intros H.
  cbn [only_digits] in H.
  pose proof H as H0. cbn [all_digits] in H0.
  apply andb_true_iff in H0. destruct H0 as [Hc Hr].
  destruct (digit_is_plain c Hc) as (Hsp & Hj2 & Hj3 & Hsign & Hus & Hprefix).
  assert (Hsign' : read_sign (String c r) = (false, String c r)).
  { unfold read_sign in *. destruct (Ascii.eqb c "-"%char); [discriminate Hsign|].
    destruct (Ascii.eqb c "+"%char); [discriminate Hsign|]. reflexivity. }
  assert (Hint : read_integer (String c r)
                 = read_literal is_digit digit_value 10 false 0 (String c r)).
  { unfold read_integer. destruct r as [|x r'].
    - cbn [starts_with_digit]. rewrite Hc. reflexivity.
    - cbn [all_digits] in Hr. apply andb_true_iff in Hr. destruct Hr as [Hx _].
      destruct (Hprefix x Hx) as (-> & -> & ->). rewrite Hc. reflexivity. }
  unfold int4_in, parseInt10.
  assert (Hskip : skip_spaces (String c r) = String c r)
    by (cbn [skip_spaces]; rewrite Hsp; reflexivity).
  assert (Hskip' : skip_js_spaces (String c r) = String c r).
  { cbn [skip_js_spaces]. rewrite Hsp. destruct r as [|b r1]; [reflexivity|].
    rewrite Hj2. destruct r1 as [|d r2]; [reflexivity|]. rewrite Hj3. reflexivity. }
  rewrite Hskip, Hskip', Hsign', Hint, (read_literal_digits _ false 0 H).
  cbn [starts_with_digit skip_spaces]. rewrite Hc.
  destruct (read_digits 0 (String c r)) as [v rest]. cbn [fst].
  destruct (_ && _); [|discriminate]. auto.
Qed.

(** X11.  The guard of [BcryptRev] against deleting one's own account reads
    the route parameter with [parseInt(id, 10)], and the engine reads it
    again by its own rules.  A parameter that [parseInt] reads as the
    caller's id is answered 400 and changes nothing.  Any other parameter
    that the engine reads as an id is answered 204, no row of that id is
    left and the other rows stay.  The two readings agree on a parameter
    that is decimal digits only, so for those the caller's row always
    stays; they differ on the hexadecimal spelling of the id (an engine
    that reads [0x3] as 3, where [parseInt] reads 0), and such a request
    removes the caller's own row. *)
Theorem BcryptRev_self_delete_guard_reads_by_parseInt :
  forall (s : Store) (user : TokenUser) (id : string),
    (parseInt10 id = Some (tu_id user) ->
     BcryptRev.delete_users_id s user id
     = (s, respond 400 (BodyError "Admin cannot delete their own account.")))
    /\ (forall n, parseInt10 id <> Some (tu_id user) -> int4_in id = Some n ->
          exists s',
            BcryptRev.delete_users_id s user id = (s', respond 204 BodyNone)
            /\ user_id_taken (users s') n = false
            /\ forall row, In row (users s) -> user_id row <> n -> In row (users s'))
    /\ (only_digits id = true ->
        forall row, In row (users s) -> user_id row = tu_id user ->
                    In row (users (fst (BcryptRev.delete_users_id s user id)))).
Proof.
  intros s user id.
  assert (Hown : parseInt10 id <> Some (tu_id user) ->
                 BcryptRev.is_own_id id user = false).
  { unfold BcryptRev.is_own_id. destruct (parseInt10 id) as [m|]; [|reflexivity].
    intros Hne. apply Z.eqb_neq. congruence. }
  assert (Hdel : forall n,
             user_id_taken (users (fst (delete_user_by_id s n))) n = false
             /\ forall row, In row (users s) -> user_id row <> n ->
                            In row (users (fst (delete_user_by_id s n)))).
  { intros n. cbn [fst delete_user_by_id users set_users]. split.
    - unfold user_id_taken. apply existsb_false. intros x Hx.
      apply filter_In in Hx. destruct Hx as [_ Hx].
      apply negb_true_iff in Hx. exact Hx.
    - intros row Hin Hrow. apply filter_In. split; [exact Hin|].
      apply negb_true_iff, Z.eqb_neq. exact Hrow. }
  unfold BcryptRev.delete_users_id. split; [|split].
  - intros Hp. unfold BcryptRev.is_own_id. rewrite Hp, Z.eqb_refl. reflexivity.
  - intros n Hne Hn. rewrite (Hown Hne), Hn. eexists. split; [reflexivity|].
    apply Hdel.
  - intros Hd row Hin Hid.
    destruct (BcryptRev.is_own_id id user) eqn:E; cbn [fst]; [exact Hin|].
    destruct (int4_in id) as [n|] eqn:En; cbn [fst]; [|exact Hin].
    apply (proj2 (Hdel n)); [exact Hin|].
    unfold BcryptRev.is_own_id in E. rewrite (digits_read_alike id n Hd En) in E.
    apply Z.eqb_neq in E. congruence.
Qed.

(** The second admin, whose id is 3, asks for the deletion of "0x3". *)
Lemma BcryptRev_self_delete_guard_reads_by_parseInt_witness :
  exists s',
    BcryptRev.delete_users_id three_users_store ram_token "0x3"
    = (s', respond 204 BodyNone)
    /\ user_id_taken (users s') (tu_id ram_token) = false.
Proof.
  destruct (proj1 (proj2 (BcryptRev_self_delete_guard_reads_by_parseInt
                            three_users_store ram_token "0x3")) 3)
    as (s' & H & Hgone & _).
  - discriminate.
  - reflexivity.
  - exists s'. split; [exact H | exact Hgone].
Defined.

(** X12.  The guard of [Base64Rev] for the primary admin compares the text
    of the route parameter with '1': of the parameters the engine reads as
    the id 1, the text "1" is answered 403 and changes nothing, and every
    other one is answered 200 and leaves no user of id 1. *)
Theorem Base64Rev_admin_guard_is_by_spelling :
  forall (s : Store) (id : string),
    int4_in id = Some 1 -> user_id_taken (users s) 1 = true ->
    (id = "1" ->
     Base64Rev.delete_users_id s id
     = (s, respond 403 (BodyError "Cannot delete the primary admin account.")))
    /\ (id <> "1" ->
        exists s' row,
          Base64Rev.delete_users_id s id
          = (s', respond 200
                   (BodyMessage ("User '" ++ template_null (username (user_cols row))
                                   ++ "' deleted successfully.")))
          /\ In row (users s) /\ user_id row = 1
          /\ user_id_taken (users s') 1 = false).
Proof.
  intros s id Hid Htaken. unfold Base64Rev.delete_users_id. split.
  - intros ->. reflexivity.
  - intros Hne. destruct (String.eqb_spec id "1") as [Heq|_]; [contradiction|].
    rewrite Hid. unfold delete_user_by_id.
    unfold user_id_taken in Htaken. apply existsb_exists in Htaken.
    destruct Htaken as (row & Hin & Hrow).
    destruct (filter (fun r => user_id r =? 1) (users s)) as [|r rest] eqn:E.
    + exfalso. assert (Hf : In row (filter (fun r => user_id r =? 1) (users s))).
      { apply filter_In. split; assumption. }
      rewrite E in Hf. destruct Hf.
    + assert (Hr : In r (filter (fun r => user_id r =? 1) (users s))).
      { rewrite E. left. reflexivity. }
      apply filter_In in Hr. destruct Hr as [Hrin Hrid].
      exists (set_users s (filter (fun r => negb (user_id r =? 1)) (users s))), r.
      split; [reflexivity|]. split; [exact Hrin|].
      split; [apply Z.eqb_eq, Hrid|].
      cbn [users set_users]. unfold user_id_taken. apply existsb_false.
      intros x Hx. apply filter_In in Hx. destruct Hx as [_ Hx].
      apply negb_true_iff in Hx. exact Hx.
Qed.

Lemma Base64Rev_admin_guard_is_by_spelling_witness :
  exists s' row,
    Base64Rev.delete_users_id three_users_store "+1"
    = (s', respond 200
             (BodyMessage ("User '" ++ template_null (username (user_cols row))
                             ++ "' deleted successfully.")))
    /\ In row (users three_users_store) /\ user_id row = 1
    /\ user_id_taken (users s') 1 = false.
Proof.
  apply (proj2 (Base64Rev_admin_guard_is_by_spelling three_users_store "+1"
                  eq_refl eq_refl)).
  discriminate.
Defined.

(* ================================================================== *)
(** ** Beyond the claims: a restore that succeeds ([Base64Rev]) *)

Section RestoreAll.
Variable engine_accepts : Statement -> bool.
Variable decimal : nat -> nat -> SqlValue -> SqlValue.
Variable date_in : string -> string.

Lemma restore_agreements_all (cs : list AgreementCols) : forall rows s,
  Forall2 (fun c row => Base64Rev.stored_agreement decimal date_in c = Some row)
    cs rows ->
  Forall (fun r => agreement_id r < agreements_id_seq s) (agreements s) ->
  Forall (fun c => engine_accepts (InsertAgreement c) = true) cs ->
  Forall (fun row => Base64Rev.not_null row = true
                     /\ token_taken (agreements s) (token_number row) = false)
    rows ->
  tokens_distinct rows ->
  exists s',
    Base64Rev.restore_agreements engine_accepts decimal date_in s cs = (s', None)
    /\ agreements s' = agreements s ++ numbered_from (agreements_id_seq s) rows
    /\ users s' = users s /\ activity_logs s' = activity_logs s.
Proof.
  induction cs as [|c cs IH]; intros rows s H2 Hids Hcs Hrows Hd;
    inversion H2 as [|c0 r0 cs0 rows0 Hst H2']; subst;
    cbn [Base64Rev.restore_agreements].
  - exists s. cbn [numbered_from]. rewrite app_nil_r. auto.
  - inversion Hcs as [|c1 cs1 Hea Hrest]; subst.
    inversion Hrows as [|r1 rows1 (Hnn & Htok) Hrows']; subst.
    destruct Hd as [Hc Hd].
    unfold Base64Rev.insert_typed. rewrite Hst.
    unfold insert_agreement. cbn beta. rewrite Hea, Hnn, Htok. cbn [negb].
    assert (Hfree : agreement_id_taken (agreements s) (agreements_id_seq s) = false).
    { unfold agreement_id_taken. apply existsb_false. intros x Hx.
      rewrite Forall_forall in Hids. specialize (Hids x Hx).
      apply Z.eqb_neq. lia. }
    rewrite Hfree. cbn [orb].
    set (row := {| agreement_id := agreements_id_seq s; agreement_cols := r0 |}).
    destruct (IH rows0 (set_agreements (bump_agreements_seq s) (agreements s ++ [row])))
      as (s' & Hins & Hags & Hus & Hlog).
    + exact H2'.
    + cbn. apply Forall_app. split.
      * eapply Forall_impl; [|exact Hids]. cbn. intros; lia.
      * constructor; [cbn; lia|constructor].
    + exact Hrest.
    + rewrite Forall_forall in Hrows' |- *. intros x Hx.
      destruct (Hrows' x Hx) as (Hxn & Hxt).
      split; [exact Hxn|].
      cbn [agreements set_agreements]. unfold token_taken in *.
      rewrite existsb_app, Hxt. cbn [existsb agreement_cols row orb].
      rewrite orb_false_r, sql_text_eq_sym.
      rewrite existsb_false in Hc. apply Hc, Hx.
    + exact Hd.
    + exists s'. split; [exact Hins|]. rewrite Hags. cbn.
      rewrite <- app_assoc. cbn [app numbered_from]. auto.
Qed.

End RestoreAll.

(** X13.  A restore of [Base64Rev] whose backup the engine takes, with the
    three required columns filled in, answers 200 with the number of
    agreements when no token number is twice among the rows as the columns
    store them (a text cut to the width of its column, a number brought to
    the scale of its column).  The table is then these stored rows in the
    order of the backup, and the ids are the next values of the sequence:
    the agreements that were stored are gone and no restored row keeps an
    id of its own. *)
Theorem Base64Rev_restore_replaces_and_renumbers :
  forall (ea : Statement -> bool) (decimal : nat -> nat -> SqlValue -> SqlValue)
         (date_in : string -> string) (s : Store)
         (b rows : list AgreementCols),
    Forall2 (fun c row => Base64Rev.stored_agreement decimal date_in c = Some row)
      b rows ->
    Forall (fun c => ea (InsertAgreement c) = true /\ Base64Rev.not_null c = true) b ->
    tokens_distinct rows ->
    exists s',
      Base64Rev.post_backup_restore ea decimal date_in s (Some b)
      = (s', respond 200 (BodyRestored "Backup restored successfully" (List.length b)))
      /\ agreements s' = numbered_from (agreements_id_seq s) rows
      /\ map agreement_cols (agreements s') = rows
      /\ users s' = users s /\ activity_logs s' = activity_logs s.
Proof.
  intros ea decimal date_in s b rows H2 Hb Hd.
  unfold Base64Rev.post_backup_restore.
  destruct (restore_agreements_all ea decimal date_in b rows (set_agreements s []))
    as (s' & Hins & Hags & Hus & Hlog).
  - exact H2.
  - constructor.
  - eapply Forall_impl; [|exact Hb]. cbn. intros c (Ha & Hn). exact Ha.
  - clear Hd. induction H2 as [|c row b rows Hst H2 IH]; constructor.
    + inversion Hb as [|c0 b0 (_ & Hn) Hb']; subst. split; [|reflexivity].
      rewrite (stored_agreement_not_null decimal date_in c row Hst). exact Hn.
    + apply IH. inversion Hb; assumption.
  - exact Hd.
  - rewrite Hins. exists s'. split; [reflexivity|]. cbn in Hags.
    split; [exact Hags|]. split; [|auto].
    rewrite Hags. clear. generalize (agreements_id_seq s).
    induction rows as [|c b IH]; intros k; cbn; [reflexivity|]. rewrite IH. reflexivity.
Qed.

(** A store whose one agreement has id 1 and whose sequence is at 2: the
    two restored agreements get the ids 2 and 3. *)
Lemma Base64Rev_restore_replaces_and_renumbers_witness :
  exists s',
    Base64Rev.post_backup_restore accept_all exact_decimal exact_date
      one_agreement_store
      (Some [sample_cols "A" "L1" "T-100"; sample_cols "B" "L2" "T-200"])
    = (s', respond 200 (BodyRestored "Backup restored successfully" 2))
    /\ map agreement_id (agreements s') = [2; 3].
Proof.
  destruct (Base64Rev_restore_replaces_and_renumbers accept_all exact_decimal
              exact_date one_agreement_store
              [sample_cols "A" "L1" "T-100"; sample_cols "B" "L2" "T-200"]
              [sample_cols "A" "L1" "T-100"; sample_cols "B" "L2" "T-200"])
    as (s' & H & Hags & _).
  - repeat constructor.
  - repeat constructor.
  - cbn. auto.
  - exists s'. split; [exact H|]. rewrite Hags. reflexivity.
Defined.

(* ================================================================== *)
(** ** Beyond the claims: the token check and the creation ([Base64Rev]) *)

(** X14.  [GET /api/agreements/check-token] of [Base64Rev] foretells
    [POST /api/agreements] for a body with owner, location and a token
    number of at most 100 characters (the width of the column, so that it
    is stored as sent), when the engine takes the parameters and the next
    id is free.  If the check says [unique: false], the creation is
    answered 409 and the table stays as it is; if it says [unique: true],
    the creation is answered 201 with the new row, which is the last of the
    table and holds the parameters as the columns store them, and the
    check then says [unique: false] for that token. *)
Theorem Base64Rev_check_token_foretells_create :
  forall (ea : Statement -> bool) (decimal : nat -> nat -> SqlValue -> SqlValue)
         (date_in : string -> string) (s : Store) (d : AgreementData)
         (t : string) (c : AgreementCols),
    text_truthy (ownerName d) = true -> text_truthy (location_ d) = true ->
    tokenNumber d = Some t -> str_truthy t = true -> (char_length t <= 100)%nat ->
    ea (InsertAgreement (Base64Rev.create_params d)) = true ->
    Base64Rev.stored_agreement decimal date_in (Base64Rev.create_params d) = Some c ->
    agreement_id_taken (agreements s) (agreements_id_seq s) = false ->
    exists (unique : bool) (s' : Store),
      Base64Rev.get_check_token s (tokenNumber d) = (s, answer 200 (AnswerUnique unique))
      /\ if unique then
           exists row,
             Base64Rev.post_agreements ea decimal date_in s d
             = (s', respond 201 (BodyAgreement (Some row)))
             /\ agreements s' = agreements s ++ [row]
             /\ agreement_cols row = c
             /\ token_number c = Some t
             /\ Base64Rev.get_check_token s' (tokenNumber d)
                = (s', answer 200 (AnswerUnique false))
         else
           Base64Rev.post_agreements ea decimal date_in s d
           = (s', respond 409 (BodyError "Token number already exists"))
           /\ agreements s' = agreements s.
Proof.
  intros ea decimal date_in s d t c Ho Hl Ht Htt Hlen Hea Hst Hid.
  assert (Ht' : text_truthy (tokenNumber d) = true) by (rewrite Ht; exact Htt).
  assert (Htok : token_number c = Some t).
  { destruct (stored_agreement_fields decimal date_in _ _ Hst) as (_ & _ & H & _).
    cbn [token_number Base64Rev.create_params] in H. rewrite Ht in H.
    cbn [varchar_col] in H. rewrite (varchar_fits 100 t Hlen) in H.
    cbn [option_map] in H. congruence. }
  unfold Base64Rev.get_check_token, Base64Rev.post_agreements,
    Base64Rev.insert_typed.
  rewrite Ho, Hl, Ht', Hst. cbn [negb orb].
  unfold insert_agreement. cbn beta. rewrite Hea, Hid. cbn [negb orb].
  rewrite (stored_agreement_not_null decimal date_in _ _ Hst),
    (Base64Rev_create_params_not_null d Ho Hl Ht'). cbn [negb].
  rewrite Htok, Ht.
  destruct (token_taken (agreements s) (Some t)) eqn:E; cbn [negb is_23505].
  - eexists false, _. split; [reflexivity|]. split; reflexivity.
  - eexists true, _. split; [reflexivity|]. eexists.
    split; [reflexivity|]. split; [reflexivity|]. split; [reflexivity|].
    split; [reflexivity|].
    cbn [agreements insert_log set_activity_logs set_agreements].
    unfold token_taken. rewrite existsb_app. cbn [existsb agreement_cols].
    rewrite Htok. cbn. rewrite String.eqb_refl, orb_true_r. reflexivity.
Qed.

Lemma Base64Rev_check_token_foretells_create_witness :
  Base64Rev.get_check_token t100_store (Some "T-100")
  = (t100_store, answer 200 (AnswerUnique false))
  /\ exists s',
       Base64Rev.post_agreements accept_all exact_decimal exact_date t100_store
         due_5_of_500
       = (s', respond 409 (BodyError "Token number already exists"))
       /\ agreements s' = agreements t100_store.
Proof.
  destruct (Base64Rev_check_token_foretells_create accept_all exact_decimal
              exact_date t100_store due_5_of_500 "T-100" _
              eq_refl eq_refl eq_refl eq_refl
              (proj1 (Nat.leb_le (char_length "T-100") 100) eq_refl)
              eq_refl eq_refl eq_refl) as (unique & s' & Hc & H).
  split; [reflexivity|].
  destruct unique; [|exists s'; exact H].
  exfalso. discriminate Hc.
Defined.

(** Beyond the width of the column the check and the creation part ways:
    the check compares the token as it was sent, the INSERT stores it cut,
    so a token that the check calls unique can still be answered 409. *)
Remark Base64Rev_check_token_reads_the_token_uncut
    (ea : Statement -> bool) (decimal : nat -> nat -> SqlValue -> SqlValue)
    (date_in : string -> string) (s : Store) (d : AgreementData)
    (c : AgreementCols) :
  text_truthy (ownerName d) = true -> text_truthy (location_ d) = true ->
  text_truthy (tokenNumber d) = true ->
  ea (InsertAgreement (Base64Rev.create_params d)) = true ->
  Base64Rev.stored_agreement decimal date_in (Base64Rev.create_params d) = Some c ->
  token_taken (agreements s) (tokenNumber d) = false ->
  token_taken (agreements s) (token_number c) = true ->
  Base64Rev.get_check_token s (tokenNumber d) = (s, answer 200 (AnswerUnique true))
  /\ exists s',
       Base64Rev.post_agreements ea decimal date_in s d
       = (s', respond 409 (BodyError "Token number already exists"))
       /\ agreements s' = agreements s.
Proof.
  intros Ho Hl Ht Hea Hst Hfree Htaken.
  unfold Base64Rev.get_check_token, Base64Rev.post_agreements,
    Base64Rev.insert_typed.
  rewrite Ho, Hl, Ht, Hst, Hfree. cbn [negb orb].
  unfold insert_agreement. cbn beta. rewrite Hea. cbn [negb].
  rewrite (stored_agreement_not_null decimal date_in _ _ Hst),
    (Base64Rev_create_params_not_null d Ho Hl Ht), Htaken, orb_true_r.
  cbn [negb is_23505]. split; [reflexivity|]. eexists. split; reflexivity.
Qed.

(* ================================================================== *)
(** ** Beyond the claims: update of an agreement that is not there *)





(* ================================================================== *)
(** ** Beyond the claims: the routes of [PlainRev] in their order *)

Lemma path_matches_check_token (path : list string) :
  PlainRev.path_matches
    [PlainRev.Lit "api"; PlainRev.Lit "agreements"; PlainRev.Lit "check-token"] path
  = true ->
  path = ["api"; "agreements"; "check-token"].
Proof.
  destruct path as [|a [|b [|c [|x rest]]]]; cbn [PlainRev.path_matches];
    try discriminate;
    try (intros H; apply andb_true_iff in H; destruct H as [_ H];
         try (apply andb_true_iff in H; destruct H as [_ H]); discriminate H).
  - intros H. apply andb_true_iff in H. destruct H as [Ha H].
    apply andb_true_iff in H. destruct H as [Hb H].
    apply andb_true_iff in H. destruct H as [Hc _].
    apply String.eqb_eq in Ha, Hb, Hc. subst. reflexivity.
  - intros H. apply andb_true_iff in H. destruct H as [_ H].
    apply andb_true_iff in H. destruct H as [_ H].
    apply andb_true_iff in H. destruct H as [_ H]. discriminate H.
Qed.

(** X16.  In [PlainRev] the route [/api/agreements/:id] is registered
    before [/api/agreements/check-token], so no GET path reaches the
    check-token handler: the path of the token check goes to the handler of
    an agreement by id, which passes the text 'check-token' to the engine as
    an id and answers 500, whatever the store holds. *)
Theorem PlainRev_check_token_is_shadowed :
  (forall path, PlainRev.dispatch_get path <> Some PlainRev.GetCheckToken)
  /\ PlainRev.dispatch_get ["api"; "agreements"; "check-token"]
     = Some PlainRev.GetAgreementsId
  /\ forall s, PlainRev.get_agreements_id s "check-token"
               = (s, respond 500 (BodyError "Error fetching agreement")).
Proof.
  split; [|split; [reflexivity|intros s; reflexivity]].
  intros path. unfold PlainRev.dispatch_get, PlainRev.get_routes. cbn [find fst].
  repeat match goal with
         | |- context [if PlainRev.path_matches ?p path then _ else _] =>
             let E := fresh "E" in
             destruct (PlainRev.path_matches p path) eqn:E;
             [cbn [option_map snd]; try discriminate|]
         end.
  - apply path_matches_check_token in E2. subst path. discriminate E1.
  - discriminate.
Qed.

(* ================================================================== *)
(** ** Beyond the claims: the activity log *)

Section LogsOfEngine.
Variable engine_accepts : Statement -> bool.

Lemma insert_agreement_logs nn s c :
  activity_logs (fst (insert_agreement engine_accepts nn s c)) = activity_logs s.
Proof.
  unfold insert_agreement.
  destruct (negb (engine_accepts _)); [reflexivity|].
  destruct (negb (nn c)); [reflexivity|].
  destruct (_ || _); reflexivity.
Qed.

Lemma insert_agreements_logs nn l : forall s,
  activity_logs (fst (insert_agreements engine_accepts nn s l)) = activity_logs s.
Proof.
  induction l as [|c l IH]; intros s; cbn [insert_agreements]; [reflexivity|].
  pose proof (insert_agreement_logs nn s c) as H.
  destruct (insert_agreement engine_accepts nn s c) as [s1 [e|row]]; cbn [fst] in *;
    [exact H|]. rewrite IH. exact H.
Qed.

Lemma update_agreement_logs nn merge s n c :
  activity_logs (fst (update_agreement engine_accepts nn merge s n c))
  = activity_logs s.
Proof.
  unfold update_agreement.
  destruct (negb (engine_accepts _)); [reflexivity|].
  destruct (find _ _); [|reflexivity].
  destruct (negb (nn _)); [reflexivity|].
  destruct (token_taken_by_other _ _ _); reflexivity.
Qed.

Lemma insert_user_logs nn s c :
  activity_logs (fst (insert_user engine_accepts nn s c)) = activity_logs s.
Proof.
  unfold insert_user.
  destruct (negb (engine_accepts _)); [reflexivity|].
  destruct (negb (nn c)); [reflexivity|].
  destruct (_ || _); reflexivity.
Qed.

End LogsOfEngine.

Section LogsOfTypedEngine.
Variable engine_accepts : Statement -> bool.
Variable decimal : nat -> nat -> SqlValue -> SqlValue.
Variable date_in : string -> string.

Lemma insert_typed_logs s c :
  activity_logs (fst (Base64Rev.insert_typed engine_accepts decimal date_in s c))
  = activity_logs s.
Proof.
  unfold Base64Rev.insert_typed.
  destruct (Base64Rev.stored_agreement _ _ c); [|reflexivity].
  apply insert_agreement_logs.
Qed.

Lemma restore_agreements_logs l : forall s,
  activity_logs
    (fst (Base64Rev.restore_agreements engine_accepts decimal date_in s l))
  = activity_logs s.
Proof.
  induction l as [|c l IH]; intros s; cbn [Base64Rev.restore_agreements];
    [reflexivity|].
  pose proof (insert_typed_logs s c) as H.
  destruct (Base64Rev.insert_typed _ _ _ s c) as [s1 [e|row]]; cbn [fst] in *;
    [exact H|]. rewrite IH. exact H.
Qed.

Lemma update_typed_logs s n c :
  activity_logs (fst (Base64Rev.update_typed engine_accepts decimal date_in s n c))
  = activity_logs s.
Proof.
  unfold Base64Rev.update_typed.
  destruct (Base64Rev.stored_agreement _ _ c); [|reflexivity].
  apply update_agreement_logs.
Qed.

Lemma insert_typed_user_logs s c :
  activity_logs (fst (Base64Rev.insert_typed_user engine_accepts s c))
  = activity_logs s.
Proof.
  unfold Base64Rev.insert_typed_user.
  destruct (Base64Rev.stored_user c); [|reflexivity].
  apply insert_user_logs.
Qed.

Lemma seed_users_logs l : forall s,
  activity_logs (Base64Rev.seed_users engine_accepts s l) = activity_logs s.
Proof.
  induction l as [|[[u p] r] l IH]; intros s; cbn [Base64Rev.seed_users];
    [reflexivity|].
  destruct p as [pw|]; [|apply IH].
  destruct (str_truthy pw); [|apply IH].
  match goal with
  | |- context [Base64Rev.insert_typed_user _ s ?c] =>
      pose proof (insert_typed_user_logs s c) as H;
      destruct (Base64Rev.insert_typed_user engine_accepts s c) as [s1 [e|row]]
  end; cbn [fst] in H; [exact H|]. rewrite IH. exact H.
Qed.

End LogsOfTypedEngine.

Lemma log_discipline_same (s s' : Store) (code : Z) :
  activity_logs s' = activity_logs s -> log_discipline s s' code.
Proof.
  intros H. split; [|intros _; exact H].
  exists []. rewrite app_nil_r. exact H.
Qed.

Lemma log_discipline_entry (s s' : Store) (code : Z) u a d i :
  activity_logs s' = activity_logs s -> code < 400 ->
  log_discipline s (insert_log s' u a d i) code.
Proof.
  intros H Hc. split; [|intros Hge; exfalso; lia].
  eexists. cbn. rewrite H. reflexivity.
Qed.

Ltac log_step :=
  first [ apply log_discipline_same; first [reflexivity | assumption]
        | apply log_discipline_entry;
          [first [reflexivity | assumption] | reflexivity] ].

(** X17.  The activity log under these routes: login, change of password,
    creation and deletion of a user, creation and update of an agreement
    and restore in [Base64Rev]; login, change of password, creation and
    deletion of a user, creation, update and deletion of an agreement in
    [PlainRev]; login, creation and deletion of a user, change of password,
    creation and update of an agreement in [BcryptRev]; login in
    [Argon2Rev].  A request to one of them adds entries at the end of the
    log or leaves it as it is, never removes or rewrites one, and a request
    answered with an error status (400 or above) adds none.  Two routes
    remove every entry: the restore of [PlainRev] when it succeeds, and
    [POST /api/debug/reset-db] of [Base64Rev], which drops the table and
    answers 200. *)
Theorem activity_log_only_grows :
  forall (pfs : string -> float) (ea : Statement -> bool)
         (cmp : string -> string -> bool) (hash : string -> string -> string)
         (sign : TokenUser -> string) (verify : string -> JsText -> option bool)
         (now : string) (s : Store),
    (forall req, let out := Base64Rev.post_auth_login s req in
                 log_discipline s (fst out) (status (snd out)))
    /\ (forall b, let out := Base64Rev.put_users_change_password s b in
                  log_discipline s (fst out) (status (snd out)))
    /\ (forall b, let out := Base64Rev.post_users ea s b in
                  log_discipline s (fst out) (answer_status (snd out)))
    /\ (forall decimal date_in d,
          let out := Base64Rev.post_agreements ea decimal date_in s d in
          log_discipline s (fst out) (status (snd out)))
    /\ (forall decimal date_in id d,
          let out := Base64Rev.put_agreements_id ea decimal date_in s id d in
          log_discipline s (fst out) (status (snd out)))
    /\ (forall id, let out := Base64Rev.delete_users_id s id in
                   log_discipline s (fst out) (status (snd out)))
    /\ (forall decimal date_in b,
          let out := Base64Rev.post_backup_restore ea decimal date_in s b in
          log_discipline s (fst out) (status (snd out)))
    /\ (forall u p, let out := PlainRev.post_auth_login s u p in
                    log_discipline s (fst out) (status (snd out)))
    /\ (forall b, let out := PlainRev.put_users_change_password s b in
                  log_discipline s (fst out) (status (snd out)))
    /\ (forall b, let out := PlainRev.post_users ea s b in
                  log_discipline s (fst out) (answer_status (snd out)))
    /\ (forall id, let out := PlainRev.delete_users_id s id in
                   log_discipline s (fst out) (status (snd out)))
    /\ (forall d, let out := PlainRev.post_agreements pfs ea s d in
                  log_discipline s (fst out) (status (snd out)))
    /\ (forall id d, let out := PlainRev.put_agreements_id pfs ea s id d in
                     log_discipline s (fst out) (status (snd out)))
    /\ (forall id, let out := PlainRev.delete_agreements_id s id in
                   log_discipline s (fst out) (status (snd out)))
    /\ (forall req b, let out := BcryptRev.post_auth_login cmp sign s req b in
                      log_discipline s (fst out) (status (snd out)))
    /\ (forall salt b, let out := BcryptRev.post_users ea hash s salt b in
                       log_discipline s (fst out) (answer_status (snd out)))
    /\ (forall user salt b,
          let out := BcryptRev.put_auth_change_password cmp hash s user salt b in
          log_discipline s (fst out) (status (snd out)))
    /\ (forall user id, let out := BcryptRev.delete_users_id s user id in
                        log_discipline s (fst out) (status (snd out)))
    /\ (forall req user d, let out := BcryptRev.post_agreements pfs ea s req user d in
                           log_discipline s (fst out) (status (snd out)))
    /\ (forall req user id d,
          let out := BcryptRev.put_agreements_id pfs ea s req user id d in
          log_discipline s (fst out) (status (snd out)))
    /\ (forall b, let out := Argon2Rev.post_auth_login verify sign now s b in
                  log_discipline s (fst out) (status (snd out)))
    /\ (forall b s',
          PlainRev.post_backup_restore ea now s b
          = (s', respond 200 (BodyMessage "Backup restored successfully")) ->
          activity_logs s' = [])
    /\ (forall env, let out := Base64Rev.post_debug_reset_db ea env s in
                    activity_logs (fst out) = []
                    /\ snd out = respond 200 (BodyMessage "Database reset successfully")).
Proof.
  intros pfs ea cmp hash sign verify now s.
  repeat match goal with |- _ /\ _ => split end; cbv zeta.
  - intros req. unfold Base64Rev.post_auth_login.
    destruct (Base64Rev.req_username req) as [u|], (Base64Rev.req_password req) as [p|];
      cbn [fst snd]; try log_step.
    destruct (_ || _); cbn [fst snd]; [log_step|].
    destruct (select_user_by_username s (Some u)); cbn [fst snd]; [|log_step].
    destruct (sql_text_eq _ _); cbn [fst snd]; [log_step|].
    destruct (Base64Rev.default_password_matches u p); cbn [fst snd]; log_step.
  - intros b. unfold Base64Rev.put_users_change_password.
    destruct (pc_username b) as [u|], (pc_currentPassword b) as [c|],
      (pc_newPassword b) as [n|]; cbn [fst snd]; try log_step.
    destruct (_ || _); cbn [fst snd]; [log_step|].
    destruct (select_user_by_username s (Some u)); cbn [fst snd]; [|log_step].
    destruct (negb _); cbn [fst snd]; [log_step|].
    destruct (_ <? _)%nat; cbn [fst snd]; log_step.
  - intros b. unfold Base64Rev.post_users.
    destruct (nu_password b) as [p|]; cbn [fst snd]; [|log_step].
    match goal with
    | |- context [Base64Rev.insert_typed_user ea s ?c] =>
        pose proof (insert_typed_user_logs ea s c) as H1;
        destruct (Base64Rev.insert_typed_user ea s c) as [s1 [e|row]]
    end; cbn [fst snd] in *; [destruct (is_23505 e)|]; cbn [fst snd]; log_step.
  - intros decimal date_in d. unfold Base64Rev.post_agreements.
    destruct (_ || _); cbn [fst snd]; [log_step|].
    match goal with
    | |- context [Base64Rev.insert_typed ea decimal date_in s ?c] =>
        pose proof (insert_typed_logs ea decimal date_in s c) as H1;
        destruct (Base64Rev.insert_typed ea decimal date_in s c) as [s1 [e|row]]
    end; cbn [fst snd] in *; [destruct (is_23505 e)|]; cbn [fst snd]; log_step.
  - intros decimal date_in id d. unfold Base64Rev.put_agreements_id.
    destruct (int4_in id) as [n|]; cbn [fst snd]; [|log_step].
    match goal with
    | |- context [Base64Rev.update_typed ea decimal date_in s n ?c] =>
        pose proof (update_typed_logs ea decimal date_in s n c) as H1;
        destruct (Base64Rev.update_typed ea decimal date_in s n c)
          as [s1 [e|[row|]]]
    end; cbn [fst snd] in *; log_step.
  - intros id. unfold Base64Rev.delete_users_id.
    destruct (String.eqb id "1"); cbn [fst snd]; [log_step|].
    destruct (int4_in id) as [n|]; cbn [fst snd]; [|log_step].
    unfold delete_user_by_id.
    destruct (filter (fun r => user_id r =? n) (users s)); cbn [fst snd]; log_step.
  - intros decimal date_in b. unfold Base64Rev.post_backup_restore.
    destruct b as [ags|]; cbn [fst snd]; [|log_step].
    pose proof (restore_agreements_logs ea decimal date_in ags (set_agreements s []))
      as H1.
    destruct (Base64Rev.restore_agreements _ _ _ _ _) as [s1 [e|]];
      cbn [fst snd] in *; log_step.
  - intros u p. unfold PlainRev.post_auth_login.
    destruct (_ || _); cbn [fst snd]; [log_step|].
    destruct (existsb _ _); cbn [fst snd]; log_step.
  - intros b. unfold PlainRev.put_users_change_password.
    destruct (_ || _); cbn [fst snd]; [log_step|].
    destruct (negb _); cbn [fst snd]; log_step.
  - intros b. unfold PlainRev.post_users.
    destruct (_ || _); cbn [fst snd]; [log_step|].
    match goal with
    | |- context [insert_user ea ?nn s ?c] =>
        pose proof (insert_user_logs ea nn s c) as H1;
        destruct (insert_user ea nn s c) as [s1 [e|row]]
    end; cbn [fst snd] in *; log_step.
  - intros id. unfold PlainRev.delete_users_id.
    destruct (int4_in id) as [n|]; cbn [fst snd]; log_step.
  - intros d. unfold PlainRev.post_agreements.
    match goal with
    | |- context [insert_agreement ea ?nn s ?c] =>
        pose proof (insert_agreement_logs ea nn s c) as H1;
        destruct (insert_agreement ea nn s c) as [s1 [e|row]]
    end; cbn [fst snd] in *; log_step.
  - intros id d. unfold PlainRev.put_agreements_id.
    destruct (int4_in id) as [n|]; cbn [fst snd]; [|log_step].
    match goal with
    | |- context [update_agreement ea ?nn ?m s n ?c] =>
        pose proof (update_agreement_logs ea nn m s n c) as H1;
        destruct (update_agreement ea nn m s n c) as [s1 [e|[row|]]]
    end; cbn [fst snd] in *; log_step.
  - intros id. unfold PlainRev.delete_agreements_id.
    destruct (int4_in id) as [n|]; cbn [fst snd]; log_step.
  - intros req b. unfold BcryptRev.post_auth_login.
    destruct (_ || _); cbn [fst snd]; [log_step|].
    destruct (select_user_by_username s _) as [user|]; cbn [fst snd]; [|log_step].
    destruct (password (user_cols user)); cbn [fst snd]; [|log_step].
    destruct (negb _); cbn [fst snd]; log_step.
  - intros salt b. unfold BcryptRev.post_users.
    destruct (nu_username b) as [u|], (nu_password b) as [p|], (nu_role b) as [r|];
      cbn [fst snd]; try log_step.
    destruct (_ || _); cbn [fst snd]; [log_step|].
    match goal with
    | |- context [insert_user ea ?nn s ?c] =>
        pose proof (insert_user_logs ea nn s c) as H1;
        destruct (insert_user ea nn s c) as [s1 [e|row]]
    end; cbn [fst snd] in *; [destruct (is_23505 e)|]; cbn [fst snd]; log_step.
  - intros user salt b. unfold BcryptRev.put_auth_change_password.
    destruct (pc_currentPassword b) as [c|], (pc_newPassword b) as [n|];
      cbn [fst snd]; try log_step.
    destruct (_ || _); cbn [fst snd]; [log_step|].
    destruct (select_user_by_id s (tu_id user)) as [row|]; cbn [fst snd]; [|log_step].
    destruct (password (user_cols row)); cbn [fst snd]; [|log_step].
    destruct (negb _); cbn [fst snd]; log_step.
  - intros user id. unfold BcryptRev.delete_users_id.
    destruct (BcryptRev.is_own_id id user); cbn [fst snd]; [log_step|].
    destruct (int4_in id) as [n|]; cbn [fst snd]; log_step.
  - intros req user d. unfold BcryptRev.post_agreements, BcryptRev.insert_and_log.
    destruct (BcryptRev.token_check s d); cbn [fst snd]; [log_step|].
    match goal with
    | |- context [insert_agreement ea ?nn s ?c] =>
        pose proof (insert_agreement_logs ea nn s c) as H1;
        destruct (insert_agreement ea nn s c) as [s1 [e|row]]
    end; cbn [fst snd] in *; log_step.
  - intros req user id d. unfold BcryptRev.put_agreements_id.
    destruct (int4_in id) as [n|]; cbn [fst snd]; [|log_step].
    destruct (token_taken_by_other _ _ _); cbn [fst snd]; [log_step|].
    match goal with
    | |- context [update_agreement ea ?nn ?m s n ?c] =>
        pose proof (update_agreement_logs ea nn m s n c) as H1;
        destruct (update_agreement ea nn m s n c) as [s1 [e|row]]
    end; cbn [fst snd] in *; log_step.
  - intros b. unfold Argon2Rev.post_auth_login.
    destruct (select_user_by_username s _) as [user|]; cbn [fst snd]; [|log_step].
    destruct (password (user_cols user)) as [digest|]; cbn [fst snd]; [|log_step].
    destruct (verify digest _) as [[|]|]; cbn [fst snd]; log_step.
  - intros b s' H.
    apply (PlainRev_restore_commits_snapshot ea now s s' b _ H). reflexivity.
  - intros env. unfold Base64Rev.post_debug_reset_db. cbn [fst snd].
    split; [|reflexivity]. rewrite seed_users_logs. reflexivity.
Qed.

(* ================================================================== *)
(** ** Beyond the claims: import and export of a backup ([Argon2Rev]) *)

Section ImportFacts.
Variable now : string.
Variable values_accepted : list SqlValue -> bool.
Variable token_conflict : list Argon2Rev.StoredAgreement -> list SqlValue -> bool.

Lemma import_agreement_users t item t1 :
  Argon2Rev.import_agreement now values_accepted token_conflict t item = Some t1 ->
  Argon2Rev.t_users t1 = Argon2Rev.t_users t.
Proof.
  unfold Argon2Rev.import_agreement. destruct item as [vs|]; [|discriminate].
  destruct (negb (_ =? _)%nat); [discriminate|].
  destruct (negb (values_accepted vs)); [discriminate|].
  destruct (token_conflict _ _); [intros H; inversion H; reflexivity|].
  destruct (existsb _ _); [discriminate|].
  intros H; inversion H; reflexivity.
Qed.

Lemma import_agreements_users items : forall t,
  Argon2Rev.t_users
    (fst (Argon2Rev.import_agreements now values_accepted token_conflict t items))
  = Argon2Rev.t_users t.
Proof.
  induction items as [|item items IH]; intros t; cbn [Argon2Rev.import_agreements];
    [reflexivity|].
  destruct (Argon2Rev.import_agreement _ _ _ t item) as [t1|] eqn:E; [|reflexivity].
  rewrite IH. exact (import_agreement_users t item t1 E).
Qed.

Lemma import_users_passed (us : list (option Argon2Rev.ImportUser)) :
  Argon2Rev.import_users us = false ->
  Forall (fun e => exists u, e = Some u /\ Argon2Rev.iu_username u = Some "admin") us.
Proof.
  induction us as [|[u|] us IH]; cbn [Argon2Rev.import_users]; intros H.
  - constructor.
  - destruct (Argon2Rev.iu_username u) as [name|] eqn:E; [|discriminate H].
    destruct (String.eqb_spec name "admin") as [->|_]; [|discriminate H].
    constructor; [exists u; auto | auto].
  - discriminate H.
Qed.

End ImportFacts.

(** X18.  [POST /api/backup/import] of [Argon2Rev] never brings a user
    back.  Whatever the body and whatever the answer, the users table after
    the request is the users table before it without the rows whose role is
    not 'admin'.  The request is answered 200 only if every entry of the
    body's users is named 'admin': a backup that lists any other user is
    answered 500, after the deletions. *)
Theorem Argon2Rev_import_never_restores_users :
  forall (now : string) (accepted : list SqlValue -> bool)
         (conflict : list Argon2Rev.StoredAgreement -> list SqlValue -> bool)
         (t : Argon2Rev.Tables)
         (ags : option (list (option (list SqlValue))))
         (us : option (list (option Argon2Rev.ImportUser))),
    let out := Argon2Rev.post_backup_import now accepted conflict t ags us in
    Argon2Rev.t_users (fst out) = admins_of (Argon2Rev.t_users t)
    /\ (Argon2Rev.ia_status (snd out) = 200 ->
        exists us',
          us = Some us'
          /\ Forall (fun e => exists u, e = Some u
                                        /\ Argon2Rev.iu_username u = Some "admin") us').
Proof.
  intros now accepted conflict t ags us. cbv zeta.
  unfold Argon2Rev.post_backup_import.
  destruct ags as [ags|]; cbn [fst snd Argon2Rev.ia_status];
    [|split; [reflexivity|discriminate]].
  match goal with
  | |- context [Argon2Rev.import_agreements now accepted conflict ?t1 ags] =>
      pose proof (import_agreements_users now accepted conflict ags t1) as Hu;
      destruct (Argon2Rev.import_agreements now accepted conflict t1 ags)
        as [t2 [|]]
  end; cbn [fst snd Argon2Rev.t_users Argon2Rev.ia_status] in *;
    [split; [exact Hu|discriminate]|].
  destruct us as [us|]; cbn [fst snd Argon2Rev.ia_status];
    [|split; [exact Hu|discriminate]].
  destruct (Argon2Rev.import_users us) eqn:E; cbn [fst snd Argon2Rev.ia_status];
    [split; [exact Hu|discriminate]|].
  split; [exact Hu|]. intros _. exists us. split; [reflexivity|].
  apply import_users_passed, E.
Qed.

(** X19.  In [Argon2Rev] the import does not take what the export gives.
    A row of the export has the twenty-five columns of the table, the
    statement of the import has twenty-three parameters; so when the table
    holds an agreement, importing the agreements of the export is answered
    500, and the agreements table is then empty and the users whose role is
    not 'admin' are gone. *)
Theorem Argon2Rev_import_of_an_export_fails :
  forall (now : string) (accepted : list SqlValue -> bool)
         (conflict : list Argon2Rev.StoredAgreement -> list SqlValue -> bool)
         (t : Argon2Rev.Tables)
         (us : option (list (option Argon2Rev.ImportUser))),
    Argon2Rev.t_agreements t <> [] ->
    Forall (fun r => List.length (Argon2Rev.sa_values r) = 23%nat)
      (Argon2Rev.t_agreements t) ->
    exists t',
      Argon2Rev.post_backup_import now accepted conflict t
        (Some (map Some (Argon2Rev.get_backup_export_agreements t))) us
      = (t', {| Argon2Rev.ia_status := 500;
                Argon2Rev.ia_body := Argon2Rev.ImportError "Failed to import backup" |})
      /\ Argon2Rev.t_agreements t' = []
      /\ Argon2Rev.t_users t' = admins_of (Argon2Rev.t_users t).
Proof.
  intros now accepted conflict t us Hne H23.
  unfold Argon2Rev.post_backup_import, Argon2Rev.get_backup_export_agreements.
  destruct (Argon2Rev.t_agreements t) as [|r rows]; [contradiction|].
  inversion H23 as [|r0 rows0 Hr _]; subst.
  cbn [map Argon2Rev.import_agreements Argon2Rev.import_agreement].
  assert (Hlen : (List.length (Argon2Rev.exported_values r) =? 23)%nat = false).
  { unfold Argon2Rev.exported_values. cbn [List.length].
    rewrite length_app, Hr. reflexivity. }
  rewrite Hlen. cbn [negb]. eexists. split; [reflexivity|]. split; reflexivity.
Qed.

Lemma Argon2Rev_import_of_an_export_fails_witness :
  exists t',
    Argon2Rev.post_backup_import "2024-02-02" accept_values no_conflict one_row_tables
      (Some (map Some (Argon2Rev.get_backup_export_agreements one_row_tables)))
      (Some [])
    = (t', {| Argon2Rev.ia_status := 500;
              Argon2Rev.ia_body := Argon2Rev.ImportError "Failed to import backup" |})
    /\ Argon2Rev.t_agreements t' = []
    /\ map user_id (Argon2Rev.t_users t') = [1; 3].
Proof.
  destruct (Argon2Rev_import_of_an_export_fails "2024-02-02" accept_values no_conflict
              one_row_tables (Some [])) as (t' & H & Ha & Hu).
  - discriminate.
  - repeat constructor.
  - exists t'. split; [exact H|]. split; [exact Ha|]. rewrite Hu. reflexivity.
Defined.

(* ================================================================== *)
(** ** Beyond the claims: change of password in [Argon2Rev] *)

(** X20.  Change of password and login of [Argon2Rev] fit together.  When
    [PUT /api/auth/change-password] answers 200 for the user of the token
    (found by id), the new password was hashed, and from then on a login
    under that user's name (found by username) is decided by
    [argon2.verify] of that hash alone: 200 with the user's id, name and
    role when it accepts, 401 when it rejects, 500 when it throws.  Neither
    route asks for a password that is not empty. *)
Theorem Argon2Rev_change_password_then_login :
  forall (verify : string -> JsText -> option bool)
         (hash : JsText -> string -> option string)
         (sign : TokenUser -> string) (now : string)
         (s s1 : Store) (user : TokenUser) (salt : string) (b : PasswordChange)
         (row : UserRow) (u : string) (resp : Response),
    user_keys_ok (users s) ->
    select_user_by_id s (tu_id user) = Some row ->
    username (user_cols row) = Some u ->
    Argon2Rev.put_auth_change_password verify hash s user salt b = (s1, resp) ->
    status resp = 200 ->
    exists h,
      hash (pc_newPassword b) salt = Some h
      /\ forall p,
           Argon2Rev.post_auth_login verify sign now s1
             {| Argon2Rev.req_username := Some u; Argon2Rev.req_password := p |}
           = match verify h p with
             | Some true =>
                 (Argon2Rev.update_last_login s1 now (tu_id user),
                  respond 200
                    (BodyJwtLogin "Login successful" (tu_id user) (Some u)
                       (role (user_cols row))
                       (sign {| tu_id := tu_id user; tu_username := Some u;
                                tu_role := role (user_cols row) |})))
             | Some false => (s1, respond 401 (BodyError "Invalid credentials"))
             | None => (s1, respond 500 (BodyError "Server error during authentication"))
             end.
Proof.
  intros verify hash sign now s s1 user salt b row u resp Hk Hsel Hname Hput Hst.
  unfold Argon2Rev.put_auth_change_password in Hput. rewrite Hsel in Hput.
  destruct (password (user_cols row)) as [digest|];
    [|inversion Hput; subst; discriminate Hst].
  destruct (verify digest (pc_currentPassword b)) as [[|]|];
    try (inversion Hput; subst; discriminate Hst).
  destruct (hash (pc_newPassword b) salt) as [h|];
    [|inversion Hput; subst; discriminate Hst].
  inversion Hput; subst. clear Hput Hst.
  exists h. split; [reflexivity|]. intros p.
  destruct (select_after_password_update_by_id s (tu_id user) h u row Hk Hsel Hname)
    as (row1 & Hsel1 & Hpw1 & Hid1 & Hname1 & Hrole1).
  apply find_some in Hsel. destruct Hsel as [_ Hid]. apply Z.eqb_eq in Hid.
  unfold Argon2Rev.post_auth_login.
  cbn [Argon2Rev.req_username Argon2Rev.req_password].
  rewrite Hsel1, Hpw1.
  destruct (verify h p) as [[|]|]; [|reflexivity|reflexivity].
  rewrite Hid1, Hname1, Hrole1, Hid. reflexivity.
Qed.

(** The admin sets the empty password and logs in with it. *)
Lemma Argon2Rev_change_password_then_login_witness :
  exists s1 s2,
    Argon2Rev.put_auth_change_password toy_verify toy_argon2_hash three_users_store
      admin_token "salt"
      {| pc_username := None; pc_currentPassword := Some "admin123";
         pc_newPassword := Some "" |}
    = (s1, respond 200 (BodyMessage "Password updated successfully."))
    /\ Argon2Rev.post_auth_login toy_verify toy_sign_name "2024-02-02" s1
         {| Argon2Rev.req_username := Some "admin"; Argon2Rev.req_password := Some "" |}
       = (s2, respond 200
                (BodyJwtLogin "Login successful" 1 (Some "admin") (Some "admin")
                   "jwt.admin")).
Proof.
  destruct (Argon2Rev_change_password_then_login toy_verify toy_argon2_hash
              toy_sign_name "2024-02-02" three_users_store _ admin_token "salt"
              {| pc_username := None; pc_currentPassword := Some "admin123";
                 pc_newPassword := Some "" |}
              (user_row 1 "admin" (toy_digest "admin123") "admin") "admin" _
              ltac:(cbn; repeat split) eq_refl eq_refl eq_refl eq_refl)
    as (h & Hh & Hlogin).
  eexists _, _. split; [reflexivity|].
  injection Hh as <-. rewrite (Hlogin (Some "")). reflexivity.
Defined.

(* ================================================================== *)
(** ** Beyond the claims: the numbers of the form, in the browser and on
       the server *)

Lemma num_truthy_not_zero (x : float) :
  num_truthy x = true -> PrimFloat.is_nan x = false /\ PrimFloat.is_zero x = false.
Proof.
  unfold num_truthy. destruct (PrimFloat.is_nan x), (PrimFloat.is_zero x);
    cbn; intros H; try discriminate H. auto.
Qed.

(** A number of the form that is not infinite is read by the server as the
    browser read it. *)
Lemma money_of_field (pfs : string -> float) (text : string) :
  PrimFloat.is_infinity (Client.field_number pfs text) = false ->
  money pfs (Client.through_json (JNumber (Client.field_number pfs text)))
  = Client.field_number pfs text.
Proof.
  unfold Client.field_number, orZero.
  destruct (num_truthy (pfs text)) eqn:E.
  - destruct (num_truthy_not_zero _ E) as [Hn Hz]. intros Hi.
    unfold Client.through_json. rewrite Hn, Hi, Hz. cbn [orb].
    unfold money, parseFloat, orZero. rewrite Hz, E. reflexivity.
  - intros _. vm_compute. reflexivity.
Qed.

Lemma money_of_infinite_field (pfs : string -> float) (text : string) :
  PrimFloat.is_infinity (Client.field_number pfs text) = true ->
  money pfs (Client.through_json (JNumber (Client.field_number pfs text))) = 0%float.
Proof.
  intros Hi. unfold Client.through_json. rewrite Hi, orb_true_r. reflexivity.
Qed.

(** X21.  The profit the browser shows and the profit the server computes
    are the same numbers.  For a form whose four profit inputs are not read
    as infinite, and the body that [saveAgreement] sends for it, the
    parameters [params] that the create and update of [PlainRev] and
    [BcryptRev] pass to the engine have as gross profit, net profit and
    margin the three numbers of [calculateProfit] (which the browser shows
    rounded to two decimals), and as total payment the number the browser
    read.  A field read as infinite is sent as null and read by the server
    as 0. *)
Theorem browser_and_server_profit_agree :
  forall (pfs : string -> float) (f : Client.Form),
    PrimFloat.is_infinity (Client.field_number pfs (Client.form_totalPayment f)) = false ->
    PrimFloat.is_infinity (Client.field_number pfs (Client.form_actualCost f)) = false ->
    PrimFloat.is_infinity (Client.field_number pfs (Client.form_agentCommission f))
    = false ->
    PrimFloat.is_infinity (Client.field_number pfs (Client.form_otherExpenses f)) = false ->
    let stored := params pfs (Client.sent_body (Client.collectAgreementData pfs f)) in
    (SqlNum (fst (fst (Client.calculateProfit pfs f))),
     SqlNum (snd (fst (Client.calculateProfit pfs f))),
     SqlNum (snd (Client.calculateProfit pfs f)))
    = (gross_profit stored, net_profit stored, profit_margin stored)
    /\ total_payment stored
       = SqlNum (Client.field_number pfs (Client.form_totalPayment f))
    /\ forall text,
         PrimFloat.is_infinity (Client.field_number pfs text) = true ->
         money pfs (Client.through_json (JNumber (Client.field_number pfs text)))
         = 0%float.
Proof.
  intros pfs f Ht Hc Ha Ho. cbv zeta.
  unfold params, profitMargin_of, netProfit_of, grossProfit_of,
    Client.calculateProfit, Client.sent_body, Client.collectAgreementData.
  cbn [totalPayment actualCost agentCommission otherExpenses fst snd
       gross_profit net_profit profit_margin total_payment].
  rewrite !(money_of_field pfs _ Ht), !(money_of_field pfs _ Hc),
    !(money_of_field pfs _ Ha), !(money_of_field pfs _ Ho).
  split; [reflexivity|]. split; [reflexivity|].
  exact (money_of_infinite_field pfs).
Qed.

(** The scenario: 1000 paid, cost 400, commission 50, other expenses 10. *)
Lemma browser_and_server_profit_agree_witness :
  let stored :=
    params toy_parse (Client.sent_body (Client.collectAgreementData toy_parse
                                          scenario_form)) in
  (SqlNum 600%float, SqlNum 540%float, SqlNum 54%float)
  = (gross_profit stored, net_profit stored, profit_margin stored).
Proof.
  exact (proj1 (browser_and_server_profit_agree toy_parse scenario_form
                  eq_refl eq_refl eq_refl eq_refl)).
Defined.
